(** * GridPath: model-assembly modules, shallowly embedded

    The development follows the Python sources module by module.  Every
    Python module becomes a Rocq [Module] whose definitions keep the names
    of the functions they are translated from.  Exceptions are explicit
    ([result]), objects mutated in place are threaded through as values, and
    Pyomo index sets are lists in iteration order.

    Numeric parameters (MW, MWh) are Python floats in the sources; they are
    modelled by rationals [Q], with [+inf] as a separate constructor where
    the code tests for it.  Only the zero test, the infinity test, addition
    and division are used, and on these the two agree up to rounding. *)

From Stdlib Require Import ZArith QArith Lia Ascii String DecimalString.
From stdpp Require Import gmap strings list fin_maps.

Close Scope Q_scope.
Open Scope string_scope.
Open Scope list_scope.

(** ** Python runtime: exceptions and [os.path.join] *)

Module Py.

Inductive exn : Set :=
| ValueError
| KeyError
| IndexError
| AttributeError
| RuntimeError
| ZeroDivisionError
| StopIteration
| IOError.

Inductive result (A : Type) : Type :=
| Ok (a : A)
| Raise (e : exn).

Arguments Ok {A} a.
Arguments Raise {A} e.

Definition bind {A B : Type} (c : result A) (k : A -> result B) : result B :=
  match c with
  | Ok a => k a
  | Raise e => Raise e
  end.

Definition raises {A : Type} (c : result A) : Prop :=
  match c with
  | Ok _ => False
  | Raise _ => True
  end.

(** [for x in xs: acc = body(acc, x)], stopping at the first exception. *)
Fixpoint for_each {A S : Type} (body : S -> A -> result S) (xs : list A) (acc : S)
  : result S :=
  match xs with
  | [] => Ok acc
  | x :: xs' => bind (body acc x) (for_each body xs')
  end.

(** [[f(x) for x in xs]] where [f] may raise. *)
Fixpoint comprehension {A B : Type} (f : A -> result B) (xs : list A)
  : result (list B) :=
  match xs with
  | [] => Ok []
  | x :: xs' =>
      bind (f x) (fun y => bind (comprehension f xs') (fun ys => Ok (y :: ys)))
  end.

Definition sep : string := "/".

(** [b.startswith("/")] *)
Definition startswith_sep (b : string) : bool :=
  match b with
  | String c _ => bool_decide (c = "/"%char)
  | EmptyString => false
  end.

(** [path.endswith("/")] *)
Fixpoint endswith_sep (path : string) : bool :=
  match path with
  | EmptyString => false
  | String c EmptyString => bool_decide (c = "/"%char)
  | String _ rest => endswith_sep rest
  end.

(** One iteration of the loop of [posixpath.join]:
<<
    if b.startswith(sep):              path = b
    elif not path or path.endswith(sep): path += b
    else:                               path += sep + b
>> *)
Definition join_step (path b : string) : string :=
  if startswith_sep b then b
  else if bool_decide (path = "") || endswith_sep path then path +:+ b
  else path +:+ sep +:+ b.

(** [os.path.join(a, *p)] on a POSIX system. *)
Definition os_path_join (a : string) (p : list string) : string :=
  fold_left join_step p a.

End Py.

#[global] Instance result_ret : MRet Py.result := @Py.Ok.
#[global] Instance result_bind : MBind Py.result :=
  fun A B k c => Py.bind c k.

(** ** A fragment of pandas: dataframes indexed by a key

    A dataframe is the list of its rows; a row is its index label and a
    finite map from column names to cells.  A cell that holds [None]/NaN is
    [None]. *)

Module Pandas.

Section Frames.
Context {K V : Type} `{EqDecision K}.

Definition cell : Type := option V.

Definition row : Type := K * gmap string cell.
Definition DataFrame : Type := list row.

Definition index (df : DataFrame) : list K := df.*1.

(** [df.loc[k]] restricted to the first row labelled [k]. *)
Fixpoint loc (df : DataFrame) (k : K) : option (gmap string cell) :=
  match df with
  | [] => None
  | (k', r) :: df' => if decide (k' = k) then Some r else loc df' k
  end.

(** [df[c] = None]: the column [c] is created or reset in every row. *)
Definition setitem_None (df : DataFrame) (c : string) : DataFrame :=
  (fun kr : row => (kr.1, <[c := None]> kr.2)) <$> df.

(** The cell that [update] leaves in column [c] of a row of the left
    frame: the cell of [other] when [other] has a row with this label and
    its cell in column [c] is not NA, the old cell otherwise. *)
Definition update_cell (other_row : option (gmap string cell))
    (c : string) (old : cell) : cell :=
  match other_row with
  | Some r' =>
      match r' !! c with
      | Some (Some v) => Some v
      | _ => old
      end
  | None => old
  end.

(** [df.update(other)]: aligns [other] on the index and the columns of
    [df] and overwrites in place with the non-NA cells of [other].  Rows and
    columns of [other] that [df] does not have are dropped.  Reindexing a
    frame with duplicated labels raises [ValueError]. *)
Definition update (df other : DataFrame) : Py.result DataFrame :=
  if bool_decide (NoDup (index other)) then
    Py.Ok ((fun kr : row =>
              (kr.1, map_imap (fun c old => Some (update_cell (loc other kr.1) c old)) kr.2))
           <$> df)
  else Py.Raise Py.ValueError.

(** Modelled from the spec: [gridpath.common_functions.create_results_df] is
    not among the sources.  The results of a module are rows, one per index,
    that are merged into a shared dataframe indexed by the index columns: the
    function builds the frame with one row per data row, labelled by the
    index part of the row, holding the remaining entries under
    [results_columns] in order. *)
Definition create_results_df (results_columns : list string)
    (data : list (K * list cell)) : DataFrame :=
  (fun d : K * list cell =>
     (d.1, list_to_map (zip results_columns d.2) : gmap string cell)) <$> data.

End Frames.

Arguments cell V : clear implicits.
Arguments row K V : clear implicits.
Arguments DataFrame K V : clear implicits.

End Pandas.

(** ** Pyomo data portal: the files a module asks to be loaded *)

Module DataPortal.

Record load_request : Type := Load {
  filename : string;
  index : option string;
  set_ : option string;
  param : list string
}.

(** A portal holds the [load] calls made on it, oldest first, and the
    entries written directly into [data_portal.data()]. *)
Record t : Type := {
  loads : list load_request;
  data : gmap string (list string)
}.

Definition load (data_portal : t) (r : load_request) : t :=
  {| loads := loads data_portal ++ [r]; data := data data_portal |}.

Definition empty : t := {| loads := []; data := ∅ |}.

(** The files the portal was asked to load, oldest first. *)
Definition filenames (data_portal : t) : list string :=
  filename <$> loads data_portal.

(** [data_portal.data()[key] = {None: items}] *)
Definition set_data (data_portal : t) (key : string) (items : list string) : t :=
  {| loads := loads data_portal; data := <[key := items]> (data data_portal) |}.

End DataPortal.

(** ** Pyomo abstract models: the components declared on a model

    An abstract model is the list of the names of the components declared on
    it so far, oldest first. *)

Module AbstractModel.
Import Py.

(** [m.name] read while components are declared. *)
Definition getattr (m : list string) (name : string) : result unit :=
  if decide (name ∈ m) then Ok tt else Raise AttributeError.

(** [m.name = Set(...)] (or Param, Var, Expression): Pyomo refuses a name
    that the model already has. *)
Definition add_component (m : list string) (name : string) : result (list string) :=
  if decide (name ∈ m) then Raise RuntimeError else Ok (m ++ [name]).

End AbstractModel.

(** ** gridpath/system/load_balance/static_load_requirement.py *)

Module StaticLoadRequirement.
Import Py.

(** A value of a Param within [NonNegativeReals]; [float("inf")] is kept
    apart because the code compares against it. *)
Inductive load_value : Type :=
| Finite (q : Q)
| Infinity.

(** Python [==] on these values. *)
Definition load_value_eqb (a b : load_value) : bool :=
  match a, b with
  | Finite x, Finite y => Qeq_bool x y
  | Infinity, Infinity => true
  | _, _ => false
  end.

(** The least sum that a float addition rounds to [inf]:
    [2^1024 - 2^970]. *)
Definition overflow_threshold : Q := inject_Z (2 ^ 1024 - 2 ^ 970).

(** Python [+] on these values: a sum of finite values that reaches the
    overflow threshold is [inf].  The values are nonnegative (both Params
    are within NonNegativeReals), so [-inf] does not arise. *)
Definition load_value_add (a b : load_value) : load_value :=
  match a, b with
  | Finite x, Finite y =>
      if Qle_bool overflow_threshold (x + y) then Infinity else Finite (x + y)%Q
  | _, _ => Infinity
  end.

(** The model [m] (called [mod] in rules) with the data of a scenario loaded: index sets in
    iteration order, and for each Param the entries found in its .tab file. *)
Record Model : Type := {
  LOAD_ZONES : list string;
  TMPS : list Z;
  LOAD_ZONE_LOAD_CMPNTS : list (string * string);
  load_level_default_data : gmap (string * string) load_value;
  LOAD_ZONE_TMP_LOAD_CMPNTS : list (string * Z * string);
  component_static_load_mw_data : gmap (string * Z * string) load_value
}.

(** The dynamic components object [d]: attributes holding lists of
    component names, and attributes holding results dataframes. *)
Record DynamicComponents : Type := {
  name_lists : gmap string (list string);
  frames : gmap string (Pandas.DataFrame (string * Z) load_value)
}.

(** [getattr(d, name)] for a list attribute. *)
Definition getattr_list (d : DynamicComponents) (name : string)
  : result (list string) :=
  match name_lists d !! name with
  | Some l => Ok l
  | None => Raise AttributeError
  end.

(** [getattr(d, name)] for a dataframe attribute. *)
Definition getattr_frame (d : DynamicComponents) (name : string)
  : result (Pandas.DataFrame (string * Z) load_value) :=
  match frames d !! name with
  | Some df => Ok df
  | None => Raise AttributeError
  end.

Definition set_list (d : DynamicComponents) (name : string) (l : list string)
  : DynamicComponents :=
  {| name_lists := <[name := l]> (name_lists d); frames := frames d |}.

Definition set_frame (d : DynamicComponents) (name : string)
    (df : Pandas.DataFrame (string * Z) load_value) : DynamicComponents :=
  {| name_lists := name_lists d; frames := <[name := df]> (frames d) |}.

Section Constants.
(** The attribute names imported from [gridpath.auxiliary.dynamic_components]
    and [gridpath.system.load_balance]. *)
Variable load_balance_consumption_components : string.
Variable LOAD_ZONE_TMP_DF : string.

(** [getattr(dynamic_components, load_balance_consumption_components)
       .append("LZ_Load_in_Tmp")] *)
Definition record_dynamic_components (dynamic_components : DynamicComponents)
  : result DynamicComponents :=
  l ← getattr_list dynamic_components load_balance_consumption_components;
  mret (set_list dynamic_components load_balance_consumption_components
          (l ++ ["LZ_Load_in_Tmp"])).

(** [m.load_level_default = Param(m.LOAD_ZONE_LOAD_CMPNTS,
       within=NonNegativeReals, initialize=float("inf"))]:
    an entry read from the file replaces the initial value; reading the
    Param at a pair that is not in LOAD_ZONE_LOAD_CMPNTS raises
    [KeyError]. *)
Definition load_level_default (mod_ : Model) (lz cmp : string)
  : result load_value :=
  if decide ((lz, cmp) ∈ LOAD_ZONE_LOAD_CMPNTS mod_)
  then Ok (default Infinity (load_level_default_data mod_ !! (lz, cmp)))
  else Raise KeyError.

Definition check_for_value_and_raise_value_error
    (param value_to_check : load_value) : result unit :=
  if load_value_eqb param value_to_check then Raise ValueError else Ok tt.

Definition set_default_and_warn_about_undefined_loads
    (mod_ : Model) (lz : string) (tmp : Z) (cmp : string) : result load_value :=
  param ← load_level_default mod_ lz cmp;
  _ ← check_for_value_and_raise_value_error param Infinity;
  load_level_default mod_ lz cmp.

(** [m.component_static_load_mw = Param(m.LOAD_ZONE_TMP_LOAD_CMPNTS,
       within=NonNegativeReals, default=lambda ...)]: reading an index
    outside LOAD_ZONE_TMP_LOAD_CMPNTS raises [KeyError]; reading an index
    without an entry calls the default rule. *)
Definition component_static_load_mw
    (mod_ : Model) (lz : string) (tmp : Z) (cmp : string) : result load_value :=
  if decide ((lz, tmp, cmp) ∈ LOAD_ZONE_TMP_LOAD_CMPNTS mod_) then
    match component_static_load_mw_data mod_ !! (lz, tmp, cmp) with
    | Some v => Ok v
    | None => set_default_and_warn_about_undefined_loads mod_ lz tmp cmp
    end
  else Raise KeyError.

(** Body of the [for] loop of [total_static_load_from_components_init]. *)
Definition total_static_load_step (mod_ : Model) (lz : string) (tmp : Z)
    (lz_load_in_tmp : load_value) (i : string * Z * string) : result load_value :=
  let '(load_zone, timepoint, component) := i in
  v ← component_static_load_mw mod_ load_zone timepoint component;
  if load_value_eqb v Infinity then Raise ValueError
  else if bool_decide (load_zone = lz) && bool_decide (timepoint = tmp) then
    w ← component_static_load_mw mod_ load_zone timepoint component;
    mret (load_value_add lz_load_in_tmp w)
  else mret lz_load_in_tmp.

Definition total_static_load_from_components_init
    (mod_ : Model) (lz : string) (tmp : Z) : result load_value :=
  for_each (total_static_load_step mod_ lz tmp)
    (LOAD_ZONE_TMP_LOAD_CMPNTS mod_) (Finite 0).

(** [m.LZ_Load_in_Tmp = Expression(m.LOAD_ZONES, m.TMPS,
       initialize=total_static_load_from_components_init)] *)
Definition LZ_Load_in_Tmp (mod_ : Model) (lz : string) (tmp : Z)
  : result load_value :=
  total_static_load_from_components_init mod_ lz tmp.

(** The declarations of [add_model_components] on the abstract model [m],
    in order: each reads the index sets it is defined over, which other
    modules must have declared, and then sets its own attribute. *)
Definition add_model_components (m : list string) (d : DynamicComponents)
  : result (list string * DynamicComponents) :=
  _ ← AbstractModel.getattr m "LOAD_ZONES";
  m ← AbstractModel.add_component m "LOAD_ZONE_LOAD_CMPNTS";
  _ ← AbstractModel.getattr m "LOAD_ZONE_LOAD_CMPNTS";
  m ← AbstractModel.add_component m "load_level_default";
  _ ← AbstractModel.getattr m "LOAD_ZONES";
  _ ← AbstractModel.getattr m "TMPS";
  m ← AbstractModel.add_component m "LOAD_ZONE_TMP_LOAD_CMPNTS";
  _ ← AbstractModel.getattr m "LOAD_ZONE_TMP_LOAD_CMPNTS";
  m ← AbstractModel.add_component m "component_static_load_mw";
  _ ← AbstractModel.getattr m "LOAD_ZONES";
  _ ← AbstractModel.getattr m "TMPS";
  m ← AbstractModel.add_component m "LZ_Load_in_Tmp";
  d ← record_dynamic_components d;
  mret (m, d).

Definition load_model_data (data_portal : DataPortal.t)
    (scenario_directory weather_iteration hydro_iteration
     availability_iteration subproblem stage : string) : DataPortal.t :=
  let data_portal :=
    DataPortal.load data_portal
      {| DataPortal.filename :=
           os_path_join scenario_directory
             [weather_iteration; hydro_iteration; availability_iteration;
              subproblem; stage; "inputs"; "load_mw.tab"];
         DataPortal.index := Some "LOAD_ZONE_TMP_LOAD_CMPNTS";
         DataPortal.set_ := None;
         DataPortal.param := ["component_static_load_mw"] |} in
  DataPortal.load data_portal
    {| DataPortal.filename :=
         os_path_join scenario_directory
           [weather_iteration; hydro_iteration; availability_iteration;
            subproblem; stage; "inputs"; "load_level_defaults.tab"];
       DataPortal.index := Some "LOAD_ZONE_LOAD_CMPNTS";
       DataPortal.set_ := None;
       DataPortal.param := ["load_level_default"] |}.

Definition results_columns : list string := ["static_load_mw"].

(** The list [data] of [export_results]: the comprehension
    [for lz in LOAD_ZONES for tmp in TMPS]. *)
Definition export_results_data (m : Model)
  : result (list (string * Z * list (Pandas.cell load_value))) :=
  comprehension
    (fun '(lz, tmp) => v ← LZ_Load_in_Tmp m lz tmp; mret ((lz, tmp), [Some v]))
    (list_prod (LOAD_ZONES m) (TMPS m)).

Definition export_results (m : Model) (d : DynamicComponents)
  : result DynamicComponents :=
  data ← export_results_data m;
  let results_df := Pandas.create_results_df results_columns data in
  d ← foldl (fun (acc : result DynamicComponents) c =>
               d ← acc;
               df ← getattr_frame d LOAD_ZONE_TMP_DF;
               mret (set_frame d LOAD_ZONE_TMP_DF (Pandas.setitem_None df c)))
            (Ok d) results_columns;
  df ← getattr_frame d LOAD_ZONE_TMP_DF;
  df ← Pandas.update df results_df;
  mret (set_frame d LOAD_ZONE_TMP_DF df).

End Constants.

(** *** Notions used to state properties of [LZ_Load_in_Tmp] *)

(** The value of [component_static_load_mw] at an index: the entry of the
    load file, or [load_level_default] of the zone and component when there
    is none; an index that has neither (the default cannot be read) counts
    as having no finite value. *)
Definition static_load_value (mod_ : Model) (i : string * Z * string)
  : load_value :=
  let '(lz, tmp, cmp) := i in
  match component_static_load_mw_data mod_ !! (lz, tmp, cmp) with
  | Some v => v
  | None =>
      match load_level_default mod_ lz cmp with
      | Ok v => v
      | Raise _ => Infinity
      end
  end.


(** The components [c] with [(lz, tmp, c)] in LOAD_ZONE_TMP_LOAD_CMPNTS. *)
Definition components_of (mod_ : Model) (lz : string) (tmp : Z) : list string :=
  omap (fun i : string * Z * string =>
          let '(load_zone, timepoint, component) := i in
          if decide (load_zone = lz /\ timepoint = tmp) then Some component
          else None)
       (LOAD_ZONE_TMP_LOAD_CMPNTS mod_).


(** *** Notions used to state properties of [export_results] *)

(** The cell that belongs in column static_load_mw of the row [(lz, tmp)]
    of the shared frame: the expression when [(lz, tmp)] is in
    LOAD_ZONES x TMPS, nothing otherwise. *)
Definition merged_static_load (m : Model) (k : string * Z)
  : Pandas.cell load_value :=
  if decide (k.1 ∈ LOAD_ZONES m /\ k.2 ∈ TMPS m) then
    match LZ_Load_in_Tmp m k.1 k.2 with
    | Ok v => Some v
    | Raise _ => None
    end
  else None.

Definition static_load_row (m : Model) (k : string * Z)
  : string * Z * list (Pandas.cell load_value) :=
  (k, [merged_static_load m k]).

(** *** The database behind [get_inputs_from_database]

    The tables carry the columns that the two queries mention.  A query is
    read as the list of rows SQLite returns: [INNER JOIN ... USING] pairs
    every left row with every matching right row, a scalar subquery is the
    first row of its result or NULL, and a comparison with NULL selects
    nothing. *)

Record inputs_system_load_levels_row : Type := {
  levels_load_levels_scenario_id : Z;
  levels_weather_iteration : Z;
  levels_stage_id : Z;
  levels_load_zone : string;
  levels_timepoint : Z;
  levels_load_component : string;
  levels_load_mw : Q
}.

Record inputs_temporal_row : Type := {
  temporal_temporal_scenario_id : Z;
  temporal_subproblem_id : Z;
  temporal_stage_id : Z;
  temporal_timepoint : Z
}.

Record inputs_geography_load_zones_row : Type := {
  geography_load_zone_scenario_id : Z;
  geography_load_zone : string
}.

Record inputs_system_load_row : Type := {
  load_load_scenario_id : Z;
  load_load_levels_scenario_id : Z;
  load_load_components_scenario_id : Z
}.

Record inputs_system_load_components_row : Type := {
  components_load_components_scenario_id : Z;
  components_load_zone : string;
  components_load_component : string;
  components_load_level_default : option Q
}.

(** The database: its tables, and, for each of the two scalar subqueries on
    inputs_system_load, the order in which SQLite scans the rows of that
    table (by an index the query planner picks, not by the order of
    insertion), which decides the row the subquery yields. *)
Record Connection : Type := {
  inputs_system_load_levels : list inputs_system_load_levels_row;
  inputs_temporal : list inputs_temporal_row;
  inputs_geography_load_zones : list inputs_geography_load_zones_row;
  inputs_system_load : list inputs_system_load_row;
  inputs_system_load_components : list inputs_system_load_components_row;
  load_levels_scan : list inputs_system_load_row -> list inputs_system_load_row;
  load_components_scan : list inputs_system_load_row -> list inputs_system_load_row
}.

Record SubScenarios : Type := {
  TEMPORAL_SCENARIO_ID : Z;
  LOAD_ZONE_SCENARIO_ID : Z;
  LOAD_SCENARIO_ID : Z
}.

(** [l INNER JOIN r USING (col)], with [cl] and [cr] reading the shared
    column on either side. *)
Definition inner_join {A B C : Type} `{EqDecision C} (cl : A -> C) (cr : B -> C)
    (l : list A) (r : list B) : list (A * B) :=
  a ← l; pair a <$> filter (fun b => cl a = cr b) r.

(** [(SELECT col FROM t WHERE ...)] used as a value: the first row of the
    result, the rows being given in the order of the scan. *)
Definition scalar_subquery {A : Type} (rows : list A) : option A := head rows.

(** [FROM inputs_system_load WHERE load_scenario_id = ..]: the rows of
    inputs_system_load with the scenario's load_scenario_id, in the order of
    the scan [scan]. *)
Definition scenario_load_rows
    (scan : list inputs_system_load_row -> list inputs_system_load_row)
    (conn : Connection) (subscenarios : SubScenarios)
  : list inputs_system_load_row :=
  filter (fun s => load_load_scenario_id s = LOAD_SCENARIO_ID subscenarios)
         (scan (inputs_system_load conn)).

(** [SELECT timepoint FROM inputs_temporal WHERE temporal_scenario_id = ..
    AND subproblem_id = .. AND stage_id = ..] *)
Definition relevant_timepoints (conn : Connection) (subscenarios : SubScenarios)
    (subproblem stage : Z) : list Z :=
  temporal_timepoint <$>
    filter (fun t => temporal_temporal_scenario_id t = TEMPORAL_SCENARIO_ID subscenarios
                     /\ temporal_subproblem_id t = subproblem
                     /\ temporal_stage_id t = stage)
           (inputs_temporal conn).

(** [SELECT load_zone FROM inputs_geography_load_zones
     WHERE load_zone_scenario_id = ..] *)
Definition relevant_load_zones (conn : Connection) (subscenarios : SubScenarios)
  : list string :=
  geography_load_zone <$>
    filter (fun g => geography_load_zone_scenario_id g = LOAD_ZONE_SCENARIO_ID subscenarios)
           (inputs_geography_load_zones conn).

(** [SELECT load_levels_scenario_id FROM inputs_system_load
     WHERE load_scenario_id = ..] *)
Definition scenario_load_levels (conn : Connection) (subscenarios : SubScenarios)
  : option Z :=
  scalar_subquery
    (load_load_levels_scenario_id
       <$> scenario_load_rows (load_levels_scan conn) conn subscenarios).

(** [SELECT load_components_scenario_id FROM inputs_system_load
     WHERE load_scenario_id = ..] *)
Definition scenario_load_components (conn : Connection) (subscenarios : SubScenarios)
  : option Z :=
  scalar_subquery
    (load_load_components_scenario_id
       <$> scenario_load_rows (load_components_scan conn) conn subscenarios).

(** [SELECT load_zone, load_component FROM inputs_system_load_components
     WHERE load_components_scenario_id = (...)] *)
Definition scenario_components (conn : Connection) (subscenarios : SubScenarios)
  : list (string * string) :=
  (fun c => (components_load_zone c, components_load_component c)) <$>
    filter (fun c => Some (components_load_components_scenario_id c)
                     = scenario_load_components conn subscenarios)
           (inputs_system_load_components conn).

(** The first query of [get_inputs_from_database]. *)
Definition loads_query (conn : Connection) (subscenarios : SubScenarios)
    (weather_iteration subproblem stage : Z) : list (string * Z * string * Q) :=
  let joined :=
    inner_join (fun lt : inputs_system_load_levels_row * Z => levels_load_zone lt.1) id
      (inner_join levels_timepoint id
         (inputs_system_load_levels conn)
         (relevant_timepoints conn subscenarios subproblem stage))
      (relevant_load_zones conn subscenarios) in
  (fun j : inputs_system_load_levels_row * Z * string =>
     (levels_load_zone j.1.1, levels_timepoint j.1.1,
      levels_load_component j.1.1, levels_load_mw j.1.1)) <$>
    filter (fun j : inputs_system_load_levels_row * Z * string =>
              Some (levels_load_levels_scenario_id j.1.1)
                = scenario_load_levels conn subscenarios
              /\ (levels_load_zone j.1.1, levels_load_component j.1.1)
                   ∈ scenario_components conn subscenarios
              /\ levels_weather_iteration j.1.1 = weather_iteration
              /\ levels_stage_id j.1.1 = stage)
           joined.

(** The second query of [get_inputs_from_database]. *)
Definition ld_comp_defaults_query (conn : Connection) (subscenarios : SubScenarios)
  : list (string * string * option Q) :=
  (fun j : inputs_system_load_components_row * string =>
     (components_load_zone j.1, components_load_component j.1,
      components_load_level_default j.1)) <$>
    filter (fun j : inputs_system_load_components_row * string =>
              Some (components_load_components_scenario_id j.1)
                = scenario_load_components conn subscenarios)
           (inner_join components_load_zone id
              (inputs_system_load_components conn)
              (relevant_load_zones conn subscenarios)).

Definition get_inputs_from_database (scenario_id : Z) (subscenarios : SubScenarios)
    (weather_iteration hydro_iteration availability_iteration subproblem stage : Z)
    (conn : Connection)
  : list (string * Z * string * Q) * list (string * string * option Q) :=
  let loads := loads_query conn subscenarios weather_iteration subproblem stage in
  let ld_comp_defaults := ld_comp_defaults_query conn subscenarios in
  (loads, ld_comp_defaults).

End StaticLoadRequirement.

(** ** modules/generation_and_storage/operations/reserves/lf_reserves_down.py *)

Module LfReservesDown.
Import Py.

Record DynamicComponents : Type := {
  required_reserve_modules : list string;
  footroom_variables : gmap string (list string)
}.

(** [l[i]] *)
Definition getitem {A : Type} (l : list A) (i : nat) : result A :=
  match l !! i with
  | Some x => Ok x
  | None => Raise IndexError
  end.

Section Auxiliary.
(** The helpers imported from [modules.auxiliary.auxiliary], and the file
    system: the rows of a tab-separated file, or nothing when it cannot be
    opened. *)
Variable check_list_items_are_unique : list string -> result unit.
Variable find_list_item_position : list string -> string -> list nat.
Variable open_tab_file : string -> option (list (list string)).

(** [row[find_list_item_position(headers, name)[0]]] *)
Definition field (headers row : list string) (name : string) : result string :=
  i ← getitem (find_list_item_position headers name) 0;
  getitem row i.

(** Body of [for row in resources_file_reader]; [d] is mutated in place, so
    the changes made before an exception stay. *)
Definition read_row (headers : list string) (d : DynamicComponents)
    (row : list string) : DynamicComponents * result unit :=
  match field headers row "RESOURCES" with
  | Raise e => (d, Raise e)
  | Ok generator =>
      let d :=
        if decide (is_Some (footroom_variables d !! generator)) then d
        else {| required_reserve_modules := required_reserve_modules d;
                footroom_variables := <[generator := []]> (footroom_variables d) |} in
      match field headers row "lf_reserves_down_zone" with
      | Raise e => (d, Raise e)
      | Ok zone =>
          if decide (zone = ".") then (d, Ok tt)
          else
            ({| required_reserve_modules := required_reserve_modules d;
                footroom_variables :=
                  alter (fun l => l ++ ["Provide_LF_Reserves_Down_MW"]) generator
                        (footroom_variables d) |},
             Ok tt)
      end
  end.

Fixpoint read_rows (headers : list string) (d : DynamicComponents)
    (rows : list (list string)) : DynamicComponents * result unit :=
  match rows with
  | [] => (d, Ok tt)
  | row :: rows' =>
      match read_row headers d row with
      | (d', Ok _) => read_rows headers d' rows'
      | (d', Raise e) => (d', Raise e)
      end
  end.

Definition determine_dynamic_components (d : DynamicComponents)
    (scenario_directory horizon stage : string) : DynamicComponents * result unit :=
  let d := {| required_reserve_modules :=
                required_reserve_modules d ++ ["lf_reserves_down"];
              footroom_variables := footroom_variables d |} in
  match open_tab_file (os_path_join scenario_directory ["inputs"; "resources.tab"]) with
  | None => (d, Raise IOError)
  | Some [] => (d, Raise StopIteration)
  | Some (headers :: rows) =>
      match check_list_items_are_unique headers with
      | Raise e => (d, Raise e)
      | Ok _ => read_rows headers d rows
      end
  end.

End Auxiliary.

(** The declarations of [add_model_components] on the abstract model [m];
    [d] is not touched here. *)
Definition add_model_components (m : list string) (d : DynamicComponents)
    (scenario_directory horizon stage : string)
  : result (list string * DynamicComponents) :=
  _ ← AbstractModel.getattr m "RESOURCES";
  m ← AbstractModel.add_component m "LF_RESERVES_DOWN_RESOURCES";
  _ ← AbstractModel.getattr m "LF_RESERVES_DOWN_RESOURCES";
  m ← AbstractModel.add_component m "lf_reserves_down_zone";
  m ← AbstractModel.add_component m "LF_RESERVES_DOWN_RESOURCE_OPERATIONAL_TIMEPOINTS";
  _ ← AbstractModel.getattr m "LF_RESERVES_DOWN_RESOURCE_OPERATIONAL_TIMEPOINTS";
  m ← AbstractModel.add_component m "Provide_LF_Reserves_Down_MW";
  mret (m, d).

End LfReservesDown.

(** ** gridpath/geography/carbon_cap_zones.py *)

Module CarbonCapZones.
Import Py.

Definition add_model_components (m : list string) : result (list string) :=
  AbstractModel.add_component m "CARBON_CAP_ZONES".

Definition load_model_data (data_portal : DataPortal.t)
    (scenario_directory horizon stage : string) : DataPortal.t :=
  DataPortal.load data_portal
    {| DataPortal.filename :=
         os_path_join scenario_directory
           [horizon; stage; "inputs"; "carbon_cap_zones.tab"];
       DataPortal.index := None;
       DataPortal.set_ := Some "CARBON_CAP_ZONES";
       DataPortal.param := [] |}.

End CarbonCapZones.

(** ** gridpath/project/availability/availability_types/exogenous.py *)

Module Exogenous.
Import Py.

Section Environment.
(** [gridpath.project.common_functions.determine_project_subset], called
    with [scenario_directory], [subproblem], [stage], [column] and [type];
    and [os.path.exists]. *)
Variable determine_project_subset :
  string -> string -> string -> string -> string -> list string.
Variable os_path_exists : string -> bool.

Definition availability_file (scenario_directory subproblem stage : string)
  : string :=
  os_path_join scenario_directory
    [subproblem; stage; "inputs"; "project_availability_exogenous.tab"].

Definition load_module_specific_data (data_portal : DataPortal.t)
    (scenario_directory subproblem stage : string) : DataPortal.t :=
  let project_subset :=
    determine_project_subset scenario_directory subproblem stage
      "availability_type" "exogenous" in
  let data_portal := DataPortal.set_data data_portal "AVL_EXOG" project_subset in
  if os_path_exists (availability_file scenario_directory subproblem stage) then
    DataPortal.load data_portal
      {| DataPortal.filename :=
           availability_file scenario_directory subproblem stage;
         DataPortal.index := None;
         DataPortal.set_ := None;
         DataPortal.param := ["avl_exog_derate"] |}
  else data_portal.

End Environment.

End Exogenous.

(** ** gridpath/system/policy/transmission_targets/transmission_target_balance.py *)

Module TransmissionTargetBalance.
Import Py.

(** An index [(z, bt, hz)]: transmission-target zone, balancing type,
    horizon. *)
Definition index : Type := string * string * Z.

Inductive domain : Set :=
| NonNegativeReals.

(** [Var(index_set, within=domain)] *)
Record Var : Type := {
  var_index : list index;
  within : domain
}.

(** Pyomo expressions: numbers, indexed decision variables and sums. *)
Inductive expr : Type :=
| Const (q : Q)
| VarData (name : string) (i : index)
| Plus (a b : expr).

(** [lhs >= rhs] *)
Inductive inequality : Type :=
| GreaterEq (lhs rhs : expr).

(** What a constraint rule returns. *)
Inductive rule_result : Type :=
| Skip
| Relation (c : inequality).

(** [Constraint(index_set, rule=rule)]: the constraints of the component,
    one for each index on which the rule does not return
    [Constraint.Skip]. *)
Definition Constraint (index_set : list index) (rule : index -> rule_result)
  : list (index * inequality) :=
  omap (fun i => match rule i with
                 | Skip => None
                 | Relation c => Some (i, c)
                 end) index_set.

(** The model with the components that other modules define and this one
    reads. *)
Record Model : Type := {
  TRANSMISSION_TARGET_ZONE_BLN_TYPE_HRZS_WITH_TRANSMISSION_TARGET : list index;
  transmission_target_allow_violation : string -> bool;
  transmission_target_pos_dir_min_mwh : index -> Q;
  transmission_target_neg_dir_min_mwh : index -> Q;
  Total_Transmission_Target_Energy_Pos_Dir_MWh : index -> expr;
  Total_Transmission_Target_Energy_Neg_Dir_MWh : index -> expr
}.

Definition Transmission_Target_Shortage_Pos_Dir_MWh (m : Model) : Var :=
  {| var_index := TRANSMISSION_TARGET_ZONE_BLN_TYPE_HRZS_WITH_TRANSMISSION_TARGET m;
     within := NonNegativeReals |}.

Definition Transmission_Target_Shortage_Neg_Dir_MWh (m : Model) : Var :=
  {| var_index := TRANSMISSION_TARGET_ZONE_BLN_TYPE_HRZS_WITH_TRANSMISSION_TARGET m;
     within := NonNegativeReals |}.

Definition violation_pos_dir_expression_rule (mod_ : Model) (i : index) : expr :=
  let '(z, bt, hz) := i in
  if transmission_target_allow_violation mod_ z
  then VarData "Transmission_Target_Shortage_Pos_Dir_MWh" (z, bt, hz)
  else Const 0.

(** [Expression(index_set, rule=violation_pos_dir_expression_rule)] *)
Definition Transmission_Target_Shortage_Pos_Dir_MWh_Expression (m : Model)
  : index -> expr :=
  violation_pos_dir_expression_rule m.

Definition violation_neg_dir_expression_rule (mod_ : Model) (i : index) : expr :=
  let '(z, bt, hz) := i in
  if transmission_target_allow_violation mod_ z
  then VarData "Transmission_Target_Shortage_Neg_Dir_MWh" (z, bt, hz)
  else Const 0.

Definition Transmission_Target_Shortage_Neg_Dir_MWh_Expression (m : Model)
  : index -> expr :=
  violation_neg_dir_expression_rule m.

Definition transmission_target_pos_dir_rule (mod_ : Model) (i : index)
  : rule_result :=
  if Qeq_bool (transmission_target_pos_dir_min_mwh mod_ i) 0 then Skip
  else Relation
         (GreaterEq
            (Plus (Total_Transmission_Target_Energy_Pos_Dir_MWh mod_ i)
                  (Transmission_Target_Shortage_Pos_Dir_MWh_Expression mod_ i))
            (Const (transmission_target_pos_dir_min_mwh mod_ i))).

Definition Transmission_Target_Pos_Dir_Constraint (m : Model)
  : list (index * inequality) :=
  Constraint (TRANSMISSION_TARGET_ZONE_BLN_TYPE_HRZS_WITH_TRANSMISSION_TARGET m)
    (transmission_target_pos_dir_rule m).

Definition transmission_target_neg_dir_rule (mod_ : Model) (i : index)
  : rule_result :=
  if Qeq_bool (transmission_target_neg_dir_min_mwh mod_ i) 0 then Skip
  else Relation
         (GreaterEq
            (Plus (Total_Transmission_Target_Energy_Neg_Dir_MWh mod_ i)
                  (Transmission_Target_Shortage_Neg_Dir_MWh_Expression mod_ i))
            (Const (transmission_target_neg_dir_min_mwh mod_ i))).

Definition Transmission_Target_Neg_Dir_Constraint (m : Model)
  : list (index * inequality) :=
  Constraint (TRANSMISSION_TARGET_ZONE_BLN_TYPE_HRZS_WITH_TRANSMISSION_TARGET m)
    (transmission_target_neg_dir_rule m).

(** What [add_model_components] puts on the model. *)
Record Components : Type := {
  shortage_pos_dir_var : Var;
  shortage_neg_dir_var : Var;
  shortage_pos_dir_expression : index -> expr;
  shortage_neg_dir_expression : index -> expr;
  pos_dir_constraint : list (index * inequality);
  neg_dir_constraint : list (index * inequality)
}.

Definition add_model_components (m : Model) : Components :=
  {| shortage_pos_dir_var := Transmission_Target_Shortage_Pos_Dir_MWh m;
     shortage_neg_dir_var := Transmission_Target_Shortage_Neg_Dir_MWh m;
     shortage_pos_dir_expression :=
       Transmission_Target_Shortage_Pos_Dir_MWh_Expression m;
     shortage_neg_dir_expression :=
       Transmission_Target_Shortage_Neg_Dir_MWh_Expression m;
     pos_dir_constraint := Transmission_Target_Pos_Dir_Constraint m;
     neg_dir_constraint := Transmission_Target_Neg_Dir_Constraint m |}.

(** [value(e)] once the solver has given every variable a value. *)
Fixpoint value (solution : string -> index -> Q) (e : expr) : Q :=
  match e with
  | Const q => q
  | VarData name i => solution name i
  | Plus a b => (value solution a + value solution b)%Q
  end.

(** Python [x / y] on floats. *)
Definition truediv (x y : Q) : result Q :=
  if Qeq_bool y 0 then Raise ZeroDivisionError else Ok (x / y)%Q.

(** The result [1 if float(target) == 0 else value(energy) / float(target)],
    as a number. *)
Definition fraction_of_target_met (energy target : Q) : Q :=
  if Qeq_bool target 0 then 1%Q else (energy / target)%Q.

Record DynamicComponents : Type := {
  frames : gmap string (Pandas.DataFrame index Q)
}.

Definition getattr_frame (d : DynamicComponents) (name : string)
  : result (Pandas.DataFrame index Q) :=
  match frames d !! name with
  | Some df => Ok df
  | None => Raise AttributeError
  end.

Definition set_frame (d : DynamicComponents) (name : string)
    (df : Pandas.DataFrame index Q) : DynamicComponents :=
  {| frames := <[name := df]> (frames d) |}.

Definition results_columns : list string :=
  ["fraction_of_transmission_target_pos_dir_min_met";
   "transmission_target_shortage_pos_dir_min_mwh";
   "fraction_of_transmission_target_neg_dir_met";
   "transmission_target_shortage_neg_dir_min_mwh"].

(** One element of the list [data] of [export_results]. *)
Definition export_results_row (solution : string -> index -> Q) (m : Model)
    (i : index) : result (index * list (Pandas.cell Q)) :=
  fraction_pos ←
    (if Qeq_bool (transmission_target_pos_dir_min_mwh m i) 0 then Ok 1%Q
     else truediv (value solution (Total_Transmission_Target_Energy_Pos_Dir_MWh m i))
                  (transmission_target_pos_dir_min_mwh m i));
  let shortage_pos :=
    value solution (Transmission_Target_Shortage_Pos_Dir_MWh_Expression m i) in
  fraction_neg ←
    (if Qeq_bool (transmission_target_neg_dir_min_mwh m i) 0 then Ok 1%Q
     else truediv (value solution (Total_Transmission_Target_Energy_Neg_Dir_MWh m i))
                  (transmission_target_neg_dir_min_mwh m i));
  let shortage_neg :=
    value solution (Transmission_Target_Shortage_Neg_Dir_MWh_Expression m i) in
  mret (i, [Some fraction_pos; Some shortage_pos; Some fraction_neg; Some shortage_neg]).

Definition export_results_data (solution : string -> index -> Q) (m : Model)
  : result (list (index * list (Pandas.cell Q))) :=
  comprehension (export_results_row solution m)
    (TRANSMISSION_TARGET_ZONE_BLN_TYPE_HRZS_WITH_TRANSMISSION_TARGET m).

Section Constants.
(** The attribute name imported from
    [gridpath.system.policy.transmission_targets]. *)
Variable TX_TARGETS_DF : string.

Definition export_results (solution : string -> index -> Q) (m : Model)
    (d : DynamicComponents) : result DynamicComponents :=
  data ← export_results_data solution m;
  let results_df := Pandas.create_results_df results_columns data in
  d ← foldl (fun (acc : result DynamicComponents) c =>
               d ← acc;
               df ← getattr_frame d TX_TARGETS_DF;
               mret (set_frame d TX_TARGETS_DF (Pandas.setitem_None df c)))
            (Ok d) results_columns;
  df ← getattr_frame d TX_TARGETS_DF;
  df ← Pandas.update df results_df;
  mret (set_frame d TX_TARGETS_DF df).

End Constants.

End TransmissionTargetBalance.

(** ** db/csvs_to_db_utilities/load_system_prm.py *)

Module LoadSystemPrm.
Import Py.

(** A row of the [subscenario_input] dataframe. *)
Record subscenario_row : Type := {
  sc_prm_requirement_scenario_id : Z;
  sc_name : string;
  sc_description : string
}.

(** A row of the [data_input] dataframe.  Periods are whole years, read as
    integers, so [int(p)] leaves them as they are; [float(...)] of a
    requirement is the requirement. *)
Record data_row : Type := {
  prm_requirement_scenario_id : Z;
  prm_zone : string;
  period : Z;
  prm_requirement_mw : Q
}.

(** [Series.unique()]: the distinct values in order of first appearance. *)
Fixpoint unique {A : Type} `{EqDecision A} (l : list A) : list A :=
  match l with
  | [] => []
  | x :: l' => x :: filter (fun y => y <> x) (unique l')
  end.

(** [rows.iloc[0]] *)
Definition iloc0 {A : Type} (rows : list A) : result A :=
  match rows with
  | x :: _ => Ok x
  | [] => Raise IndexError
  end.

(** A call of [system_prm.prm_requirement]. *)
Record prm_requirement_call : Type := {
  call_prm_requirement_scenario_id : Z;
  call_scenario_name : string;
  call_scenario_description : string;
  call_zone_period_requirement : gmap string (gmap Z Q)
}.

(** Body of [for p in zone_period_requirement_by_zone['period'].unique()]. *)
Definition period_step (z : string) (zone_period_requirement_by_zone : list data_row)
    (zone_period_requirement : gmap string (gmap Z Q)) (p : Z)
  : result (gmap string (gmap Z Q)) :=
  r ← iloc0 (filter (fun r => period r = p) zone_period_requirement_by_zone);
  mret (alter (fun by_period => <[p := prm_requirement_mw r]> by_period) z
          zone_period_requirement).

(** Body of [for z in data_input_subscenario['prm_zone'].unique()]. *)
Definition zone_step (data_input_subscenario : list data_row)
    (zone_period_requirement : gmap string (gmap Z Q)) (z : string)
  : result (gmap string (gmap Z Q)) :=
  let zone_period_requirement := <[z := ∅]> zone_period_requirement in
  let zone_period_requirement_by_zone :=
    filter (fun r => prm_zone r = z) data_input_subscenario in
  for_each (period_step z zone_period_requirement_by_zone)
    (unique (period <$> zone_period_requirement_by_zone))
    zone_period_requirement.

(** The dictionary built for the subscenario [sc_id]. *)
Definition zone_period_requirement_of (sc_id : Z) (data_input : list data_row)
  : result (gmap string (gmap Z Q)) :=
  let data_input_subscenario :=
    filter (fun r => prm_requirement_scenario_id r = sc_id) data_input in
  for_each (zone_step data_input_subscenario)
    (unique (prm_zone <$> data_input_subscenario)) ∅.

(** The calls of [system_prm.prm_requirement] made by the function, in
    order. *)
Definition load_system_prm_requirement (subscenario_input : list subscenario_row)
    (data_input : list data_row) : result (list prm_requirement_call) :=
  comprehension
    (fun i =>
       let sc_id := sc_prm_requirement_scenario_id i in
       zone_period_requirement ← zone_period_requirement_of sc_id data_input;
       mret {| call_prm_requirement_scenario_id := sc_id;
               call_scenario_name := sc_name i;
               call_scenario_description := sc_description i;
               call_zone_period_requirement := zone_period_requirement |})
    subscenario_input.

(** *** Notions used to state properties of the dictionary *)

(** [zone_period_requirement[z][p]], when both keys are there. *)
Definition requirement (zone_period_requirement : gmap string (gmap Z Q))
    (z : string) (p : Z) : option Q :=
  by_period ← zone_period_requirement !! z; by_period !! p.

(** The requirement of the first row of [data_input] for the subscenario,
    zone and period, when there is such a row. *)
Definition first_requirement (data_input : list data_row)
    (sc_id : Z) (z : string) (p : Z) : option Q :=
  prm_requirement_mw <$>
    head (filter (fun r => prm_requirement_scenario_id r = sc_id
                           /\ prm_zone r = z /\ period r = p)
                 data_input).

End LoadSystemPrm.

(** ** Files written by the input writers

    A writer opens a file with mode "w" and passes rows of Python values to
    [csv.writer.writerow]; a file is the list of the rows written to it.
    Opening is taken to succeed (the directories exist). *)

Module Csv.

(** A Python value handed to [writerow]; [None] is written as an empty
    field. *)
Inductive value : Type :=
| Text (s : string)
| Integer (z : Z)
| Real (q : Q)
| Null.

Definition files : Type := gmap string (list (list value)).

(** [with open(path, "w") as f: ...]: the file is created or truncated and
    holds the rows written. *)
Definition write (fs : files) (path : string) (rows : list (list value)) : files :=
  <[path := rows]> fs.

(** [os.path.exists(path)] *)
Definition exists_ (fs : files) (path : string) : bool :=
  bool_decide (is_Some (fs !! path)).

(** [str(n)] for an integer. *)
Definition str (n : Z) : string := NilZero.string_of_int (Z.to_int n).

End Csv.

(** ** static_load_requirement.py: [write_model_inputs] *)

Module StaticLoadInputs.
Import Py StaticLoadRequirement.

Section Writer.
(** [gridpath.auxiliary.db_interface.directories_to_db_values] *)
Variable directories_to_db_values :
  string -> string -> string -> string -> string -> Z * Z * Z * Z * Z.

Definition load_mw_header : list Csv.value :=
  [Csv.Text "LOAD_ZONES"; Csv.Text "timepoint"; Csv.Text "load_component";
   Csv.Text "load_mw"].

Definition load_level_defaults_header : list Csv.value :=
  [Csv.Text "load_zone"; Csv.Text "load_component"; Csv.Text "load_level_default"].

(** A row of [loads] as passed to [writerow]. *)
Definition load_row (r : string * Z * string * Q) : list Csv.value :=
  let '(load_zone, timepoint, load_component, load_mw) := r in
  [Csv.Text load_zone; Csv.Integer timepoint; Csv.Text load_component;
   Csv.Real load_mw].

(** [["." if i is None else i for i in row]] on a row of
    [ld_comp_defaults]. *)
Definition replace_nulls (r : string * string * option Q) : list Csv.value :=
  let '(load_zone, load_component, load_level_default) := r in
  [Csv.Text load_zone; Csv.Text load_component;
   match load_level_default with
   | Some q => Csv.Real q
   | None => Csv.Text "."
   end].

Definition write_model_inputs (fs : Csv.files) (scenario_directory : string)
    (scenario_id : Z) (subscenarios : SubScenarios)
    (weather_iteration hydro_iteration availability_iteration subproblem stage : string)
    (conn : Connection) : Csv.files :=
  let '(db_weather_iteration, db_hydro_iteration, db_availability_iteration,
        db_subproblem, db_stage) :=
    directories_to_db_values weather_iteration hydro_iteration
      availability_iteration subproblem stage in
  let '(loads, ld_comp_defaults) :=
    get_inputs_from_database scenario_id subscenarios db_weather_iteration
      db_hydro_iteration db_availability_iteration db_subproblem db_stage conn in
  let fs :=
    Csv.write fs
      (os_path_join scenario_directory
         [weather_iteration; hydro_iteration; availability_iteration;
          subproblem; stage; "inputs"; "load_mw.tab"])
      (load_mw_header :: (load_row <$> loads)) in
  Csv.write fs
    (os_path_join scenario_directory
       [weather_iteration; hydro_iteration; availability_iteration;
        subproblem; stage; "inputs"; "load_level_defaults.tab"])
    (load_level_defaults_header :: (replace_nulls <$> ld_comp_defaults)).

End Writer.

End StaticLoadInputs.

(** ** lf_reserves_down.py: notions used to state properties *)

Module LfReservesDownRows.
Import Py LfReservesDown.

Section Auxiliary.
Variable find_list_item_position : list string -> string -> list nat.

(** The row names the generator [g]. *)
Definition names_generator (headers : list string) (g : string)
    (row : list string) : bool :=
  match field find_list_item_position headers row "RESOURCES" with
  | Ok g' => bool_decide (g' = g)
  | Raise _ => false
  end.

(** The row names the generator [g] and gives it a reserve zone other than
    ".". *)
Definition provides_reserves (headers : list string) (g : string)
    (row : list string) : bool :=
  names_generator headers g row
  && match field find_list_item_position headers row "lf_reserves_down_zone" with
     | Ok zone => negb (bool_decide (zone = "."))
     | Raise _ => false
     end.

(** The entry of the generator [g] in [footroom_variables] after the rows
    were read without an exception, [old] being its entry before: one
    variable name is appended for each row that names [g] with a reserve
    zone, and the entry is created when a row names [g]. *)
Definition footroom_after (headers : list string) (old : option (list string))
    (rows : list (list string)) (g : string) : option (list string) :=
  let n := length (List.filter (provides_reserves headers g) rows) in
  match old with
  | Some l => Some (l ++ replicate n "Provide_LF_Reserves_Down_MW")
  | None =>
      if existsb (names_generator headers g) rows
      then Some (replicate n "Provide_LF_Reserves_Down_MW") else None
  end.

End Auxiliary.

End LfReservesDownRows.

(** ** exogenous.py: database inputs and their writer *)

Module ExogenousInputs.
Import Py.

Record inputs_project_portfolios_row : Type := {
  portfolio_project_portfolio_scenario_id : Z;
  portfolio_project : string
}.

Record inputs_project_availability_row : Type := {
  availability_project_availability_scenario_id : Z;
  availability_project : string;
  availability_availability_type : string;
  availability_exogenous_availability_scenario_id : option Z
}.

Record inputs_temporal_timepoints_row : Type := {
  timepoints_temporal_scenario_id : Z;
  timepoints_subproblem_id : Z;
  timepoints_stage_id : Z;
  timepoints_timepoint : Z;
  timepoints_period : Z
}.

Record inputs_project_availability_exogenous_row : Type := {
  exogenous_exogenous_availability_scenario_id : Z;
  exogenous_project : string;
  exogenous_stage_id : Z;
  exogenous_timepoint : Z;
  exogenous_availability_derate : option Q
}.

Record inputs_project_specified_capacity_row : Type := {
  specified_project_specified_capacity_scenario_id : Z;
  specified_project : string;
  specified_period : Z
}.

Record inputs_project_new_cost_row : Type := {
  new_cost_project_new_cost_scenario_id : Z;
  new_cost_project : string;
  new_cost_vintage : Z
}.

Record inputs_temporal_periods_row : Type := {
  periods_temporal_scenario_id : Z;
  periods_period : Z
}.

Record Connection : Type := {
  inputs_project_portfolios : list inputs_project_portfolios_row;
  inputs_project_availability : list inputs_project_availability_row;
  inputs_temporal_timepoints : list inputs_temporal_timepoints_row;
  inputs_project_availability_exogenous :
    list inputs_project_availability_exogenous_row;
  inputs_project_specified_capacity : list inputs_project_specified_capacity_row;
  inputs_project_new_cost : list inputs_project_new_cost_row;
  inputs_temporal_periods : list inputs_temporal_periods_row
}.

Record SubScenarios : Type := {
  PROJECT_PORTFOLIO_SCENARIO_ID : Z;
  PROJECT_AVAILABILITY_SCENARIO_ID : Z;
  TEMPORAL_SCENARIO_ID : Z;
  PROJECT_SPECIFIED_CAPACITY_SCENARIO_ID : Z;
  PROJECT_NEW_COST_SCENARIO_ID : Z
}.

(** [l LEFT OUTER JOIN r USING (cols)]: every left row with each matching
    right row, or once with NULLs when there is none. *)
Definition left_outer_join {A B C : Type} `{EqDecision C} (cl : A -> C) (cr : B -> C)
    (l : list A) (r : list B) : list (A * option B) :=
  a ← l;
  match filter (fun b => cl a = cr b) r with
  | [] => [(a, None)]
  | matches => pair a ∘ Some <$> matches
  end.

(** [l CROSS JOIN r] *)
Definition cross_join {A B : Type} (l : list A) (r : list B) : list (A * B) :=
  a ← l; pair a <$> r.

(** [SELECT project FROM inputs_project_portfolios WHERE ...] *)
Definition portfolio_tbl (conn : Connection) (subscenarios : SubScenarios)
  : list string :=
  portfolio_project <$>
    filter (fun r => portfolio_project_portfolio_scenario_id r
                     = PROJECT_PORTFOLIO_SCENARIO_ID subscenarios)
           (inputs_project_portfolios conn).

(** [SELECT project, exogenous_availability_scenario_id
     FROM inputs_project_availability WHERE ... AND availability_type =
     'exogenous' AND exogenous_availability_scenario_id IS NOT NULL] *)
Definition avail_char (conn : Connection) (subscenarios : SubScenarios)
  : list (string * Z) :=
  omap (fun r =>
          e ← availability_exogenous_availability_scenario_id r;
          if decide (availability_project_availability_scenario_id r
                     = PROJECT_AVAILABILITY_SCENARIO_ID subscenarios
                     /\ availability_availability_type r = "exogenous")
          then Some (availability_project r, e) else None)
       (inputs_project_availability conn).

(** [SELECT stage_id, timepoint, period FROM inputs_temporal_timepoints
     WHERE temporal_scenario_id = .. AND subproblem_id = .. AND stage_id = ..] *)
Definition tmps_tbl (conn : Connection) (subscenarios : SubScenarios)
    (subproblem stage : Z) : list (Z * Z * Z) :=
  (fun t => (timepoints_stage_id t, timepoints_timepoint t, timepoints_period t)) <$>
    filter (fun t => timepoints_temporal_scenario_id t = TEMPORAL_SCENARIO_ID subscenarios
                     /\ timepoints_subproblem_id t = subproblem
                     /\ timepoints_stage_id t = stage)
           (inputs_temporal_timepoints conn).

(** The UNION of the specified and the new-build project periods, without
    duplicates. *)
Definition all_operational_project_periods (conn : Connection)
    (subscenarios : SubScenarios) : list (string * Z) :=
  remove_dups
    (((fun r => (specified_project r, specified_period r)) <$>
        filter (fun r => specified_project_specified_capacity_scenario_id r
                         = PROJECT_SPECIFIED_CAPACITY_SCENARIO_ID subscenarios)
               (inputs_project_specified_capacity conn))
     ++ ((fun r => (new_cost_project r, new_cost_vintage r)) <$>
           filter (fun r => new_cost_project_new_cost_scenario_id r
                            = PROJECT_NEW_COST_SCENARIO_ID subscenarios)
                  (inputs_project_new_cost conn))).

(** [SELECT period FROM inputs_temporal_periods WHERE temporal_scenario_id = ..] *)
Definition relevant_periods_tbl (conn : Connection) (subscenarios : SubScenarios)
  : list Z :=
  periods_period <$>
    filter (fun r => periods_temporal_scenario_id r = TEMPORAL_SCENARIO_ID subscenarios)
           (inputs_temporal_periods conn).

Definition relevant_op_periods_tbl (conn : Connection) (subscenarios : SubScenarios)
  : list (string * Z) :=
  fst <$>
    StaticLoadRequirement.inner_join snd id
      (all_operational_project_periods conn subscenarios)
      (relevant_periods_tbl conn subscenarios).

(** A subproblem or stage argument: [""] or a number. *)
Definition or_one (x : option Z) : Z := default 1%Z x.

(** [str(x)] of such an argument. *)
Definition str (x : option Z) : string :=
  match x with
  | Some n => Csv.str n
  | None => ""
  end.

Definition get_inputs_from_database (subscenarios : SubScenarios)
    (subproblem stage : option Z) (conn : Connection)
  : list (string * Z * option Q) :=
  let subproblem := or_one subproblem in
  let stage := or_one stage in
  let projects :=
    StaticLoadRequirement.inner_join id fst
      (portfolio_tbl conn subscenarios) (avail_char conn subscenarios) in
  let with_tmps :=
    cross_join projects (tmps_tbl conn subscenarios subproblem stage) in
  let with_derates :=
    left_outer_join
      (fun j : string * (string * Z) * (Z * Z * Z) =>
         (j.1.2.2, j.1.1, j.2.1.1, j.2.1.2))
      (fun e => (exogenous_exogenous_availability_scenario_id e,
                 exogenous_project e, exogenous_stage_id e, exogenous_timepoint e))
      with_tmps (inputs_project_availability_exogenous conn) in
  (fun j : string * (string * Z) * (Z * Z * Z)
           * option inputs_project_availability_exogenous_row * (string * Z) =>
     (j.1.1.1.1, j.1.1.2.1.2, j.1.2 ≫= exogenous_availability_derate)) <$>
    StaticLoadRequirement.inner_join
      (fun j : string * (string * Z) * (Z * Z * Z)
               * option inputs_project_availability_exogenous_row =>
         (j.1.1.1, j.1.2.2))
      id with_derates (relevant_op_periods_tbl conn subscenarios).

(** A row of [availabilities] as passed to [writerow]. *)
Definition availability_row (r : string * Z * option Q) : list Csv.value :=
  let '(project, timepoint, availability_derate) := r in
  [Csv.Text project; Csv.Integer timepoint;
   match availability_derate with
   | Some q => Csv.Real q
   | None => Csv.Null
   end].

Definition write_module_specific_model_inputs (fs : Csv.files)
    (scenario_directory : string) (subscenarios : SubScenarios)
    (subproblem stage : option Z) (conn : Connection) : Csv.files :=
  let availabilities := get_inputs_from_database subscenarios subproblem stage conn in
  match availabilities with
  | [] => fs
  | _ =>
      Csv.write fs
        (os_path_join scenario_directory
           [str subproblem; str stage; "inputs";
            "project_availability_exogenous.tab"])
        ([Csv.Text "project"; Csv.Text "timepoint"; Csv.Text "availability_derate"]
           :: (availability_row <$> availabilities))
  end.

End ExogenousInputs.

(** ** transmission_target_balance.py: notions used to state properties *)

Module TransmissionTargetMeaning.
Import TransmissionTargetBalance.

(** The row of results of an index, as [export_results] computes it. *)
Definition results_row (solution : string -> index -> Q) (m : Model) (i : index)
  : gmap string (Pandas.cell Q) :=
  {[ "fraction_of_transmission_target_pos_dir_min_met" :=
       Some (fraction_of_target_met
               (value solution (Total_Transmission_Target_Energy_Pos_Dir_MWh m i))
               (transmission_target_pos_dir_min_mwh m i));
     "transmission_target_shortage_pos_dir_min_mwh" :=
       Some (value solution (Transmission_Target_Shortage_Pos_Dir_MWh_Expression m i));
     "fraction_of_transmission_target_neg_dir_met" :=
       Some (fraction_of_target_met
               (value solution (Total_Transmission_Target_Energy_Neg_Dir_MWh m i))
               (transmission_target_neg_dir_min_mwh m i));
     "transmission_target_shortage_neg_dir_min_mwh" :=
       Some (value solution (Transmission_Target_Shortage_Neg_Dir_MWh_Expression m i)) ]}.

(** The four result columns, holding nothing. *)
Definition empty_results_row : gmap string (Pandas.cell Q) :=
  {[ "fraction_of_transmission_target_pos_dir_min_met" := None;
     "transmission_target_shortage_pos_dir_min_mwh" := None;
     "fraction_of_transmission_target_neg_dir_met" := None;
     "transmission_target_shortage_neg_dir_min_mwh" := None ]}.

End TransmissionTargetMeaning.

(** ** Sample inputs *)

Module Samples.

(** A resources file with a header and three generators, two of them with
    a zone for downward load-following reserves. *)
Definition resources_tab : list (list string) :=
  [["RESOURCES"; "lf_reserves_down_zone"];
   ["Coal"; "Zone1"]; ["Wind"; "."]; ["Gas"; "Zone1"]].

(** A stand-in for [find_list_item_position]: the positions of [name] in
    [headers]. *)
Fixpoint positions (headers : list string) (name : string) : list nat :=
  match headers with
  | [] => []
  | h :: rest =>
      (if decide (h = name) then [0] else []) ++ (S <$> positions rest name)
  end.

Definition open_tab_file (path : string) : option (list (list string)) :=
  if decide (path = "scenario/inputs/resources.tab") then Some resources_tab
  else None.

Definition lf_dynamic_components : LfReservesDown.DynamicComponents :=
  {| LfReservesDown.required_reserve_modules := ["regulation_down"];
     LfReservesDown.footroom_variables :=
       {[ "Coal" := ["Provide_Regulation_Down_MW"] ]} |}.

Definition static_load_model : StaticLoadRequirement.Model :=
  {| StaticLoadRequirement.LOAD_ZONES := ["Zone1"];
     StaticLoadRequirement.TMPS := [1%Z; 2%Z];
     StaticLoadRequirement.LOAD_ZONE_LOAD_CMPNTS := [];
     StaticLoadRequirement.load_level_default_data := ∅;
     StaticLoadRequirement.LOAD_ZONE_TMP_LOAD_CMPNTS :=
       [("Zone1", 1%Z, "base"); ("Zone1", 2%Z, "base")];
     StaticLoadRequirement.component_static_load_mw_data :=
       {[ ("Zone1", 1%Z, "base") := StaticLoadRequirement.Finite 10;
          ("Zone1", 2%Z, "base") := StaticLoadRequirement.Finite 20 ]} |}.

Definition load_zone_tmp_df
  : Pandas.DataFrame (string * Z) StaticLoadRequirement.load_value :=
  [(("Zone1", 1%Z), ∅); (("Zone1", 2%Z), ∅); (("Zone2", 1%Z), ∅)].

Definition static_load_connection : StaticLoadRequirement.Connection :=
  {| StaticLoadRequirement.inputs_system_load_levels :=
       [ {| StaticLoadRequirement.levels_load_levels_scenario_id := 7;
            StaticLoadRequirement.levels_weather_iteration := 0;
            StaticLoadRequirement.levels_stage_id := 1;
            StaticLoadRequirement.levels_load_zone := "Zone1";
            StaticLoadRequirement.levels_timepoint := 1;
            StaticLoadRequirement.levels_load_component := "base";
            StaticLoadRequirement.levels_load_mw := 10%Q |} ];
     StaticLoadRequirement.inputs_temporal :=
       [ {| StaticLoadRequirement.temporal_temporal_scenario_id := 1;
            StaticLoadRequirement.temporal_subproblem_id := 1;
            StaticLoadRequirement.temporal_stage_id := 1;
            StaticLoadRequirement.temporal_timepoint := 1 |} ];
     StaticLoadRequirement.inputs_geography_load_zones :=
       [ {| StaticLoadRequirement.geography_load_zone_scenario_id := 1;
            StaticLoadRequirement.geography_load_zone := "Zone1" |} ];
     StaticLoadRequirement.inputs_system_load :=
       [ {| StaticLoadRequirement.load_load_scenario_id := 1;
            StaticLoadRequirement.load_load_levels_scenario_id := 7;
            StaticLoadRequirement.load_load_components_scenario_id := 4 |} ];
     StaticLoadRequirement.inputs_system_load_components :=
       [ {| StaticLoadRequirement.components_load_components_scenario_id := 4;
            StaticLoadRequirement.components_load_zone := "Zone1";
            StaticLoadRequirement.components_load_component := "base";
            StaticLoadRequirement.components_load_level_default := None |} ];
     StaticLoadRequirement.load_levels_scan := id;
     StaticLoadRequirement.load_components_scan := id |}.

Definition static_load_subscenarios : StaticLoadRequirement.SubScenarios :=
  {| StaticLoadRequirement.TEMPORAL_SCENARIO_ID := 1;
     StaticLoadRequirement.LOAD_ZONE_SCENARIO_ID := 1;
     StaticLoadRequirement.LOAD_SCENARIO_ID := 1 |}.

Definition tx_index : TransmissionTargetBalance.index := ("Zone1", "year", 2030%Z).

(** One zone that does not allow violation, with a positive-direction
    target of 50 MWh and no negative-direction target. *)
Definition tx_model : TransmissionTargetBalance.Model :=
  {| TransmissionTargetBalance.TRANSMISSION_TARGET_ZONE_BLN_TYPE_HRZS_WITH_TRANSMISSION_TARGET :=
       [tx_index];
     TransmissionTargetBalance.transmission_target_allow_violation := fun _ => false;
     TransmissionTargetBalance.transmission_target_pos_dir_min_mwh := fun _ => 50%Q;
     TransmissionTargetBalance.transmission_target_neg_dir_min_mwh := fun _ => 0%Q;
     TransmissionTargetBalance.Total_Transmission_Target_Energy_Pos_Dir_MWh :=
       fun j => TransmissionTargetBalance.VarData "Transmit_Pos" j;
     TransmissionTargetBalance.Total_Transmission_Target_Energy_Neg_Dir_MWh :=
       fun j => TransmissionTargetBalance.VarData "Transmit_Neg" j |}.

Definition tx_solution (name : string) (i : TransmissionTargetBalance.index) : Q :=
  75%Q.

Definition tx_targets_df : Pandas.DataFrame TransmissionTargetBalance.index Q :=
  [(tx_index, ∅); (("Zone2", "year", 2030%Z), ∅)].

End Samples.

(** * Properties *)

(** ** Python runtime *)


Lemma comprehension_Ok {A B : Type} (f : A -> Py.result B) (g : A -> B)
    (xs : list A) :
  (forall x, x ∈ xs -> f x = Py.Ok (g x)) ->
  Py.comprehension f xs = Py.Ok (g <$> xs).
Proof.
  induction xs as [|x xs IH]; intros Hf; simpl.
  - reflexivity.
  - rewrite Hf by apply list_elem_of_here. simpl.
    rewrite IH; [reflexivity |].
    intros y Hy. apply Hf. apply list_elem_of_further. exact Hy.
Qed.

Lemma append_cons (c : ascii) (s t : string) :
  String c s +:+ t = String c (s +:+ t).
Proof. reflexivity. Qed.

Lemma append_empty_r (s : string) : s +:+ "" = s.
Proof.
  induction s as [|c s IH]; [reflexivity |].
  rewrite append_cons, IH. reflexivity.
Qed.

Lemma append_assoc (a b c : string) : (a +:+ b) +:+ c = a +:+ b +:+ c.
Proof.
  induction a as [|x a IH]; [reflexivity |].
  rewrite !append_cons, IH. reflexivity.
Qed.

Lemma endswith_sep_append_sep (s : string) : Py.endswith_sep (s +:+ Py.sep) = true.
Proof.
  induction s as [|c s IH]; [reflexivity |].
  rewrite append_cons. simpl.
  destruct (s +:+ Py.sep) eqn:E; [|exact IH].
  destruct s; discriminate E.
Qed.

(** An empty component leaves at most a trailing separator, which the next
    component absorbs. *)
Lemma join_step_empty_absorbed (path b : string) :
  Py.join_step (Py.join_step path "") b = Py.join_step path b.
Proof.
  unfold Py.join_step at 2. simpl.
  destruct (bool_decide (path = "") || Py.endswith_sep path) eqn:E.
  - rewrite append_empty_r. reflexivity.
  - unfold Py.join_step. destruct (Py.startswith_sep b); [reflexivity |].
    rewrite E. rewrite append_empty_r.
    rewrite endswith_sep_append_sep, orb_true_r.
    apply append_assoc.
Qed.

Lemma os_path_join_app (a : string) (p q : list string) :
  Py.os_path_join a (p ++ q) = Py.os_path_join (Py.os_path_join a p) q.
Proof. unfold Py.os_path_join. apply fold_left_app. Qed.

(** ** C1: registration of dynamic components *)








(** ** C2: the temporal index components of input paths *)

(** C2, as stated, fails: with weather, hydro and availability iterations
    "1", "2", "3", subproblem "4" and stage "5", the loaders of
    carbon_cap_zones and of the exogenous availability type, which take only
    two index arguments, do not ask for a file under
    scenario/1/2/3/4/5/inputs. *)
Lemma loaders_ignore_iterations :
  DataPortal.filenames
    (CarbonCapZones.load_model_data DataPortal.empty "scenario" "4" "5")
  <> [Py.os_path_join "scenario"
        ["1"; "2"; "3"; "4"; "5"; "inputs"; "carbon_cap_zones.tab"]]
  /\ DataPortal.filenames
       (Exogenous.load_module_specific_data
          (fun _ _ _ _ _ => []) (fun _ => true)
          DataPortal.empty "scenario" "4" "5")
     <> [Py.os_path_join "scenario"
           ["1"; "2"; "3"; "4"; "5"; "inputs";
            "project_availability_exogenous.tab"]].
Proof. split; vm_compute; discriminate. Qed.

Example carbon_cap_zones_path :
  DataPortal.filenames
    (CarbonCapZones.load_model_data DataPortal.empty "scenario" "4" "5")
  = ["scenario/4/5/inputs/carbon_cap_zones.tab"].
Proof. reflexivity. Qed.

Example static_load_paths :
  DataPortal.filenames
    (StaticLoadRequirement.load_model_data DataPortal.empty
       "scenario" "1" "2" "3" "4" "5")
  = ["scenario/1/2/3/4/5/inputs/load_mw.tab";
     "scenario/1/2/3/4/5/inputs/load_level_defaults.tab"].
Proof. reflexivity. Qed.

(** C2, amended.  The loader of static_load_requirement takes the five
    temporal index arguments and asks for its two files under the directory
    obtained by joining the scenario directory with weather iteration, hydro
    iteration, availability iteration, subproblem and stage, then "inputs".
    The loaders of carbon_cap_zones and of the exogenous availability type
    take two index arguments (horizon or subproblem, and stage) and join
    only those; the exogenous loader asks for its file only when it exists.
    The two directories are the same when the three iteration values are
    empty strings. *)
Theorem loaders_resolve_input_paths
    (data_portal : DataPortal.t)
    (scenario_directory weather_iteration hydro_iteration
     availability_iteration subproblem stage : string)
    (determine_project_subset :
       string -> string -> string -> string -> string -> list string)
    (os_path_exists : string -> bool) :
  let full_directory :=
    Py.os_path_join scenario_directory
      [weather_iteration; hydro_iteration; availability_iteration;
       subproblem; stage] in
  let short_directory := Py.os_path_join scenario_directory [subproblem; stage] in
  DataPortal.filenames
    (StaticLoadRequirement.load_model_data data_portal scenario_directory
       weather_iteration hydro_iteration availability_iteration subproblem stage)
  = DataPortal.filenames data_portal
    ++ [Py.os_path_join full_directory ["inputs"; "load_mw.tab"];
        Py.os_path_join full_directory ["inputs"; "load_level_defaults.tab"]]
  /\ DataPortal.filenames
       (CarbonCapZones.load_model_data data_portal scenario_directory
          subproblem stage)
     = DataPortal.filenames data_portal
       ++ [Py.os_path_join short_directory ["inputs"; "carbon_cap_zones.tab"]]
  /\ DataPortal.filenames
       (Exogenous.load_module_specific_data determine_project_subset
          os_path_exists data_portal scenario_directory subproblem stage)
     = DataPortal.filenames data_portal
       ++ (let file :=
             Py.os_path_join short_directory
               ["inputs"; "project_availability_exogenous.tab"] in
           if os_path_exists file then [file] else [])
  /\ Py.os_path_join scenario_directory [""; ""; ""; subproblem; stage]
     = short_directory.
Proof.
  intros full_directory short_directory.
  split; [|split; [|split]].
  - unfold StaticLoadRequirement.load_model_data, DataPortal.filenames,
      DataPortal.load. simpl.
    rewrite !fmap_app, <- app_assoc. reflexivity.
  - unfold CarbonCapZones.load_model_data, DataPortal.filenames,
      DataPortal.load. simpl.
    rewrite fmap_app. reflexivity.
  - unfold Exogenous.load_module_specific_data.
    change (Exogenous.availability_file scenario_directory subproblem stage)
      with (Py.os_path_join short_directory
              ["inputs"; "project_availability_exogenous.tab"]).
    destruct (os_path_exists _).
    + unfold DataPortal.filenames, DataPortal.load. simpl.
      rewrite fmap_app. reflexivity.
    + unfold DataPortal.filenames. simpl. rewrite app_nil_r. reflexivity.
  - unfold short_directory, Py.os_path_join. simpl.
    rewrite !join_step_empty_absorbed. reflexivity.
Qed.

(** ** C3: transmission-target constraints *)

Lemma elem_of_Constraint index_set rule i c :
  (i, c) ∈ TransmissionTargetBalance.Constraint index_set rule
  <-> i ∈ index_set /\ rule i = TransmissionTargetBalance.Relation c.
Proof.
  unfold TransmissionTargetBalance.Constraint.
  rewrite list_elem_of_omap. split.
  - intros (j & Hj & Hrule). destruct (rule j) as [|c'] eqn:E; [discriminate |].
    injection Hrule as -> ->. split; [exact Hj | exact E].
  - intros [Hi Hrule]. exists i. rewrite Hrule. split; [exact Hi | reflexivity].
Qed.

(** C3.  The positive-direction constraint component holds the pair of an
    index [(z, bt, hz)] and an inequality exactly when the index is in
    TRANSMISSION_TARGET_ZONE_BLN_TYPE_HRZS_WITH_TRANSMISSION_TARGET, the
    target [transmission_target_pos_dir_min_mwh] at the index is not zero,
    and the inequality is total energy plus shortage expression >= target;
    so an index with a zero target has no constraint.  The same holds in the
    negative direction.  The shortage expression is the shortage variable at
    the index when [transmission_target_allow_violation[z]] is true and the
    number 0 otherwise, and the shortage variables are declared over the
    same set within the nonnegative reals. *)
Theorem transmission_target_constraints
    (m : TransmissionTargetBalance.Model)
    (z bt : string) (hz : Z) (c : TransmissionTargetBalance.inequality) :
  let i := (z, bt, hz) in
  let cs := TransmissionTargetBalance.add_model_components m in
  ((i, c) ∈ TransmissionTargetBalance.pos_dir_constraint cs
   <-> i ∈ TransmissionTargetBalance.TRANSMISSION_TARGET_ZONE_BLN_TYPE_HRZS_WITH_TRANSMISSION_TARGET m
       /\ ~ (TransmissionTargetBalance.transmission_target_pos_dir_min_mwh m i == 0)%Q
       /\ c = TransmissionTargetBalance.GreaterEq
                (TransmissionTargetBalance.Plus
                   (TransmissionTargetBalance.Total_Transmission_Target_Energy_Pos_Dir_MWh m i)
                   (TransmissionTargetBalance.shortage_pos_dir_expression cs i))
                (TransmissionTargetBalance.Const
                   (TransmissionTargetBalance.transmission_target_pos_dir_min_mwh m i)))
  /\ ((i, c) ∈ TransmissionTargetBalance.neg_dir_constraint cs
      <-> i ∈ TransmissionTargetBalance.TRANSMISSION_TARGET_ZONE_BLN_TYPE_HRZS_WITH_TRANSMISSION_TARGET m
          /\ ~ (TransmissionTargetBalance.transmission_target_neg_dir_min_mwh m i == 0)%Q
          /\ c = TransmissionTargetBalance.GreaterEq
                   (TransmissionTargetBalance.Plus
                      (TransmissionTargetBalance.Total_Transmission_Target_Energy_Neg_Dir_MWh m i)
                      (TransmissionTargetBalance.shortage_neg_dir_expression cs i))
                   (TransmissionTargetBalance.Const
                      (TransmissionTargetBalance.transmission_target_neg_dir_min_mwh m i)))
  /\ TransmissionTargetBalance.shortage_pos_dir_expression cs i
     = (if TransmissionTargetBalance.transmission_target_allow_violation m z
        then TransmissionTargetBalance.VarData
               "Transmission_Target_Shortage_Pos_Dir_MWh" i
        else TransmissionTargetBalance.Const 0)
  /\ TransmissionTargetBalance.shortage_neg_dir_expression cs i
     = (if TransmissionTargetBalance.transmission_target_allow_violation m z
        then TransmissionTargetBalance.VarData
               "Transmission_Target_Shortage_Neg_Dir_MWh" i
        else TransmissionTargetBalance.Const 0)
  /\ TransmissionTargetBalance.shortage_pos_dir_var cs
     = {| TransmissionTargetBalance.var_index :=
            TransmissionTargetBalance.TRANSMISSION_TARGET_ZONE_BLN_TYPE_HRZS_WITH_TRANSMISSION_TARGET m;
          TransmissionTargetBalance.within :=
            TransmissionTargetBalance.NonNegativeReals |}
  /\ TransmissionTargetBalance.shortage_neg_dir_var cs
     = {| TransmissionTargetBalance.var_index :=
            TransmissionTargetBalance.TRANSMISSION_TARGET_ZONE_BLN_TYPE_HRZS_WITH_TRANSMISSION_TARGET m;
          TransmissionTargetBalance.within :=
            TransmissionTargetBalance.NonNegativeReals |}.
Proof.
  intros i cs. subst cs. simpl.
  repeat split; try reflexivity.
  - revert H. unfold TransmissionTargetBalance.Transmission_Target_Pos_Dir_Constraint.
    rewrite elem_of_Constraint. tauto.
  - apply elem_of_Constraint in H as [_ Hrule].
    unfold TransmissionTargetBalance.transmission_target_pos_dir_rule in Hrule.
    intros Hzero. apply Qeq_bool_iff in Hzero. rewrite Hzero in Hrule.
    discriminate Hrule.
  - apply elem_of_Constraint in H as [_ Hrule].
    unfold TransmissionTargetBalance.transmission_target_pos_dir_rule in Hrule.
    destruct (Qeq_bool _ 0); [discriminate Hrule |].
    injection Hrule as <-. reflexivity.
  - intros (Hin & Hnz & ->).
    apply elem_of_Constraint. split; [exact Hin |].
    unfold TransmissionTargetBalance.transmission_target_pos_dir_rule.
    destruct (Qeq_bool _ 0) eqn:E; [|reflexivity].
    apply Qeq_bool_iff in E. contradiction.
  - revert H. unfold TransmissionTargetBalance.Transmission_Target_Neg_Dir_Constraint.
    rewrite elem_of_Constraint. tauto.
  - apply elem_of_Constraint in H as [_ Hrule].
    unfold TransmissionTargetBalance.transmission_target_neg_dir_rule in Hrule.
    intros Hzero. apply Qeq_bool_iff in Hzero. rewrite Hzero in Hrule.
    discriminate Hrule.
  - apply elem_of_Constraint in H as [_ Hrule].
    unfold TransmissionTargetBalance.transmission_target_neg_dir_rule in Hrule.
    destruct (Qeq_bool _ 0); [discriminate Hrule |].
    injection Hrule as <-. reflexivity.
  - intros (Hin & Hnz & ->).
    apply elem_of_Constraint. split; [exact Hin |].
    unfold TransmissionTargetBalance.transmission_target_neg_dir_rule.
    destruct (Qeq_bool _ 0) eqn:E; [|reflexivity].
    apply Qeq_bool_iff in E. contradiction.
Qed.

Example zero_target_is_skipped :
  let i := ("Zone1", "year", 2030%Z) in
  let m := {| TransmissionTargetBalance.TRANSMISSION_TARGET_ZONE_BLN_TYPE_HRZS_WITH_TRANSMISSION_TARGET := [i];
              TransmissionTargetBalance.transmission_target_allow_violation := fun _ => true;
              TransmissionTargetBalance.transmission_target_pos_dir_min_mwh := fun _ => 0%Q;
              TransmissionTargetBalance.transmission_target_neg_dir_min_mwh := fun _ => 50%Q;
              TransmissionTargetBalance.Total_Transmission_Target_Energy_Pos_Dir_MWh :=
                fun j => TransmissionTargetBalance.VarData "Transmit_Pos" j;
              TransmissionTargetBalance.Total_Transmission_Target_Energy_Neg_Dir_MWh :=
                fun j => TransmissionTargetBalance.VarData "Transmit_Neg" j |} in
  TransmissionTargetBalance.Transmission_Target_Pos_Dir_Constraint m = []
  /\ TransmissionTargetBalance.Transmission_Target_Neg_Dir_Constraint m
     = [(i, TransmissionTargetBalance.GreaterEq
              (TransmissionTargetBalance.Plus
                 (TransmissionTargetBalance.VarData "Transmit_Neg" i)
                 (TransmissionTargetBalance.VarData
                    "Transmission_Target_Shortage_Neg_Dir_MWh" i))
              (TransmissionTargetBalance.Const 50))].
Proof. split; reflexivity. Qed.

(** ** C7: the division by the target is guarded *)

Lemma guarded_truediv (energy target : Q) :
  (if Qeq_bool target 0 then Py.Ok 1%Q
   else TransmissionTargetBalance.truediv energy target)
  = Py.Ok (TransmissionTargetBalance.fraction_of_target_met energy target).
Proof.
  unfold TransmissionTargetBalance.truediv,
    TransmissionTargetBalance.fraction_of_target_met.
  destruct (Qeq_bool target 0); reflexivity.
Qed.

Lemma export_results_row_Ok solution m i :
  TransmissionTargetBalance.export_results_row solution m i
  = Py.Ok
      (i,
       [Some (TransmissionTargetBalance.fraction_of_target_met
                (TransmissionTargetBalance.value solution
                   (TransmissionTargetBalance.Total_Transmission_Target_Energy_Pos_Dir_MWh m i))
                (TransmissionTargetBalance.transmission_target_pos_dir_min_mwh m i));
        Some (TransmissionTargetBalance.value solution
                (TransmissionTargetBalance.Transmission_Target_Shortage_Pos_Dir_MWh_Expression m i));
        Some (TransmissionTargetBalance.fraction_of_target_met
                (TransmissionTargetBalance.value solution
                   (TransmissionTargetBalance.Total_Transmission_Target_Energy_Neg_Dir_MWh m i))
                (TransmissionTargetBalance.transmission_target_neg_dir_min_mwh m i));
        Some (TransmissionTargetBalance.value solution
                (TransmissionTargetBalance.Transmission_Target_Shortage_Neg_Dir_MWh_Expression m i))]).
Proof.
  unfold TransmissionTargetBalance.export_results_row.
  rewrite !guarded_truediv. reflexivity.
Qed.

Lemma tx_reset_columns TX_TARGETS_DF columns : forall acc,
  acc = Py.Raise Py.AttributeError \/ (exists d, acc = Py.Ok d) ->
  let r :=
    foldl (fun (acc : Py.result TransmissionTargetBalance.DynamicComponents) c =>
             d ← acc;
             df ← TransmissionTargetBalance.getattr_frame d TX_TARGETS_DF;
             mret (TransmissionTargetBalance.set_frame d TX_TARGETS_DF
                     (Pandas.setitem_None df c)))
          acc columns in
  r = Py.Raise Py.AttributeError \/ (exists d, r = Py.Ok d).
Proof.
  induction columns as [|c columns IH]; intros acc Hacc; simpl; [exact Hacc |].
  apply IH. destruct Hacc as [-> | [d ->]]; simpl; [left; reflexivity |].
  unfold TransmissionTargetBalance.getattr_frame.
  destruct (TransmissionTargetBalance.frames d !! TX_TARGETS_DF); simpl; eauto.
Qed.

(** C7.  The division itself raises ZeroDivisionError on a zero divisor;
    [export_results] never does.  For every solution and model the list
    [data] is computed without an exception and has, for every index of
    TRANSMISSION_TARGET_ZONE_BLN_TYPE_HRZS_WITH_TRANSMISSION_TARGET in
    order, the fraction 1 when the target of the direction is zero and
    delivered energy divided by the target otherwise; and whatever the
    dynamic components are, [export_results] does not end in
    ZeroDivisionError. *)
Theorem export_results_division_guarded
    (solution : string -> TransmissionTargetBalance.index -> Q)
    (m : TransmissionTargetBalance.Model) :
  (forall x, TransmissionTargetBalance.truediv x 0 = Py.Raise Py.ZeroDivisionError)
  /\ TransmissionTargetBalance.export_results_data solution m
     = Py.Ok
         ((fun i =>
             (i,
              [Some (if Qeq_bool (TransmissionTargetBalance.transmission_target_pos_dir_min_mwh m i) 0
                     then 1%Q
                     else (TransmissionTargetBalance.value solution
                             (TransmissionTargetBalance.Total_Transmission_Target_Energy_Pos_Dir_MWh m i)
                           / TransmissionTargetBalance.transmission_target_pos_dir_min_mwh m i)%Q);
               Some (TransmissionTargetBalance.value solution
                       (TransmissionTargetBalance.Transmission_Target_Shortage_Pos_Dir_MWh_Expression m i));
               Some (if Qeq_bool (TransmissionTargetBalance.transmission_target_neg_dir_min_mwh m i) 0
                     then 1%Q
                     else (TransmissionTargetBalance.value solution
                             (TransmissionTargetBalance.Total_Transmission_Target_Energy_Neg_Dir_MWh m i)
                           / TransmissionTargetBalance.transmission_target_neg_dir_min_mwh m i)%Q);
               Some (TransmissionTargetBalance.value solution
                       (TransmissionTargetBalance.Transmission_Target_Shortage_Neg_Dir_MWh_Expression m i))]))
          <$> TransmissionTargetBalance.TRANSMISSION_TARGET_ZONE_BLN_TYPE_HRZS_WITH_TRANSMISSION_TARGET m)
  /\ (forall TX_TARGETS_DF d,
        TransmissionTargetBalance.export_results TX_TARGETS_DF solution m d
        <> Py.Raise Py.ZeroDivisionError).
Proof.
  assert (Hdata : exists rows,
    TransmissionTargetBalance.export_results_data solution m = Py.Ok rows).
  { eexists. unfold TransmissionTargetBalance.export_results_data.
    apply comprehension_Ok. intros i _. apply export_results_row_Ok. }
  split; [reflexivity | split].
  - unfold TransmissionTargetBalance.export_results_data.
    erewrite comprehension_Ok; [reflexivity |].
    intros i _. rewrite export_results_row_Ok. reflexivity.
  - intros TX d. destruct Hdata as [rows Hdata].
    unfold TransmissionTargetBalance.export_results.
    rewrite Hdata. simpl Py.bind.
    change (Py.Ok rows ≫= ?k) with (k rows). cbv beta.
    destruct (tx_reset_columns TX TransmissionTargetBalance.results_columns (Py.Ok d))
      as [-> | [d' ->]]; [right; eauto | discriminate |].
    simpl. unfold TransmissionTargetBalance.getattr_frame.
    destruct (TransmissionTargetBalance.frames d' !! TX) as [df|];
      simpl; [|discriminate].
    unfold Pandas.update. case_bool_decide; simpl; discriminate.
Qed.

Example export_zero_and_nonzero_target :
  let i := ("Zone1", "year", 2030%Z) in
  let m := {| TransmissionTargetBalance.TRANSMISSION_TARGET_ZONE_BLN_TYPE_HRZS_WITH_TRANSMISSION_TARGET := [i];
              TransmissionTargetBalance.transmission_target_allow_violation := fun _ => false;
              TransmissionTargetBalance.transmission_target_pos_dir_min_mwh := fun _ => 0%Q;
              TransmissionTargetBalance.transmission_target_neg_dir_min_mwh := fun _ => 50%Q;
              TransmissionTargetBalance.Total_Transmission_Target_Energy_Pos_Dir_MWh :=
                fun j => TransmissionTargetBalance.VarData "Transmit_Pos" j;
              TransmissionTargetBalance.Total_Transmission_Target_Energy_Neg_Dir_MWh :=
                fun j => TransmissionTargetBalance.VarData "Transmit_Neg" j |} in
  TransmissionTargetBalance.export_results_data (fun _ _ => 25%Q) m
  = Py.Ok [(i, [Some 1%Q; Some 0%Q; Some (25 / 50)%Q; Some 0%Q])].
Proof. reflexivity. Qed.

(** ** C6: undefined loads *)

Section StaticLoad.
Import StaticLoadRequirement.
Variable mod_ : Model.

Lemma component_static_load_mw_finite lz tmp cmp q :
  (lz, tmp, cmp) ∈ LOAD_ZONE_TMP_LOAD_CMPNTS mod_ ->
  static_load_value mod_ (lz, tmp, cmp) = Finite q ->
  component_static_load_mw mod_ lz tmp cmp = Py.Ok (Finite q).
Proof.
  intros Hin. unfold static_load_value, component_static_load_mw.
  rewrite decide_True by exact Hin.
  destruct (component_static_load_mw_data mod_ !! (lz, tmp, cmp)) as [v|];
    [intros ->; reflexivity |].
  unfold set_default_and_warn_about_undefined_loads.
  destruct (load_level_default mod_ lz cmp) as [v|e]; [|discriminate].
  intros ->. reflexivity.
Qed.


Lemma total_static_load_step_finite lz tmp acc load_zone timepoint component q :
  (load_zone, timepoint, component) ∈ LOAD_ZONE_TMP_LOAD_CMPNTS mod_ ->
  static_load_value mod_ (load_zone, timepoint, component) = Finite q ->
  total_static_load_step mod_ lz tmp acc (load_zone, timepoint, component)
  = Py.Ok (if decide (load_zone = lz /\ timepoint = tmp)
           then load_value_add acc (Finite q) else acc).
Proof.
  intros Hin Hv. unfold total_static_load_step.
  rewrite (component_static_load_mw_finite _ _ _ _ Hin Hv).
  cbn [mbind result_bind Py.bind load_value_eqb].
  destruct (decide (load_zone = lz /\ timepoint = tmp)) as [[-> ->]|Hne].
  - rewrite !bool_decide_eq_true_2 by reflexivity. reflexivity.
  - destruct (bool_decide (load_zone = lz)) eqn:E1;
      destruct (bool_decide (timepoint = tmp)) eqn:E2; simpl; try reflexivity.
    apply bool_decide_eq_true_1 in E1, E2. tauto.
Qed.



Lemma loop_sums_finite lz tmp (l : list (string * Z * string)) :
  (forall i, i ∈ l -> i ∈ LOAD_ZONE_TMP_LOAD_CMPNTS mod_) ->
  forall acc,
    (forall i, i ∈ l -> static_load_value mod_ i <> Infinity) ->
    Py.for_each (total_static_load_step mod_ lz tmp) l acc
    = Py.Ok
        (fold_left load_value_add
           ((fun c => static_load_value mod_ (lz, tmp, c)) <$>
              omap (fun i : string * Z * string =>
                      let '(load_zone, timepoint, component) := i in
                      if decide (load_zone = lz /\ timepoint = tmp)
                      then Some component else None) l)
           acc).
Proof.
  induction l as [|[[z t] c] l IH]; intros Hl acc Hfin; [reflexivity |].
  assert (Hin : (z, t, c) ∈ LOAD_ZONE_TMP_LOAD_CMPNTS mod_)
    by apply Hl, list_elem_of_here.
  assert (Hhead : static_load_value mod_ (z, t, c) <> Infinity).
  { apply Hfin. apply list_elem_of_here. }
  destruct (static_load_value mod_ (z, t, c)) as [q|] eqn:Ev; [|congruence].
  cbn [Py.for_each]. rewrite (total_static_load_step_finite _ _ _ _ _ _ _ Hin Ev).
  cbn [Py.bind]. rewrite IH.
  2:{ intros i Hi. apply Hl. apply list_elem_of_further. exact Hi. }
  2:{ intros i Hi. apply Hfin. apply list_elem_of_further. exact Hi. }
  cbn [omap list_omap].
  destruct (decide (z = lz /\ t = tmp)) as [[-> ->]|Hne].
  - cbn [fmap list_fmap fold_left]. rewrite Ev. reflexivity.
  - reflexivity.
Qed.

Lemma elem_of_components_of lz tmp c :
  c ∈ components_of mod_ lz tmp <-> (lz, tmp, c) ∈ LOAD_ZONE_TMP_LOAD_CMPNTS mod_.
Proof.
  unfold components_of. rewrite list_elem_of_omap. split.
  - intros ([[z t] c'] & Hin & Hsome).
    destruct (decide (z = lz /\ t = tmp)) as [[-> ->]|]; [|discriminate].
    injection Hsome as ->. exact Hin.
  - intros Hin. exists (lz, tmp, c). split; [exact Hin |].
    rewrite decide_True by tauto. reflexivity.
Qed.

End StaticLoad.




(** ** C4: results of the static-load module *)

Lemma NoDup_list_prod {A B : Type} (l : list A) (k : list B) :
  NoDup l -> NoDup k -> NoDup (list_prod l k).
Proof.
  intros Hl Hk. induction Hl as [|x l Hx Hl IH]; simpl; [constructor |].
  apply NoDup_app. split; [|split; [|exact IH]].
  - apply (NoDup_fmap_2 (pair x)). exact Hk.
  - intros [a b] Hab Hin.
    apply list_elem_of_fmap in Hab as (y & [= -> ->] & _).
    apply list_elem_of_In, in_prod_iff in Hin as [Hin _].
    apply Hx. apply list_elem_of_In. exact Hin.
Qed.

Lemma elem_of_list_prod {A B : Type} (l : list A) (k : list B) (x : A) (y : B) :
  (x, y) ∈ list_prod l k <-> x ∈ l /\ y ∈ k.
Proof. rewrite !list_elem_of_In. apply in_prod_iff. Qed.

Lemma loc_fmap {K V : Type} `{EqDecision K}
    (g : K -> gmap string (Pandas.cell V)) (l : list K) (k : K) :
  Pandas.loc ((fun x => (x, g x)) <$> l) k
  = if decide (k ∈ l) then Some (g k) else None.
Proof.
  induction l as [|x l IH]; cbn [fmap list_fmap Pandas.loc].
  - destruct (decide (k ∈ [])) as [Hin|]; [inversion Hin | reflexivity].
  - destruct (decide (x = k)) as [->|Hne].
    + destruct (decide (k ∈ k :: l)) as [|Hnin]; [reflexivity |].
      destruct Hnin. apply list_elem_of_here.
    + fold (@fmap list _ K (Pandas.row K V) (fun x => (x, g x)) l).
      rewrite IH. destruct (decide (k ∈ l)) as [Hin|Hnin].
      * destruct (decide (k ∈ x :: l)) as [|Hnin]; [reflexivity |].
        destruct Hnin. apply list_elem_of_further. exact Hin.
      * destruct (decide (k ∈ x :: l)) as [Hin|]; [|reflexivity].
        apply elem_of_cons in Hin as [->|Hin]; tauto.
Qed.

Lemma index_fmap {K V : Type}
    (g : K -> gmap string (Pandas.cell V)) (l : list K) :
  Pandas.index ((fun x => (x, g x)) <$> l) = l.
Proof.
  unfold Pandas.index. induction l as [|x l IH]; [reflexivity |].
  cbn [fmap list_fmap] in *. f_equal. exact IH.
Qed.

(** Resetting a column and updating it from a one-column frame amounts to
    writing the column. *)
Lemma update_reset_column {V : Type} (c : string) (other : option (gmap string (Pandas.cell V)))
    (cell_of : Pandas.cell V) (r : gmap string (Pandas.cell V)) :
  (forall r', other = Some r' -> r' = {[ c := cell_of ]}) ->
  (other = None -> cell_of = None) ->
  map_imap (fun col old => Some (Pandas.update_cell other col old)) (<[c := None]> r)
  = <[c := cell_of]> r.
Proof.
  intros Hsome Hnone. apply map_eq. intros col.
  rewrite map_lookup_imap.
  destruct (decide (c = col)) as [<-|Hne].
  - rewrite !lookup_insert_eq. simpl. f_equal.
    unfold Pandas.update_cell. destruct other as [r'|].
    + rewrite (Hsome r' eq_refl), lookup_singleton_eq.
      destruct cell_of; reflexivity.
    + symmetry. apply Hnone. reflexivity.
  - rewrite !lookup_insert_ne by exact Hne.
    destruct (r !! col) as [old|]; simpl; [|reflexivity]. f_equal.
    unfold Pandas.update_cell. destruct other as [r'|]; [|reflexivity].
    rewrite (Hsome r' eq_refl), lookup_singleton_ne by exact Hne.
    reflexivity.
Qed.

Section StaticLoadExport.
Import StaticLoadRequirement.
Variable LOAD_ZONE_TMP_DF : string.
Variable m : Model.

Hypothesis Hdefined : forall lz tmp,
  lz ∈ LOAD_ZONES m -> tmp ∈ TMPS m -> exists v, LZ_Load_in_Tmp m lz tmp = Py.Ok v.

Lemma export_results_data_rows :
  export_results_data m
  = Py.Ok (static_load_row m <$> list_prod (LOAD_ZONES m) (TMPS m)).
Proof.
  unfold export_results_data. apply comprehension_Ok.
  intros [lz tmp] Hin. apply elem_of_list_prod in Hin as [Hlz Htmp].
  destruct (Hdefined lz tmp Hlz Htmp) as [v Hv].
  unfold static_load_row, merged_static_load. simpl.
  rewrite decide_True by tauto. rewrite Hv. reflexivity.
Qed.

Lemma static_load_rows_index (l : list (string * Z)) :
  (static_load_row m <$> l).*1 = l.
Proof.
  induction l as [|k l IH]; [reflexivity |].
  cbn [fmap list_fmap] in *. f_equal. exact IH.
Qed.

Lemma results_df_rows (l : list (string * Z)) :
  Pandas.create_results_df results_columns (static_load_row m <$> l)
  = (fun k => (k, {[ "static_load_mw" := merged_static_load m k ]})) <$> l.
Proof.
  unfold Pandas.create_results_df. rewrite <- list_fmap_compose.
  apply list_fmap_ext. intros _ k _. simpl. rewrite insert_empty. reflexivity.
Qed.

Lemma merged_static_load_outside (k : string * Z) :
  k ∉ list_prod (LOAD_ZONES m) (TMPS m) -> merged_static_load m k = None.
Proof.
  intros Hout. unfold merged_static_load.
  destruct (decide _) as [Hin|]; [|reflexivity].
  destruct Hout. destruct k as [lz tmp]. apply elem_of_list_prod. exact Hin.
Qed.

End StaticLoadExport.

Lemma getattr_frame_Some d name df :
  StaticLoadRequirement.frames d !! name = Some df ->
  StaticLoadRequirement.getattr_frame d name = Py.Ok df.
Proof. intros H. unfold StaticLoadRequirement.getattr_frame. by rewrite H. Qed.

Lemma getattr_frame_set_frame d name df :
  StaticLoadRequirement.getattr_frame
    (StaticLoadRequirement.set_frame d name df) name = Py.Ok df.
Proof. apply getattr_frame_Some. simpl. apply lookup_insert_eq. Qed.

(** C4.  Let LOAD_ZONES and TMPS be duplicate-free, let [LZ_Load_in_Tmp] be
    defined on LOAD_ZONES x TMPS, and let the dynamic components hold a
    frame under the attribute LOAD_ZONE_TMP_DF.  Then the list [data] of
    [export_results] has the pairs (lz, tmp) of LOAD_ZONES x TMPS as its
    index, in order and each once, so a pair has a row exactly when it is in
    the product; the row of (lz, tmp) carries the value of
    [LZ_Load_in_Tmp[lz, tmp]]; and [export_results] returns the dynamic
    components with the shared frame merged: every row (lz, tmp) of the
    frame keeps its other columns and has in column static_load_mw the value
    of [LZ_Load_in_Tmp[lz, tmp]] when (lz, tmp) is in LOAD_ZONES x TMPS,
    and None otherwise. *)
Theorem export_results_static_load
    (LOAD_ZONE_TMP_DF : string) (m : StaticLoadRequirement.Model)
    (d : StaticLoadRequirement.DynamicComponents)
    (df : Pandas.DataFrame (string * Z) StaticLoadRequirement.load_value)
    (Hzones : NoDup (StaticLoadRequirement.LOAD_ZONES m))
    (Htmps : NoDup (StaticLoadRequirement.TMPS m))
    (Hdefined : forall lz tmp,
        lz ∈ StaticLoadRequirement.LOAD_ZONES m ->
        tmp ∈ StaticLoadRequirement.TMPS m ->
        exists v, StaticLoadRequirement.LZ_Load_in_Tmp m lz tmp = Py.Ok v)
    (Hframe : StaticLoadRequirement.frames d !! LOAD_ZONE_TMP_DF = Some df) :
  exists data,
    StaticLoadRequirement.export_results_data m = Py.Ok data
    /\ data.*1 = list_prod (StaticLoadRequirement.LOAD_ZONES m)
                           (StaticLoadRequirement.TMPS m)
    /\ NoDup data.*1
    /\ (forall lz tmp,
          (lz, tmp) ∈ data.*1
          <-> lz ∈ StaticLoadRequirement.LOAD_ZONES m
              /\ tmp ∈ StaticLoadRequirement.TMPS m)
    /\ (forall lz tmp row,
          (lz, tmp, row) ∈ data ->
          exists v, StaticLoadRequirement.LZ_Load_in_Tmp m lz tmp = Py.Ok v
                    /\ row = [Some v])
    /\ StaticLoadRequirement.export_results LOAD_ZONE_TMP_DF m d
       = Py.Ok
           (StaticLoadRequirement.set_frame d LOAD_ZONE_TMP_DF
              ((fun kr : Pandas.row (string * Z) StaticLoadRequirement.load_value =>
                  (kr.1,
                   <["static_load_mw" :=
                       StaticLoadRequirement.merged_static_load m kr.1]> kr.2))
               <$> df)).
Proof.
  pose proof (export_results_data_rows m Hdefined) as Hdata.
  pose proof (NoDup_list_prod _ _ Hzones Htmps) as Hprod.
  eexists. split; [exact Hdata |].
  rewrite static_load_rows_index.
  split; [reflexivity |]. split; [exact Hprod |].
  split; [intros lz tmp; apply elem_of_list_prod |]. split.
  - intros lz tmp row Hin.
    apply list_elem_of_fmap in Hin as ([lz' tmp'] & [= -> -> ->] & Hin).
    apply elem_of_list_prod in Hin as [Hlz Htmp].
    destruct (Hdefined lz' tmp' Hlz Htmp) as [v Hv]. exists v.
    split; [exact Hv |].
    unfold StaticLoadRequirement.merged_static_load. simpl.
    rewrite decide_True by tauto. rewrite Hv. reflexivity.
  - unfold StaticLoadRequirement.export_results. rewrite Hdata.
    cbn [mbind result_bind Py.bind].
    rewrite results_df_rows.
    cbn [foldl StaticLoadRequirement.results_columns].
    cbn [mbind result_bind Py.bind].
    rewrite (getattr_frame_Some _ _ _ Hframe).
    cbn [mbind result_bind Py.bind mret result_ret].
    rewrite getattr_frame_set_frame. cbn [Py.bind].
    unfold Pandas.update.
    rewrite bool_decide_eq_true_2.
    2:{ rewrite index_fmap. exact Hprod. }
    cbn [mbind result_bind Py.bind mret result_ret]. f_equal.
    unfold StaticLoadRequirement.set_frame.
    cbn [StaticLoadRequirement.name_lists StaticLoadRequirement.frames].
    f_equal. rewrite insert_insert_eq. f_equal.
    unfold Pandas.setitem_None. rewrite <- list_fmap_compose.
    apply list_fmap_ext. intros _ [k r] _. simpl. f_equal.
    apply update_reset_column.
    + intros r'. rewrite loc_fmap.
      destruct (decide _); [|discriminate]. intros [= <-]. reflexivity.
    + rewrite loc_fmap. destruct (decide _) as [|Hout]; [discriminate |].
      intros _. apply merged_static_load_outside. exact Hout.
Qed.

Lemma export_results_static_load_witness :
  let m :=
    {| StaticLoadRequirement.LOAD_ZONES := ["Zone1"];
       StaticLoadRequirement.TMPS := [1%Z; 2%Z];
       StaticLoadRequirement.LOAD_ZONE_LOAD_CMPNTS := [];
       StaticLoadRequirement.load_level_default_data := ∅;
       StaticLoadRequirement.LOAD_ZONE_TMP_LOAD_CMPNTS :=
         [("Zone1", 1%Z, "base"); ("Zone1", 2%Z, "base")];
       StaticLoadRequirement.component_static_load_mw_data :=
         {[ ("Zone1", 1%Z, "base") := StaticLoadRequirement.Finite 10;
            ("Zone1", 2%Z, "base") := StaticLoadRequirement.Finite 20 ]} |} in
  let df : Pandas.DataFrame (string * Z) StaticLoadRequirement.load_value :=
    [(("Zone1", 1%Z), ∅); (("Zone1", 2%Z), ∅); (("Zone2", 1%Z), ∅)] in
  let d :=
    {| StaticLoadRequirement.name_lists := ∅;
       StaticLoadRequirement.frames := {[ "load_zone_tmp_df" := df ]} |} in
  NoDup (StaticLoadRequirement.LOAD_ZONES m)
  /\ NoDup (StaticLoadRequirement.TMPS m)
  /\ StaticLoadRequirement.frames d !! "load_zone_tmp_df" = Some df
  /\ exists data,
      StaticLoadRequirement.export_results_data m = Py.Ok data
      /\ data.*1 = [("Zone1", 1%Z); ("Zone1", 2%Z)]
      /\ StaticLoadRequirement.export_results "load_zone_tmp_df" m d
         = Py.Ok
             (StaticLoadRequirement.set_frame d "load_zone_tmp_df"
                [(("Zone1", 1%Z),
                  {[ "static_load_mw" :=
                       Some (StaticLoadRequirement.Finite (0 + 10)) ]});
                 (("Zone1", 2%Z),
                  {[ "static_load_mw" :=
                       Some (StaticLoadRequirement.Finite (0 + 20)) ]});
                 (("Zone2", 1%Z), {[ "static_load_mw" := None ]})]).
Proof.
  intros m df d.
  assert (Hzones : NoDup (StaticLoadRequirement.LOAD_ZONES m))
    by apply NoDup_singleton.
  assert (Htmps : NoDup (StaticLoadRequirement.TMPS m)).
  { apply NoDup_cons. split; [|apply NoDup_singleton].
    intros Hin. apply list_elem_of_singleton in Hin. discriminate Hin. }
  assert (Hframe : StaticLoadRequirement.frames d !! "load_zone_tmp_df" = Some df)
    by reflexivity.
  assert (Hdefined : forall lz tmp,
             lz ∈ StaticLoadRequirement.LOAD_ZONES m ->
             tmp ∈ StaticLoadRequirement.TMPS m ->
             exists v, StaticLoadRequirement.LZ_Load_in_Tmp m lz tmp = Py.Ok v).
  { intros lz tmp Hlz Htmp.
    apply list_elem_of_singleton in Hlz as ->.
    apply elem_of_cons in Htmp as [-> | Htmp];
      [eexists; vm_compute; reflexivity |].
    apply list_elem_of_singleton in Htmp as ->.
    eexists; vm_compute; reflexivity. }
  split; [exact Hzones |]. split; [exact Htmps |]. split; [exact Hframe |].
  destruct (export_results_static_load "load_zone_tmp_df" m d df
              Hzones Htmps Hdefined Hframe)
    as (data & Hdata & Hindex & _ & _ & _ & Hexport).
  exists data. split; [exact Hdata |]. split; [exact Hindex |].
  rewrite Hexport. reflexivity.
Defined.

(** ** C5: load inputs are resolved against the scenario *)

Lemma elem_of_inner_join {A B C : Type} `{EqDecision C}
    (cl : A -> C) (cr : B -> C) (l : list A) (r : list B) (a : A) (b : B) :
  (a, b) ∈ StaticLoadRequirement.inner_join cl cr l r
  <-> a ∈ l /\ b ∈ r /\ cl a = cr b.
Proof.
  unfold StaticLoadRequirement.inner_join.
  rewrite list_elem_of_bind. split.
  - intros (a' & Hab & Ha).
    apply list_elem_of_fmap in Hab as (b' & [= -> ->] & Hb).
    apply list_elem_of_filter in Hb as [Heq Hb]. tauto.
  - intros (Ha & Hb & Heq). exists a. split; [|exact Ha].
    apply list_elem_of_fmap. exists b. split; [reflexivity |].
    apply list_elem_of_filter. tauto.
Qed.





(** ** C8: the PRM requirement dictionary *)

Lemma comprehension_Forall2 {A B : Type} (f : A -> Py.result B)
    (R : A -> B -> Prop) (xs : list A) :
  (forall x, x ∈ xs -> exists y, f x = Py.Ok y /\ R x y) ->
  exists ys, Py.comprehension f xs = Py.Ok ys /\ Forall2 R xs ys.
Proof.
  induction xs as [|x xs IH]; intros Hf.
  - exists []. split; [reflexivity | constructor].
  - destruct (Hf x) as (y & Hy & HR); [apply list_elem_of_here |].
    destruct IH as (ys & Hys & HRs).
    { intros x' Hx'. apply Hf. apply list_elem_of_further. exact Hx'. }
    exists (y :: ys). cbn [Py.comprehension]. rewrite Hy, Hys.
    split; [reflexivity | constructor; assumption].
Qed.

Section LoadSystemPrmFacts.
Import LoadSystemPrm.

Lemma elem_of_unique {A : Type} `{EqDecision A} (l : list A) (x : A) :
  x ∈ unique l <-> x ∈ l.
Proof.
  induction l as [|y l IH]; [reflexivity |].
  cbn [unique]. rewrite !elem_of_cons, list_elem_of_filter, IH.
  destruct (decide (x = y)); tauto.
Qed.

Lemma head_filter_elem_of {A C : Type} `{EqDecision C} (f : A -> C) (l : list A) (c : C) :
  c ∈ f <$> l -> exists r, head (filter (fun r => f r = c) l) = Some r.
Proof.
  induction l as [|r l IH]; intros Hin; [inversion Hin |].
  cbn [fmap list_fmap] in Hin. rewrite filter_cons.
  destruct (decide (f r = c)) as [|Hne]; [exists r; reflexivity |].
  apply IH. apply elem_of_cons in Hin as [-> | Hin]; [congruence | exact Hin].
Qed.

Lemma head_filter_not_elem_of {A C : Type} `{EqDecision C} (f : A -> C) (l : list A) (c : C) :
  c ∉ f <$> l -> head (filter (fun r => f r = c) l) = None.
Proof.
  induction l as [|r l IH]; intros Hout; [reflexivity |].
  cbn [fmap list_fmap] in Hout. rewrite filter_cons.
  destruct (decide (f r = c)) as [Heq|Hne].
  - destruct Hout. rewrite Heq. apply list_elem_of_here.
  - apply IH. intros Hin. apply Hout. apply list_elem_of_further. exact Hin.
Qed.

Lemma alter_Some {A : Type} (f : A -> A) (z : string) (D : gmap string A) (M : A) :
  D !! z = Some M -> alter f z D = <[z := f M]> D.
Proof.
  intros HM. apply map_eq. intros z'.
  destruct (decide (z = z')) as [<-|Hne].
  - rewrite lookup_alter_eq, lookup_insert_eq, HM. reflexivity.
  - rewrite lookup_alter_ne, lookup_insert_ne by exact Hne. reflexivity.
Qed.

(** The loop over the periods of a zone writes, for each period, the
    requirement of the first row of the zone with that period. *)
Lemma period_loop (z : string) (by_zone : list data_row) (ps : list Z) :
  forall D M,
    D !! z = Some M ->
    (forall p, p ∈ ps -> p ∈ period <$> by_zone) ->
    exists M',
      Py.for_each (period_step z by_zone) ps D = Py.Ok (<[z := M']> D)
      /\ forall p,
          M' !! p = if decide (p ∈ ps)
                    then prm_requirement_mw <$>
                           head (filter (fun r => period r = p) by_zone)
                    else M !! p.
Proof.
  induction ps as [|p ps IH]; intros D M HM Hps.
  - exists M. split.
    + cbn [Py.for_each]. rewrite insert_id by exact HM. reflexivity.
    + intros p. destruct (decide (p ∈ [])) as [Hin|]; [inversion Hin | reflexivity].
  - destruct (head_filter_elem_of period by_zone p) as [r Hr].
    { apply Hps. apply list_elem_of_here. }
    assert (Hstep : period_step z by_zone D p
                    = Py.Ok (<[z := <[p := prm_requirement_mw r]> M]> D)).
    { unfold period_step.
      destruct (filter (fun r => period r = p) by_zone) as [|r' rest];
        [discriminate Hr |].
      injection Hr as ->. cbn [iloc0 mbind result_bind Py.bind mret result_ret].
      rewrite (alter_Some _ z D M HM). reflexivity. }
    destruct (IH (<[z := <[p := prm_requirement_mw r]> M]> D)
                 (<[p := prm_requirement_mw r]> M)) as (M' & Hloop & HM').
    { apply lookup_insert_eq. }
    { intros q Hq. apply Hps. apply list_elem_of_further. exact Hq. }
    exists M'. split.
    + cbn [Py.for_each]. rewrite Hstep. cbn [Py.bind].
      rewrite Hloop, insert_insert_eq. reflexivity.
    + intros q. rewrite HM'.
      destruct (decide (q ∈ ps)) as [Hin|Hnin].
      * rewrite decide_True by (apply list_elem_of_further; exact Hin).
        reflexivity.
      * destruct (decide (q = p)) as [->|Hne].
        -- rewrite decide_True by apply list_elem_of_here.
           rewrite lookup_insert_eq, Hr. reflexivity.
        -- rewrite decide_False.
           ++ rewrite lookup_insert_ne by congruence. reflexivity.
           ++ intros Hin. apply elem_of_cons in Hin as [?|?]; tauto.
Qed.

Lemma zone_step_spec (rows : list data_row) (D : gmap string (gmap Z Q)) (z : string) :
  exists M,
    zone_step rows D z = Py.Ok (<[z := M]> D)
    /\ forall p,
        M !! p = prm_requirement_mw <$>
                   head (filter (fun r => period r = p)
                           (filter (fun r => prm_zone r = z) rows)).
Proof.
  unfold zone_step.
  destruct (period_loop z (filter (fun r => prm_zone r = z) rows)
              (unique (period <$> filter (fun r => prm_zone r = z) rows))
              (<[z := ∅]> D) ∅) as (M & Hloop & HM).
  { apply lookup_insert_eq. }
  { intros p Hp. apply (proj1 (elem_of_unique _ _)). exact Hp. }
  exists M. split.
  - rewrite Hloop, insert_insert_eq. reflexivity.
  - intros p. rewrite HM.
    destruct (decide _) as [|Hout]; [reflexivity |].
    rewrite lookup_empty, head_filter_not_elem_of; [reflexivity |].
    intros Hin. apply Hout. apply elem_of_unique. exact Hin.
Qed.

Lemma zone_loop (rows : list data_row) (zs : list string) :
  forall D,
    exists D',
      Py.for_each (zone_step rows) zs D = Py.Ok D'
      /\ forall z p,
          requirement D' z p
          = if decide (z ∈ zs)
            then prm_requirement_mw <$>
                   head (filter (fun r => period r = p)
                           (filter (fun r => prm_zone r = z) rows))
            else requirement D z p.
Proof.
  induction zs as [|z zs IH]; intros D.
  - exists D. split; [reflexivity |]. intros z p.
    destruct (decide (z ∈ [])) as [Hin|]; [inversion Hin | reflexivity].
  - destruct (zone_step_spec rows D z) as (M & Hstep & HM).
    destruct (IH (<[z := M]> D)) as (D' & Hloop & HD').
    exists D'. split.
    + cbn [Py.for_each]. rewrite Hstep. exact Hloop.
    + intros z' p. rewrite HD'.
      destruct (decide (z' ∈ zs)) as [Hin|Hnin].
      * rewrite decide_True by (apply list_elem_of_further; exact Hin).
        reflexivity.
      * unfold requirement. destruct (decide (z' = z)) as [->|Hne].
        -- rewrite decide_True by apply list_elem_of_here.
           rewrite lookup_insert_eq. simpl. apply HM.
        -- rewrite decide_False.
           ++ rewrite lookup_insert_ne by congruence. reflexivity.
           ++ intros Hin. apply elem_of_cons in Hin as [?|?]; tauto.
Qed.

Lemma zone_period_requirement_of_spec (sc_id : Z) (data_input : list data_row) :
  exists D,
    zone_period_requirement_of sc_id data_input = Py.Ok D
    /\ forall z p, requirement D z p = first_requirement data_input sc_id z p.
Proof.
  unfold zone_period_requirement_of.
  set (rows := filter (fun r => prm_requirement_scenario_id r = sc_id) data_input).
  destruct (zone_loop rows (unique (prm_zone <$> rows)) ∅) as (D & Hloop & HD).
  exists D. split; [exact Hloop |].
  intros z p. rewrite HD. unfold first_requirement.
  assert (Hfilter :
    filter (fun r => period r = p) (filter (fun r => prm_zone r = z) rows)
    = filter (fun r => prm_requirement_scenario_id r = sc_id
                       /\ prm_zone r = z /\ period r = p) data_input).
  { unfold rows. rewrite !list_filter_filter.
    apply list_filter_iff. intros r. tauto. }
  destruct (decide _) as [|Hout].
  - rewrite Hfilter. reflexivity.
  - rewrite <- Hfilter.
    assert (Hnil : filter (fun r => prm_zone r = z) rows = []).
    { destruct (filter (fun r => prm_zone r = z) rows) as [|r rest] eqn:E;
        [reflexivity |].
      destruct Hout. apply elem_of_unique.
      assert (Hr : r ∈ filter (fun r => prm_zone r = z) rows)
        by (rewrite E; apply list_elem_of_here).
      apply list_elem_of_filter in Hr as [<- Hr].
      apply list_elem_of_fmap. exists r. tauto. }
    rewrite Hnil. unfold requirement. rewrite lookup_empty. reflexivity.
Qed.

End LoadSystemPrmFacts.

(** C8.  [load_system_prm_requirement] makes one call of
    [system_prm.prm_requirement] for every subscenario row, in order,
    without raising.  The dictionary of each call has an entry for a zone
    and a period exactly when [data_input] has a row of that subscenario
    with this zone and period, and the entry is the prm_requirement_mw of
    the first such row: later rows for the same zone and period are
    ignored, they neither raise nor overwrite. *)
Theorem prm_requirement_first_row_wins
    (subscenario_input : list LoadSystemPrm.subscenario_row)
    (data_input : list LoadSystemPrm.data_row) :
  exists calls,
    LoadSystemPrm.load_system_prm_requirement subscenario_input data_input
    = Py.Ok calls
    /\ Forall2
         (fun i call =>
            LoadSystemPrm.call_prm_requirement_scenario_id call
              = LoadSystemPrm.sc_prm_requirement_scenario_id i
            /\ LoadSystemPrm.call_scenario_name call = LoadSystemPrm.sc_name i
            /\ LoadSystemPrm.call_scenario_description call
               = LoadSystemPrm.sc_description i
            /\ forall z p,
                LoadSystemPrm.requirement
                  (LoadSystemPrm.call_zone_period_requirement call) z p
                = LoadSystemPrm.first_requirement data_input
                    (LoadSystemPrm.sc_prm_requirement_scenario_id i) z p)
         subscenario_input calls.
Proof.
  unfold LoadSystemPrm.load_system_prm_requirement.
  apply comprehension_Forall2. intros i _.
  destruct (zone_period_requirement_of_spec
              (LoadSystemPrm.sc_prm_requirement_scenario_id i) data_input)
    as (D & HD & Hreq).
  rewrite HD. eexists. split; [reflexivity |].
  simpl. repeat split; try reflexivity. exact Hreq.
Qed.

Example prm_requirement_duplicate_rows :
  let row sc z p mw :=
    {| LoadSystemPrm.prm_requirement_scenario_id := sc;
       LoadSystemPrm.prm_zone := z;
       LoadSystemPrm.period := p;
       LoadSystemPrm.prm_requirement_mw := mw |} in
  LoadSystemPrm.zone_period_requirement_of 1
    [row 1%Z "Zone1" 2030%Z 100%Q; row 1%Z "Zone1" 2030%Z 999%Q;
     row 2%Z "Zone1" 2030%Z 5%Q; row 1%Z "Zone2" 2040%Z 7%Q]
  = Py.Ok {[ "Zone1" := {[ 2030%Z := 100%Q ]};
             "Zone2" := {[ 2040%Z := 7%Q ]} ]}.
Proof. vm_compute. reflexivity. Qed.

Example loads_query_filters :
  let conn :=
    {| StaticLoadRequirement.inputs_system_load_levels :=
         [ {| StaticLoadRequirement.levels_load_levels_scenario_id := 7;
              StaticLoadRequirement.levels_weather_iteration := 0;
              StaticLoadRequirement.levels_stage_id := 1;
              StaticLoadRequirement.levels_load_zone := "Zone1";
              StaticLoadRequirement.levels_timepoint := 1;
              StaticLoadRequirement.levels_load_component := "base";
              StaticLoadRequirement.levels_load_mw := 10%Q |};
           {| StaticLoadRequirement.levels_load_levels_scenario_id := 8;
              StaticLoadRequirement.levels_weather_iteration := 0;
              StaticLoadRequirement.levels_stage_id := 1;
              StaticLoadRequirement.levels_load_zone := "Zone1";
              StaticLoadRequirement.levels_timepoint := 1;
              StaticLoadRequirement.levels_load_component := "base";
              StaticLoadRequirement.levels_load_mw := 99%Q |};
           {| StaticLoadRequirement.levels_load_levels_scenario_id := 7;
              StaticLoadRequirement.levels_weather_iteration := 0;
              StaticLoadRequirement.levels_stage_id := 1;
              StaticLoadRequirement.levels_load_zone := "Zone1";
              StaticLoadRequirement.levels_timepoint := 1;
              StaticLoadRequirement.levels_load_component := "ev";
              StaticLoadRequirement.levels_load_mw := 3%Q |} ];
       StaticLoadRequirement.inputs_temporal :=
         [ {| StaticLoadRequirement.temporal_temporal_scenario_id := 1;
              StaticLoadRequirement.temporal_subproblem_id := 1;
              StaticLoadRequirement.temporal_stage_id := 1;
              StaticLoadRequirement.temporal_timepoint := 1 |} ];
       StaticLoadRequirement.inputs_geography_load_zones :=
         [ {| StaticLoadRequirement.geography_load_zone_scenario_id := 1;
              StaticLoadRequirement.geography_load_zone := "Zone1" |} ];
       StaticLoadRequirement.inputs_system_load :=
         [ {| StaticLoadRequirement.load_load_scenario_id := 1;
              StaticLoadRequirement.load_load_levels_scenario_id := 7;
              StaticLoadRequirement.load_load_components_scenario_id := 4 |} ];
       StaticLoadRequirement.inputs_system_load_components :=
         [ {| StaticLoadRequirement.components_load_components_scenario_id := 4;
              StaticLoadRequirement.components_load_zone := "Zone1";
              StaticLoadRequirement.components_load_component := "base";
              StaticLoadRequirement.components_load_level_default := None |} ];
       StaticLoadRequirement.load_levels_scan := id;
       StaticLoadRequirement.load_components_scan := id |} in
  let subscenarios :=
    {| StaticLoadRequirement.TEMPORAL_SCENARIO_ID := 1;
       StaticLoadRequirement.LOAD_ZONE_SCENARIO_ID := 1;
       StaticLoadRequirement.LOAD_SCENARIO_ID := 1 |} in
  StaticLoadRequirement.get_inputs_from_database 1 subscenarios 0 0 0 1 1 conn
  = ([("Zone1", 1%Z, "base", 10%Q)], [("Zone1", "base", None)]).
Proof. vm_compute. reflexivity. Qed.

(** Two rows of inputs_system_load for one load_scenario_id, inserted as
    (1, 8, 5) and then (1, 7, 4): a scan by the index of the primary key
    visits (1, 7, 4) first, and the queries follow that row. *)
Example loads_query_follows_scan :
  let conn :=
    {| StaticLoadRequirement.inputs_system_load_levels :=
         [ {| StaticLoadRequirement.levels_load_levels_scenario_id := 8;
              StaticLoadRequirement.levels_weather_iteration := 0;
              StaticLoadRequirement.levels_stage_id := 1;
              StaticLoadRequirement.levels_load_zone := "Zone1";
              StaticLoadRequirement.levels_timepoint := 1;
              StaticLoadRequirement.levels_load_component := "base";
              StaticLoadRequirement.levels_load_mw := 80%Q |};
           {| StaticLoadRequirement.levels_load_levels_scenario_id := 7;
              StaticLoadRequirement.levels_weather_iteration := 0;
              StaticLoadRequirement.levels_stage_id := 1;
              StaticLoadRequirement.levels_load_zone := "Zone1";
              StaticLoadRequirement.levels_timepoint := 1;
              StaticLoadRequirement.levels_load_component := "ev";
              StaticLoadRequirement.levels_load_mw := 70%Q |} ];
       StaticLoadRequirement.inputs_temporal :=
         [ {| StaticLoadRequirement.temporal_temporal_scenario_id := 1;
              StaticLoadRequirement.temporal_subproblem_id := 1;
              StaticLoadRequirement.temporal_stage_id := 1;
              StaticLoadRequirement.temporal_timepoint := 1 |} ];
       StaticLoadRequirement.inputs_geography_load_zones :=
         [ {| StaticLoadRequirement.geography_load_zone_scenario_id := 1;
              StaticLoadRequirement.geography_load_zone := "Zone1" |} ];
       StaticLoadRequirement.inputs_system_load :=
         [ {| StaticLoadRequirement.load_load_scenario_id := 1;
              StaticLoadRequirement.load_load_levels_scenario_id := 8;
              StaticLoadRequirement.load_load_components_scenario_id := 5 |};
           {| StaticLoadRequirement.load_load_scenario_id := 1;
              StaticLoadRequirement.load_load_levels_scenario_id := 7;
              StaticLoadRequirement.load_load_components_scenario_id := 4 |} ];
       StaticLoadRequirement.inputs_system_load_components :=
         [ {| StaticLoadRequirement.components_load_components_scenario_id := 5;
              StaticLoadRequirement.components_load_zone := "Zone1";
              StaticLoadRequirement.components_load_component := "base";
              StaticLoadRequirement.components_load_level_default := None |};
           {| StaticLoadRequirement.components_load_components_scenario_id := 4;
              StaticLoadRequirement.components_load_zone := "Zone1";
              StaticLoadRequirement.components_load_component := "ev";
              StaticLoadRequirement.components_load_level_default := None |} ];
       StaticLoadRequirement.load_levels_scan := reverse;
       StaticLoadRequirement.load_components_scan := reverse |} in
  let subscenarios :=
    {| StaticLoadRequirement.TEMPORAL_SCENARIO_ID := 1;
       StaticLoadRequirement.LOAD_ZONE_SCENARIO_ID := 1;
       StaticLoadRequirement.LOAD_SCENARIO_ID := 1 |} in
  StaticLoadRequirement.get_inputs_from_database 1 subscenarios 0 0 0 1 1 conn
  = ([("Zone1", 1%Z, "ev", 70%Q)], [("Zone1", "ev", None)]).
Proof. vm_compute. reflexivity. Qed.

(** * Further properties of the modules *)

(** ** static_load_requirement.py: the second query and the writer *)

Section StaticLoadQueries.
Import StaticLoadRequirement.
Variable conn : Connection.
Variable subscenarios : SubScenarios.


Lemma elem_of_ld_comp_defaults_query (lz cmp : string) (dflt : option Q) :
  (lz, cmp, dflt) ∈ ld_comp_defaults_query conn subscenarios
  <-> exists c,
        c ∈ inputs_system_load_components conn
        /\ components_load_zone c = lz
        /\ components_load_component c = cmp
        /\ components_load_level_default c = dflt
        /\ lz ∈ relevant_load_zones conn subscenarios
        /\ Some (components_load_components_scenario_id c)
           = scenario_load_components conn subscenarios.
Proof.
  unfold ld_comp_defaults_query. rewrite list_elem_of_fmap. split.
  - intros ([c z] & Hrow & Hin). simpl in Hrow. injection Hrow as -> -> ->.
    apply list_elem_of_filter in Hin as [Hsc Hjoin]. simpl in Hsc.
    apply elem_of_inner_join in Hjoin as (Hc & Hz & Heq). unfold id in Heq.
    exists c. rewrite Heq. tauto.
  - intros (c & Hc & <- & <- & <- & Hz & Hsc).
    exists (c, components_load_zone c). split; [reflexivity |].
    apply list_elem_of_filter. split; [exact Hsc |].
    apply elem_of_inner_join. split; [exact Hc |]. split; [exact Hz | reflexivity].
Qed.

Lemma loads_query_zone_and_component
    (weather_iteration subproblem stage : Z)
    (lz : string) (tp : Z) (cmp : string) (mw : Q) :
  (lz, tp, cmp, mw) ∈ loads_query conn subscenarios weather_iteration subproblem stage ->
  lz ∈ relevant_load_zones conn subscenarios
  /\ (lz, cmp) ∈ scenario_components conn subscenarios.
Proof.
  unfold loads_query. rewrite list_elem_of_fmap.
  intros ([[r t] z] & Hrow & Hin). simpl in Hrow. injection Hrow as -> -> -> ->.
  apply list_elem_of_filter in Hin as [(_ & Hcmp & _) Hjoin]. simpl in Hcmp.
  apply elem_of_inner_join in Hjoin as (_ & Hz & Heq).
  simpl in Heq. unfold id in Heq. rewrite <- Heq in Hz. tauto.
Qed.

End StaticLoadQueries.


(** X2.  The two results of [get_inputs_from_database] fit together: the
    load zone and load component of every returned load row also occur in a
    returned row of load-level defaults, so a load written to load_mw.tab
    always has its (load_zone, load_component) pair in
    load_level_defaults.tab. *)
Theorem load_rows_have_default_rows
    (scenario_id : Z) (subscenarios : StaticLoadRequirement.SubScenarios)
    (weather_iteration hydro_iteration availability_iteration subproblem stage : Z)
    (conn : StaticLoadRequirement.Connection)
    (load_zone : string) (timepoint : Z) (load_component : string) (load_mw : Q) :
  let inputs :=
    StaticLoadRequirement.get_inputs_from_database scenario_id subscenarios
      weather_iteration hydro_iteration availability_iteration
      subproblem stage conn in
  (load_zone, timepoint, load_component, load_mw) ∈ inputs.1 ->
  exists load_level_default,
    (load_zone, load_component, load_level_default) ∈ inputs.2.
Proof.
  cbn [StaticLoadRequirement.get_inputs_from_database fst snd]. intros Hin.
  apply loads_query_zone_and_component in Hin as [Hzone Hcmp].
  unfold StaticLoadRequirement.scenario_components in Hcmp.
  apply list_elem_of_fmap in Hcmp as (c & [= -> ->] & Hc).
  apply list_elem_of_filter in Hc as [Hsc Hc].
  exists (StaticLoadRequirement.components_load_level_default c).
  apply elem_of_ld_comp_defaults_query. exists c. tauto.
Qed.

Lemma append_inj_r (q a b : string) : q +:+ a = q +:+ b -> a = b.
Proof.
  induction q as [|c q IH]; intros H; [exact H |].
  rewrite !append_cons in H. injection H as H. apply IH. exact H.
Qed.

(** Two file names that do not start with the separator give different
    paths in the same directory. *)
Lemma join_step_inj (path a b : string) :
  Py.startswith_sep a = false -> Py.startswith_sep b = false ->
  Py.join_step path a = Py.join_step path b -> a = b.
Proof.
  unfold Py.join_step. intros -> ->.
  destruct (bool_decide (path = "") || Py.endswith_sep path).
  - apply append_inj_r.
  - intros H. apply append_inj_r in H. apply append_inj_r in H. exact H.
Qed.

(** X3.  [write_model_inputs] writes exactly the two files that
    [load_model_data] asks for when called with the same directory
    arguments, and they are different files.  load_mw.tab holds its header
    and then one row per load row of the database query, in order;
    load_level_defaults.tab holds its header and one row per defaults row,
    in which a missing default is written as "." and never as an empty
    field.  No other file is touched. *)
Theorem write_model_inputs_writes_loaded_files
    (directories_to_db_values :
       string -> string -> string -> string -> string -> Z * Z * Z * Z * Z)
    (fs : Csv.files) (scenario_directory : string) (scenario_id : Z)
    (subscenarios : StaticLoadRequirement.SubScenarios)
    (weather_iteration hydro_iteration availability_iteration subproblem stage : string)
    (conn : StaticLoadRequirement.Connection) :
  let fs' :=
    StaticLoadInputs.write_model_inputs directories_to_db_values fs
      scenario_directory scenario_id subscenarios weather_iteration
      hydro_iteration availability_iteration subproblem stage conn in
  let db :=
    directories_to_db_values weather_iteration hydro_iteration
      availability_iteration subproblem stage in
  let inputs :=
    StaticLoadRequirement.get_inputs_from_database scenario_id subscenarios
      db.1.1.1.1 db.1.1.1.2 db.1.1.2 db.1.2 db.2 conn in
  exists load_mw_tab load_level_defaults_tab,
    DataPortal.filenames
      (StaticLoadRequirement.load_model_data DataPortal.empty scenario_directory
         weather_iteration hydro_iteration availability_iteration subproblem stage)
    = [load_mw_tab; load_level_defaults_tab]
    /\ load_mw_tab <> load_level_defaults_tab
    /\ fs' !! load_mw_tab
       = Some (StaticLoadInputs.load_mw_header
                 :: (StaticLoadInputs.load_row <$> inputs.1))
    /\ fs' !! load_level_defaults_tab
       = Some (StaticLoadInputs.load_level_defaults_header
                 :: (StaticLoadInputs.replace_nulls <$> inputs.2))
    /\ (forall row, row ∈ StaticLoadInputs.replace_nulls <$> inputs.2 ->
                    Csv.Null ∉ row)
    /\ (forall other,
          other <> load_mw_tab -> other <> load_level_defaults_tab ->
          fs' !! other = fs !! other).
Proof.
  intros fs' db inputs. subst fs' inputs db.
  unfold StaticLoadInputs.write_model_inputs.
  destruct (directories_to_db_values _ _ _ _ _) as [[[[dbw dbh] dba] dbs] dbst].
  cbn [fst snd StaticLoadRequirement.get_inputs_from_database].
  exists (Py.os_path_join scenario_directory
            [weather_iteration; hydro_iteration; availability_iteration;
             subproblem; stage; "inputs"; "load_mw.tab"]),
         (Py.os_path_join scenario_directory
            [weather_iteration; hydro_iteration; availability_iteration;
             subproblem; stage; "inputs"; "load_level_defaults.tab"]).
  split; [reflexivity |].
  assert (Hne :
    Py.os_path_join scenario_directory
      [weather_iteration; hydro_iteration; availability_iteration;
       subproblem; stage; "inputs"; "load_mw.tab"]
    <> Py.os_path_join scenario_directory
         [weather_iteration; hydro_iteration; availability_iteration;
          subproblem; stage; "inputs"; "load_level_defaults.tab"]).
  { unfold Py.os_path_join. cbn [fold_left]. intros H.
    apply join_step_inj in H; [discriminate H | reflexivity | reflexivity]. }
  split; [exact Hne |]. unfold Csv.write, Csv.files in *.
  split; [rewrite lookup_insert_ne by congruence; apply lookup_insert_eq |].
  split; [apply lookup_insert_eq |]. split.
  - intros row Hrow Hnull.
    apply list_elem_of_fmap in Hrow as ([[lz cmp] [q|]] & -> & _);
      simpl in Hnull;
      repeat (apply elem_of_cons in Hnull as [Hnull | Hnull];
              [discriminate Hnull |]);
      inversion Hnull.
  - intros other H1 H2. rewrite !lookup_insert_ne by congruence. reflexivity.
Qed.

(** ** static_load_requirement.py: the load expression and its export *)

(** X4.  When no index of LOAD_ZONE_TMP_LOAD_CMPNTS has the value infinity,
    a load zone and timepoint for which the set lists no component gets the
    static load 0: the missing load is not reported as an error. *)
Theorem LZ_Load_in_Tmp_without_components
    (mod_ : StaticLoadRequirement.Model) (lz : string) (tmp : Z)
    (Hfinite : forall i,
        i ∈ StaticLoadRequirement.LOAD_ZONE_TMP_LOAD_CMPNTS mod_ ->
        StaticLoadRequirement.static_load_value mod_ i
          <> StaticLoadRequirement.Infinity)
    (Hnone : forall c,
        (lz, tmp, c) ∉ StaticLoadRequirement.LOAD_ZONE_TMP_LOAD_CMPNTS mod_) :
  StaticLoadRequirement.LZ_Load_in_Tmp mod_ lz tmp
  = Py.Ok (StaticLoadRequirement.Finite 0).
Proof.
  unfold StaticLoadRequirement.LZ_Load_in_Tmp,
    StaticLoadRequirement.total_static_load_from_components_init.
  rewrite (loop_sums_finite mod_ lz tmp _ (fun j Hj => Hj) _ Hfinite).
  fold (StaticLoadRequirement.components_of mod_ lz tmp).
  assert (Hnil : StaticLoadRequirement.components_of mod_ lz tmp = []).
  { apply elem_of_nil_inv. intros c Hc.
    apply elem_of_components_of in Hc. exact (Hnone c Hc). }
  rewrite Hnil. reflexivity.
Qed.

Lemma LZ_Load_in_Tmp_without_components_witness :
  let mod_ :=
    {| StaticLoadRequirement.LOAD_ZONES := ["Zone1"; "Zone2"];
       StaticLoadRequirement.TMPS := [1%Z];
       StaticLoadRequirement.LOAD_ZONE_LOAD_CMPNTS := [];
       StaticLoadRequirement.load_level_default_data := ∅;
       StaticLoadRequirement.LOAD_ZONE_TMP_LOAD_CMPNTS := [("Zone1", 1%Z, "base")];
       StaticLoadRequirement.component_static_load_mw_data :=
         {[ ("Zone1", 1%Z, "base") := StaticLoadRequirement.Finite 10 ]} |} in
  StaticLoadRequirement.LZ_Load_in_Tmp mod_ "Zone2" 1
  = Py.Ok (StaticLoadRequirement.Finite 0).
Proof.
  intros mod_. apply LZ_Load_in_Tmp_without_components.
  - intros i Hi. apply list_elem_of_singleton in Hi as ->.
    vm_compute. discriminate.
  - intros c Hc. apply list_elem_of_singleton in Hc. discriminate Hc.
Defined.

Section StaticLoadSign.
Import StaticLoadRequirement.
Variable mod_ : Model.
Hypothesis Hdata : forall i q,
  component_static_load_mw_data mod_ !! i = Some (Finite q) -> (0 <= q)%Q.
Hypothesis Hdefault : forall i q,
  load_level_default_data mod_ !! i = Some (Finite q) -> (0 <= q)%Q.

Lemma static_load_value_nonnegative i q :
  static_load_value mod_ i = Finite q -> (0 <= q)%Q.
Proof.
  destruct i as [[lz tmp] cmp]. unfold static_load_value, load_level_default.
  destruct (component_static_load_mw_data mod_ !! (lz, tmp, cmp)) as [v|] eqn:E;
    simpl.
  - intros ->. exact (Hdata _ _ E).
  - destruct (decide ((lz, cmp) ∈ LOAD_ZONE_LOAD_CMPNTS mod_)); [|discriminate].
    destruct (load_level_default_data mod_ !! (lz, cmp)) as [v|] eqn:E';
      simpl; [|discriminate].
    intros ->. exact (Hdefault _ _ E').
Qed.

Lemma component_static_load_mw_Ok lz tmp cmp v :
  component_static_load_mw mod_ lz tmp cmp = Py.Ok v ->
  static_load_value mod_ (lz, tmp, cmp) = v.
Proof.
  unfold component_static_load_mw, static_load_value.
  destruct (decide ((lz, tmp, cmp) ∈ LOAD_ZONE_TMP_LOAD_CMPNTS mod_));
    [|discriminate].
  destruct (component_static_load_mw_data mod_ !! (lz, tmp, cmp)) as [w|];
    [intros [= ->]; reflexivity |].
  unfold set_default_and_warn_about_undefined_loads.
  destruct (load_level_default mod_ lz cmp) as [[x|]|err];
    cbn [mbind result_bind Py.bind]; [|discriminate|discriminate].
  intros [= <-]. reflexivity.
Qed.

Lemma total_static_load_step_Ok lz tmp acc i acc' :
  total_static_load_step mod_ lz tmp acc i = Py.Ok acc' ->
  acc' = acc
  \/ exists x, static_load_value mod_ i = Finite x
               /\ acc' = load_value_add acc (Finite x).
Proof.
  destruct i as [[z t] c]. unfold total_static_load_step.
  destruct (component_static_load_mw mod_ z t c) as [[x|]|e] eqn:E;
    cbn [mbind result_bind Py.bind]; [|discriminate|discriminate].
  apply component_static_load_mw_Ok in E.
  cbn [load_value_eqb].
  destruct (bool_decide (z = lz) && bool_decide (t = tmp)).
  - intros [= <-]. right. exists x. split; [exact E | reflexivity].
  - intros [= <-]. left. reflexivity.
Qed.

Lemma load_value_add_nonnegative acc x :
  (forall a, acc = Finite a -> (0 <= a)%Q) -> (0 <= x)%Q ->
  forall a, load_value_add acc (Finite x) = Finite a -> (0 <= a)%Q.
Proof.
  intros Hacc Hx a. destruct acc as [b|]; [|discriminate].
  cbn [load_value_add].
  destruct (Qle_bool overflow_threshold (b + x)); [discriminate |].
  intros [= <-].
  apply Qplus_le_compat with (x := 0%Q) (z := 0%Q); [apply Hacc; reflexivity | exact Hx].
Qed.

Lemma loop_nonnegative lz tmp (l : list (string * Z * string)) :
  forall acc q,
    (forall a, acc = Finite a -> (0 <= a)%Q) ->
    Py.for_each (total_static_load_step mod_ lz tmp) l acc = Py.Ok (Finite q) ->
    (0 <= q)%Q.
Proof.
  induction l as [|i l IH]; intros acc q Hacc Hrun.
  - injection Hrun as ->. apply Hacc. reflexivity.
  - cbn [Py.for_each] in Hrun.
    destruct (total_static_load_step mod_ lz tmp acc i) as [acc'|e] eqn:Estep;
      [|discriminate Hrun].
    cbn [Py.bind] in Hrun.
    apply total_static_load_step_Ok in Estep as [-> | (x & Ev & ->)].
    + apply (IH acc q Hacc Hrun).
    + apply (IH _ q (load_value_add_nonnegative acc x Hacc
                       (static_load_value_nonnegative _ _ Ev)) Hrun).
Qed.

End StaticLoadSign.

(** X5.  If the loads and the load-level defaults read from the input files
    are nonnegative (both Params are within NonNegativeReals), then a value
    of [LZ_Load_in_Tmp] is a nonnegative number. *)
Theorem LZ_Load_in_Tmp_nonnegative
    (mod_ : StaticLoadRequirement.Model) (lz : string) (tmp : Z) (q : Q)
    (Hdata : forall i x,
        StaticLoadRequirement.component_static_load_mw_data mod_ !! i
          = Some (StaticLoadRequirement.Finite x) -> (0 <= x)%Q)
    (Hdefault : forall i x,
        StaticLoadRequirement.load_level_default_data mod_ !! i
          = Some (StaticLoadRequirement.Finite x) -> (0 <= x)%Q)
    (Hvalue : StaticLoadRequirement.LZ_Load_in_Tmp mod_ lz tmp
              = Py.Ok (StaticLoadRequirement.Finite q)) :
  (0 <= q)%Q.
Proof.
  apply (loop_nonnegative mod_ Hdata Hdefault lz tmp
           (StaticLoadRequirement.LOAD_ZONE_TMP_LOAD_CMPNTS mod_)
           (StaticLoadRequirement.Finite 0) q);
    [intros a [= <-]; apply Qle_refl | exact Hvalue].
Qed.

Lemma LZ_Load_in_Tmp_nonnegative_witness :
  let mod_ :=
    {| StaticLoadRequirement.LOAD_ZONES := ["Zone1"];
       StaticLoadRequirement.TMPS := [1%Z];
       StaticLoadRequirement.LOAD_ZONE_LOAD_CMPNTS := [("Zone1", "ev")];
       StaticLoadRequirement.load_level_default_data :=
         {[ ("Zone1", "ev") := StaticLoadRequirement.Finite 2 ]};
       StaticLoadRequirement.LOAD_ZONE_TMP_LOAD_CMPNTS :=
         [("Zone1", 1%Z, "base"); ("Zone1", 1%Z, "ev")];
       StaticLoadRequirement.component_static_load_mw_data :=
         {[ ("Zone1", 1%Z, "base") := StaticLoadRequirement.Finite 10 ]} |} in
  StaticLoadRequirement.LZ_Load_in_Tmp mod_ "Zone1" 1
    = Py.Ok (StaticLoadRequirement.Finite (0 + 10 + 2))
  /\ (0 <= 0 + 10 + 2)%Q.
Proof.
  intros mod_.
  assert (Hvalue : StaticLoadRequirement.LZ_Load_in_Tmp mod_ "Zone1" 1
                   = Py.Ok (StaticLoadRequirement.Finite (0 + 10 + 2)))
    by (vm_compute; reflexivity).
  split; [exact Hvalue |].
  apply (LZ_Load_in_Tmp_nonnegative mod_ "Zone1" 1%Z); [| |exact Hvalue].
  - intros i x Hi. simpl in Hi.
    apply lookup_singleton_Some in Hi as [_ [= <-]]. discriminate.
  - intros i x Hi. simpl in Hi.
    apply lookup_singleton_Some in Hi as [_ [= <-]]. discriminate.
Defined.

Lemma export_results_merged
    (LOAD_ZONE_TMP_DF : string) (m : StaticLoadRequirement.Model)
    (d : StaticLoadRequirement.DynamicComponents)
    (df : Pandas.DataFrame (string * Z) StaticLoadRequirement.load_value) :
  NoDup (StaticLoadRequirement.LOAD_ZONES m) ->
  NoDup (StaticLoadRequirement.TMPS m) ->
  (forall lz tmp,
      lz ∈ StaticLoadRequirement.LOAD_ZONES m ->
      tmp ∈ StaticLoadRequirement.TMPS m ->
      exists v, StaticLoadRequirement.LZ_Load_in_Tmp m lz tmp = Py.Ok v) ->
  StaticLoadRequirement.frames d !! LOAD_ZONE_TMP_DF = Some df ->
  StaticLoadRequirement.export_results LOAD_ZONE_TMP_DF m d
  = Py.Ok
      (StaticLoadRequirement.set_frame d LOAD_ZONE_TMP_DF
         ((fun kr : Pandas.row (string * Z) StaticLoadRequirement.load_value =>
             (kr.1,
              <["static_load_mw" :=
                  StaticLoadRequirement.merged_static_load m kr.1]> kr.2))
          <$> df)).
Proof.
  intros Hzones Htmps Hdefined Hframe.
  unfold StaticLoadRequirement.export_results.
  rewrite (export_results_data_rows m Hdefined).
  cbn [mbind result_bind Py.bind].
  rewrite results_df_rows.
  cbn [foldl StaticLoadRequirement.results_columns].
  cbn [mbind result_bind Py.bind].
  rewrite (getattr_frame_Some _ _ _ Hframe).
  cbn [mbind result_bind Py.bind mret result_ret].
  rewrite getattr_frame_set_frame. cbn [Py.bind].
  unfold Pandas.update.
  rewrite bool_decide_eq_true_2
    by (rewrite index_fmap; apply NoDup_list_prod; assumption).
  cbn [mbind result_bind Py.bind mret result_ret]. f_equal.
  unfold StaticLoadRequirement.set_frame.
  cbn [StaticLoadRequirement.name_lists StaticLoadRequirement.frames].
  f_equal. rewrite insert_insert_eq. f_equal.
  unfold Pandas.setitem_None. rewrite <- list_fmap_compose.
  apply list_fmap_ext. intros _ [k r] _. simpl. f_equal.
  apply update_reset_column.
  - intros r'. rewrite loc_fmap.
    destruct (decide _); [|discriminate]. intros [= <-]. reflexivity.
  - rewrite loc_fmap. destruct (decide _) as [|Hout]; [discriminate |].
    intros _. apply merged_static_load_outside. exact Hout.
Qed.

(** X6.  Exporting twice is the same as exporting once: when
    [export_results] has returned the dynamic components [d'], running it
    again on [d'] returns [d'] (LOAD_ZONES and TMPS duplicate-free, the
    expression defined on their product). *)
Theorem export_results_idempotent
    (LOAD_ZONE_TMP_DF : string) (m : StaticLoadRequirement.Model)
    (d d' : StaticLoadRequirement.DynamicComponents)
    (df : Pandas.DataFrame (string * Z) StaticLoadRequirement.load_value)
    (Hzones : NoDup (StaticLoadRequirement.LOAD_ZONES m))
    (Htmps : NoDup (StaticLoadRequirement.TMPS m))
    (Hdefined : forall lz tmp,
        lz ∈ StaticLoadRequirement.LOAD_ZONES m ->
        tmp ∈ StaticLoadRequirement.TMPS m ->
        exists v, StaticLoadRequirement.LZ_Load_in_Tmp m lz tmp = Py.Ok v)
    (Hframe : StaticLoadRequirement.frames d !! LOAD_ZONE_TMP_DF = Some df)
    (Hfirst : StaticLoadRequirement.export_results LOAD_ZONE_TMP_DF m d = Py.Ok d') :
  StaticLoadRequirement.export_results LOAD_ZONE_TMP_DF m d' = Py.Ok d'.
Proof.
  rewrite (export_results_merged _ _ _ _ Hzones Htmps Hdefined Hframe) in Hfirst.
  injection Hfirst as <-.
  erewrite export_results_merged; [|assumption..|apply lookup_insert_eq].
  f_equal. unfold StaticLoadRequirement.set_frame.
  cbn [StaticLoadRequirement.name_lists StaticLoadRequirement.frames].
  f_equal. rewrite insert_insert_eq. f_equal.
  rewrite <- list_fmap_compose. apply list_fmap_ext. intros _ [k r] _.
  simpl. rewrite insert_insert_eq. reflexivity.
Qed.

Lemma getattr_frame_None d name :
  StaticLoadRequirement.frames d !! name = None ->
  StaticLoadRequirement.getattr_frame d name = Py.Raise Py.AttributeError.
Proof. intros H. unfold StaticLoadRequirement.getattr_frame. by rewrite H. Qed.

(** X7.  When the dynamic components have no frame under the attribute
    LOAD_ZONE_TMP_DF, [export_results] ends in AttributeError (the
    expression being defined on LOAD_ZONES x TMPS). *)
Theorem export_results_without_frame
    (LOAD_ZONE_TMP_DF : string) (m : StaticLoadRequirement.Model)
    (d : StaticLoadRequirement.DynamicComponents)
    (Hdefined : forall lz tmp,
        lz ∈ StaticLoadRequirement.LOAD_ZONES m ->
        tmp ∈ StaticLoadRequirement.TMPS m ->
        exists v, StaticLoadRequirement.LZ_Load_in_Tmp m lz tmp = Py.Ok v)
    (Hframe : StaticLoadRequirement.frames d !! LOAD_ZONE_TMP_DF = None) :
  StaticLoadRequirement.export_results LOAD_ZONE_TMP_DF m d
  = Py.Raise Py.AttributeError.
Proof.
  unfold StaticLoadRequirement.export_results.
  rewrite (export_results_data_rows m Hdefined).
  cbn [mbind result_bind Py.bind foldl StaticLoadRequirement.results_columns].
  rewrite (getattr_frame_None _ _ Hframe). reflexivity.
Qed.

(** ** lf_reserves_down.py: the footroom variables *)

Section LfReservesDownFacts.
Import LfReservesDown LfReservesDownRows.
Variable find_list_item_position : list string -> string -> list nat.
Variable headers : list string.

Lemma read_row_extends d row g l :
  footroom_variables d !! g = Some l ->
  exists n,
    footroom_variables (read_row find_list_item_position headers d row).1 !! g
    = Some (l ++ replicate n "Provide_LF_Reserves_Down_MW").
Proof.
  intros Hl. unfold read_row.
  destruct (field find_list_item_position headers row "RESOURCES")
    as [generator|e]; [|exists 0; simpl; rewrite app_nil_r; exact Hl].
  set (d1 := if decide (is_Some (footroom_variables d !! generator)) then d
             else {| required_reserve_modules := required_reserve_modules d;
                     footroom_variables :=
                       <[generator := []]> (footroom_variables d) |}).
  assert (Hl1 : footroom_variables d1 !! g = Some l).
  { subst d1. destruct (decide _) as [|Hnone]; [exact Hl |]. simpl.
    rewrite lookup_insert_ne; [exact Hl |].
    intros ->. apply Hnone. rewrite Hl. eauto. }
  destruct (field find_list_item_position headers row "lf_reserves_down_zone")
    as [zone|e]; [|exists 0; simpl; rewrite app_nil_r; exact Hl1].
  destruct (decide (zone = ".")); [exists 0; simpl; rewrite app_nil_r; exact Hl1 |].
  simpl. destruct (decide (generator = g)) as [->|Hne].
  - exists 1. rewrite lookup_alter_eq, Hl1. reflexivity.
  - exists 0. rewrite lookup_alter_ne by exact Hne.
    simpl. rewrite app_nil_r. exact Hl1.
Qed.

Lemma read_rows_extends rows : forall d g l,
  footroom_variables d !! g = Some l ->
  exists n,
    footroom_variables (read_rows find_list_item_position headers d rows).1 !! g
    = Some (l ++ replicate n "Provide_LF_Reserves_Down_MW").
Proof.
  induction rows as [|row rows IH]; intros d g l Hl.
  - exists 0. simpl. rewrite app_nil_r. exact Hl.
  - destruct (read_row_extends d row g l Hl) as [n1 Hn1].
    cbn [read_rows].
    destruct (read_row find_list_item_position headers d row) as [d1 [[]|e]];
      simpl in Hn1.
    + destruct (IH d1 g _ Hn1) as [n2 Hn2]. exists (n1 + n2).
      rewrite Hn2, <- app_assoc, replicate_add. reflexivity.
    + exists n1. exact Hn1.
Qed.

Lemma expected_cons old row rows g :
  footroom_after find_list_item_position headers
    (footroom_after find_list_item_position headers old [row] g) rows g
  = footroom_after find_list_item_position headers old (row :: rows) g.
Proof.
  unfold footroom_after, provides_reserves. cbn [List.filter existsb].
  destruct (names_generator find_list_item_position headers g row) eqn:Hname;
    cbn [andb orb].
  - destruct (match field find_list_item_position headers row "lf_reserves_down_zone"
              with Py.Ok zone => negb (bool_decide (zone = ".")) | Py.Raise _ => false
              end); destruct old as [l|]; cbn [length replicate];
      rewrite ?app_nil_r, <- ?app_assoc; reflexivity.
  - destruct old as [l|]; cbn [length replicate]; rewrite ?app_nil_r; reflexivity.
Qed.

Lemma read_row_expected d d' row g :
  read_row find_list_item_position headers d row = (d', Py.Ok tt) ->
  footroom_variables d' !! g = footroom_after find_list_item_position headers (footroom_variables d !! g) [row] g.
Proof.
  unfold read_row, footroom_after, provides_reserves, names_generator.
  cbn [List.filter existsb].
  destruct (field find_list_item_position headers row "RESOURCES")
    as [generator|e]; [|intros [= _ ?]; discriminate].
  destruct (field find_list_item_position headers row "lf_reserves_down_zone")
    as [zone|e]; [|intros [= _ ?]; discriminate].
  destruct (decide (zone = ".")) as [->|Hzone].
  - intros [= <-]. rewrite (bool_decide_eq_true_2 ("." = ".")) by reflexivity.
    cbn [negb andb orb length replicate]. rewrite andb_false_r.
    cbn [length replicate].
    destruct (decide (is_Some (footroom_variables d !! generator))) as [Hs|Hn].
    + destruct (footroom_variables d !! g) as [l|] eqn:El;
        [rewrite app_nil_r; reflexivity |].
      rewrite bool_decide_eq_false_2; [reflexivity |].
      intros ->. rewrite El in Hs. destruct Hs as [? [=]].
    + simpl. destruct (decide (generator = g)) as [->|Hne].
      * rewrite lookup_insert_eq, bool_decide_eq_true_2 by reflexivity.
        destruct (footroom_variables d !! g) as [l|] eqn:El; [|reflexivity].
        destruct Hn. eauto.
      * rewrite lookup_insert_ne, (bool_decide_eq_false_2 (generator = g))
          by exact Hne.
        destruct (footroom_variables d !! g) as [l|];
          [rewrite app_nil_r |]; reflexivity.
  - intros [= <-]. rewrite (bool_decide_eq_false_2 (zone = ".")) by exact Hzone.
    cbn [negb]. rewrite andb_true_r. simpl footroom_variables.
    destruct (decide (generator = g)) as [->|Hne].
    + rewrite lookup_alter_eq, bool_decide_eq_true_2 by reflexivity.
      cbn [length replicate].
      destruct (decide (is_Some (footroom_variables d !! g))) as [[l Hl]|Hn].
      * rewrite Hl. reflexivity.
      * simpl. rewrite lookup_insert_eq.
        destruct (footroom_variables d !! g) as [l|] eqn:El; [|reflexivity].
        destruct Hn. eauto.
    + rewrite lookup_alter_ne, (bool_decide_eq_false_2 (generator = g))
        by exact Hne.
      cbn [length replicate].
      destruct (decide (is_Some (footroom_variables d !! generator))).
      * destruct (footroom_variables d !! g) as [l|];
          [rewrite app_nil_r |]; reflexivity.
      * simpl. rewrite lookup_insert_ne by exact Hne.
        destruct (footroom_variables d !! g) as [l|];
          [rewrite app_nil_r |]; reflexivity.
Qed.

Lemma read_rows_expected rows : forall d d' g,
  read_rows find_list_item_position headers d rows = (d', Py.Ok tt) ->
  footroom_variables d' !! g = footroom_after find_list_item_position headers (footroom_variables d !! g) rows g.
Proof.
  induction rows as [|row rows IH]; intros d d' g Hrun.
  - injection Hrun as <-. unfold footroom_after. simpl.
    destruct (footroom_variables d !! g); [rewrite app_nil_r |]; reflexivity.
  - cbn [read_rows] in Hrun.
    destruct (read_row find_list_item_position headers d row) as [d1 [[]|e]] eqn:E;
      [|injection Hrun as _ ?; discriminate].
    rewrite (IH _ _ _ Hrun), (read_row_expected _ _ _ _ E).
    apply expected_cons.
Qed.

End LfReservesDownFacts.

(** X8.  [determine_dynamic_components] only ever appends to the entries
    of [footroom_variables]: an entry that a generator had before is still
    there afterwards, followed by some number of copies of
    "Provide_LF_Reserves_Down_MW".  This holds whatever the resources file
    holds and also when the function raises. *)
Theorem footroom_variables_only_grow
    (check_list_items_are_unique : list string -> Py.result unit)
    (find_list_item_position : list string -> string -> list nat)
    (open_tab_file : string -> option (list (list string)))
    (d : LfReservesDown.DynamicComponents)
    (scenario_directory horizon stage : string)
    (g : string) (l : list string)
    (Hentry : LfReservesDown.footroom_variables d !! g = Some l) :
  exists n,
    LfReservesDown.footroom_variables
      (LfReservesDown.determine_dynamic_components check_list_items_are_unique
         find_list_item_position open_tab_file d scenario_directory horizon stage).1
      !! g
    = Some (l ++ replicate n "Provide_LF_Reserves_Down_MW").
Proof.
  unfold LfReservesDown.determine_dynamic_components.
  destruct (open_tab_file _) as [[|headers rows]|];
    try (exists 0; simpl; rewrite app_nil_r; exact Hentry).
  destruct (check_list_items_are_unique headers) as [[]|e];
    [|exists 0; simpl; rewrite app_nil_r; exact Hentry].
  apply read_rows_extends. exact Hentry.
Qed.

Lemma footroom_variables_only_grow_witness :
  LfReservesDown.footroom_variables Samples.lf_dynamic_components !! "Coal"
    = Some ["Provide_Regulation_Down_MW"]
  /\ exists n,
      LfReservesDown.footroom_variables
        (LfReservesDown.determine_dynamic_components (fun _ => Py.Ok tt)
           Samples.positions Samples.open_tab_file Samples.lf_dynamic_components
           "scenario" "" "").1 !! "Coal"
      = Some (["Provide_Regulation_Down_MW"]
                ++ replicate n "Provide_LF_Reserves_Down_MW").
Proof.
  assert (Hentry :
    LfReservesDown.footroom_variables Samples.lf_dynamic_components !! "Coal"
    = Some ["Provide_Regulation_Down_MW"]) by reflexivity.
  split; [exact Hentry |].
  exact (footroom_variables_only_grow (fun _ => Py.Ok tt) Samples.positions
           Samples.open_tab_file Samples.lf_dynamic_components
           "scenario" "" "" "Coal" _ Hentry).
Defined.

(** X9.  When the resources file opens with the header line [headers] and
    the rows [rows] and [determine_dynamic_components] returns without an
    exception, then for every generator its entry in [footroom_variables]
    is its old entry (created empty when a row names the generator and it
    had none) followed by one "Provide_LF_Reserves_Down_MW" for each row
    that names the generator with a zone other than "."; a generator that
    no row names and that had no entry has none. *)
Theorem footroom_variables_after_reading
    (check_list_items_are_unique : list string -> Py.result unit)
    (find_list_item_position : list string -> string -> list nat)
    (open_tab_file : string -> option (list (list string)))
    (d d' : LfReservesDown.DynamicComponents)
    (scenario_directory horizon stage : string)
    (headers : list string) (rows : list (list string))
    (Hopen : open_tab_file
               (Py.os_path_join scenario_directory ["inputs"; "resources.tab"])
             = Some (headers :: rows))
    (Hrun : LfReservesDown.determine_dynamic_components
              check_list_items_are_unique find_list_item_position open_tab_file
              d scenario_directory horizon stage
            = (d', Py.Ok tt)) :
  forall g,
    LfReservesDown.footroom_variables d' !! g
    = LfReservesDownRows.footroom_after find_list_item_position headers
        (LfReservesDown.footroom_variables d !! g) rows g.
Proof.
  intros g. unfold LfReservesDown.determine_dynamic_components in Hrun.
  rewrite Hopen in Hrun.
  destruct (check_list_items_are_unique headers) as [[]|e];
    [|injection Hrun as _ ?; discriminate].
  apply (read_rows_expected _ _ _ _ _ g) in Hrun. exact Hrun.
Qed.

Lemma footroom_variables_after_reading_witness :
  let run :=
    LfReservesDown.determine_dynamic_components (fun _ => Py.Ok tt)
      Samples.positions Samples.open_tab_file Samples.lf_dynamic_components
      "scenario" "" "" in
  run.2 = Py.Ok tt
  /\ LfReservesDown.footroom_variables run.1 !! "Coal"
     = Some ["Provide_Regulation_Down_MW"; "Provide_LF_Reserves_Down_MW"]
  /\ LfReservesDown.footroom_variables run.1 !! "Wind" = Some []
  /\ LfReservesDown.footroom_variables run.1 !! "Gas"
     = Some ["Provide_LF_Reserves_Down_MW"]
  /\ LfReservesDown.footroom_variables run.1 !! "Hydro" = None.
Proof.
  intros run.
  assert (Hrun : run = (run.1, Py.Ok tt)) by (vm_compute; reflexivity).
  assert (Hopen : Samples.open_tab_file
                    (Py.os_path_join "scenario" ["inputs"; "resources.tab"])
                  = Some (["RESOURCES"; "lf_reserves_down_zone"]
                            :: [["Coal"; "Zone1"]; ["Wind"; "."]; ["Gas"; "Zone1"]]))
    by reflexivity.
  pose proof (footroom_variables_after_reading (fun _ => Py.Ok tt)
                Samples.positions Samples.open_tab_file
                Samples.lf_dynamic_components run.1 "scenario" "" ""
                _ _ Hopen Hrun) as Hafter.
  split; [vm_compute; reflexivity |].
  split; [rewrite Hafter; reflexivity |].
  split; [rewrite Hafter; reflexivity |].
  split; [rewrite Hafter; reflexivity |].
  rewrite Hafter; reflexivity.
Defined.

Lemma sample_static_load_defined : forall lz tmp,
  lz ∈ StaticLoadRequirement.LOAD_ZONES Samples.static_load_model ->
  tmp ∈ StaticLoadRequirement.TMPS Samples.static_load_model ->
  exists v,
    StaticLoadRequirement.LZ_Load_in_Tmp Samples.static_load_model lz tmp = Py.Ok v.
Proof.
  intros lz tmp Hlz Htmp.
  apply list_elem_of_singleton in Hlz as ->.
  apply elem_of_cons in Htmp as [-> | Htmp];
    [eexists; vm_compute; reflexivity |].
  apply list_elem_of_singleton in Htmp as ->.
  eexists; vm_compute; reflexivity.
Defined.

Lemma sample_static_load_sets :
  NoDup (StaticLoadRequirement.LOAD_ZONES Samples.static_load_model)
  /\ NoDup (StaticLoadRequirement.TMPS Samples.static_load_model).
Proof.
  split; [apply NoDup_singleton |].
  apply NoDup_cons. split; [|apply NoDup_singleton].
  intros Hin. apply list_elem_of_singleton in Hin. discriminate Hin.
Defined.

Lemma load_rows_have_default_rows_witness :
  let inputs :=
    StaticLoadRequirement.get_inputs_from_database 1
      Samples.static_load_subscenarios 0 0 0 1 1 Samples.static_load_connection in
  ("Zone1", 1%Z, "base", 10%Q) ∈ inputs.1
  /\ exists load_level_default, ("Zone1", "base", load_level_default) ∈ inputs.2.
Proof.
  intros inputs.
  assert (Hin : ("Zone1", 1%Z, "base", 10%Q) ∈ inputs.1)
    by (vm_compute; apply list_elem_of_here).
  split; [exact Hin |].
  exact (load_rows_have_default_rows 1 Samples.static_load_subscenarios
           0 0 0 1 1 Samples.static_load_connection "Zone1" 1 "base" 10 Hin).
Defined.

Lemma export_results_idempotent_witness :
  let d :=
    {| StaticLoadRequirement.name_lists := ∅;
       StaticLoadRequirement.frames :=
         {[ "load_zone_tmp_df" := Samples.load_zone_tmp_df ]} |} in
  exists d',
    StaticLoadRequirement.export_results "load_zone_tmp_df"
      Samples.static_load_model d = Py.Ok d'
    /\ StaticLoadRequirement.export_results "load_zone_tmp_df"
         Samples.static_load_model d' = Py.Ok d'.
Proof.
  intros d.
  destruct sample_static_load_sets as [Hzones Htmps].
  assert (Hframe : StaticLoadRequirement.frames d !! "load_zone_tmp_df"
                   = Some Samples.load_zone_tmp_df) by reflexivity.
  pose proof (export_results_merged "load_zone_tmp_df" Samples.static_load_model
                d _ Hzones Htmps sample_static_load_defined Hframe) as Hfirst.
  eexists. split; [exact Hfirst |].
  exact (export_results_idempotent "load_zone_tmp_df" Samples.static_load_model
           d _ _ Hzones Htmps sample_static_load_defined Hframe Hfirst).
Defined.

Lemma export_results_without_frame_witness :
  let d := {| StaticLoadRequirement.name_lists := ∅;
              StaticLoadRequirement.frames := ∅ |} in
  StaticLoadRequirement.frames d !! "load_zone_tmp_df" = None
  /\ StaticLoadRequirement.export_results "load_zone_tmp_df"
       Samples.static_load_model d
     = Py.Raise Py.AttributeError.
Proof.
  intros d. split; [reflexivity |].
  apply export_results_without_frame;
    [exact sample_static_load_defined | reflexivity].
Defined.

(** ** transmission_target_balance.py: exported results *)

Lemma tx_getattr_frame_Some d name df :
  TransmissionTargetBalance.frames d !! name = Some df ->
  TransmissionTargetBalance.getattr_frame d name = Py.Ok df.
Proof. intros H. unfold TransmissionTargetBalance.getattr_frame. by rewrite H. Qed.

Lemma tx_getattr_frame_set_frame d name df :
  TransmissionTargetBalance.getattr_frame
    (TransmissionTargetBalance.set_frame d name df) name = Py.Ok df.
Proof.
  unfold TransmissionTargetBalance.getattr_frame. simpl.
  rewrite lookup_insert_eq. reflexivity.
Qed.

Lemma tx_results_df_rows solution m (l : list TransmissionTargetBalance.index) :
  Pandas.create_results_df TransmissionTargetBalance.results_columns
    ((fun i =>
        (i,
         [Some (TransmissionTargetBalance.fraction_of_target_met
                  (TransmissionTargetBalance.value solution
                     (TransmissionTargetBalance.Total_Transmission_Target_Energy_Pos_Dir_MWh m i))
                  (TransmissionTargetBalance.transmission_target_pos_dir_min_mwh m i));
          Some (TransmissionTargetBalance.value solution
                  (TransmissionTargetBalance.Transmission_Target_Shortage_Pos_Dir_MWh_Expression m i));
          Some (TransmissionTargetBalance.fraction_of_target_met
                  (TransmissionTargetBalance.value solution
                     (TransmissionTargetBalance.Total_Transmission_Target_Energy_Neg_Dir_MWh m i))
                  (TransmissionTargetBalance.transmission_target_neg_dir_min_mwh m i));
          Some (TransmissionTargetBalance.value solution
                  (TransmissionTargetBalance.Transmission_Target_Shortage_Neg_Dir_MWh_Expression m i))]))
     <$> l)
  = (fun i => (i, TransmissionTargetMeaning.results_row solution m i)) <$> l.
Proof.
  unfold Pandas.create_results_df. rewrite <- list_fmap_compose.
  apply list_fmap_ext. intros _ i _. simpl.
  unfold TransmissionTargetMeaning.results_row. rewrite insert_empty. reflexivity.
Qed.

(** The four resets followed by the update of one row. *)
Lemma tx_update_row (other : option (gmap string (Pandas.cell Q)))
    (new r : gmap string (Pandas.cell Q)) (v1 v2 v3 v4 : Pandas.cell Q) :
  new = {[ "fraction_of_transmission_target_pos_dir_min_met" := v1;
           "transmission_target_shortage_pos_dir_min_mwh" := v2;
           "fraction_of_transmission_target_neg_dir_met" := v3;
           "transmission_target_shortage_neg_dir_min_mwh" := v4 ]} ->
  (forall c, Pandas.update_cell other c None = default None (new !! c)) ->
  (forall c old, new !! c = None -> Pandas.update_cell other c old = old) ->
  map_imap (fun c old => Some (Pandas.update_cell other c old))
    (<["transmission_target_shortage_neg_dir_min_mwh" := None]>
       (<["fraction_of_transmission_target_neg_dir_met" := None]>
          (<["transmission_target_shortage_pos_dir_min_mwh" := None]>
             (<["fraction_of_transmission_target_pos_dir_min_met" := None]> r))))
  = new ∪ r.
Proof.
  intros Hnew Hin Hout. apply map_eq. intros c.
  rewrite map_lookup_imap, lookup_union.
  destruct (decide (c = "transmission_target_shortage_neg_dir_min_mwh")) as [->|H4];
    [rewrite lookup_insert_eq; simpl; rewrite Hin, Hnew;
     simplify_map_eq; destruct (r !! _); reflexivity |].
  rewrite lookup_insert_ne by congruence.
  destruct (decide (c = "fraction_of_transmission_target_neg_dir_met")) as [->|H3];
    [rewrite lookup_insert_eq; simpl; rewrite Hin, Hnew;
     simplify_map_eq; destruct (r !! _); reflexivity |].
  rewrite lookup_insert_ne by congruence.
  destruct (decide (c = "transmission_target_shortage_pos_dir_min_mwh")) as [->|H2];
    [rewrite lookup_insert_eq; simpl; rewrite Hin, Hnew;
     simplify_map_eq; destruct (r !! _); reflexivity |].
  rewrite lookup_insert_ne by congruence.
  destruct (decide (c = "fraction_of_transmission_target_pos_dir_min_met")) as [->|H1];
    [rewrite lookup_insert_eq; simpl; rewrite Hin, Hnew;
     simplify_map_eq; destruct (r !! _); reflexivity |].
  rewrite lookup_insert_ne by congruence.
  assert (Hc : new !! c = None).
  { rewrite Hnew. rewrite !lookup_insert_ne by congruence.
    apply lookup_singleton_ne. congruence. }
  rewrite Hc. destruct (r !! c) as [old|]; simpl; [|reflexivity].
  rewrite (Hout c old Hc). reflexivity.
Qed.

(** X11.  When the index set is duplicate-free and the dynamic components
    hold a frame under the attribute TX_TARGETS_DF, [export_results]
    returns the dynamic components with that frame merged: a row whose
    index is in TRANSMISSION_TARGET_ZONE_BLN_TYPE_HRZS_WITH_TRANSMISSION_TARGET
    gets the four result columns of the index, any other row gets None in
    the four columns, every other column of every row is kept, and no row
    is added or removed. *)
Theorem export_results_merges_transmission_targets
    (TX_TARGETS_DF : string)
    (solution : string -> TransmissionTargetBalance.index -> Q)
    (m : TransmissionTargetBalance.Model)
    (d : TransmissionTargetBalance.DynamicComponents)
    (df : Pandas.DataFrame TransmissionTargetBalance.index Q)
    (Hset : NoDup (TransmissionTargetBalance.TRANSMISSION_TARGET_ZONE_BLN_TYPE_HRZS_WITH_TRANSMISSION_TARGET m))
    (Hframe : TransmissionTargetBalance.frames d !! TX_TARGETS_DF = Some df) :
  TransmissionTargetBalance.export_results TX_TARGETS_DF solution m d
  = Py.Ok
      (TransmissionTargetBalance.set_frame d TX_TARGETS_DF
         ((fun kr : Pandas.row TransmissionTargetBalance.index Q =>
             (kr.1,
              (if decide (kr.1 ∈ TransmissionTargetBalance.TRANSMISSION_TARGET_ZONE_BLN_TYPE_HRZS_WITH_TRANSMISSION_TARGET m)
               then TransmissionTargetMeaning.results_row solution m kr.1
               else TransmissionTargetMeaning.empty_results_row) ∪ kr.2))
          <$> df)).
Proof.
  unfold TransmissionTargetBalance.export_results,
    TransmissionTargetBalance.export_results_data.
  erewrite comprehension_Ok by (intros i _; apply export_results_row_Ok).
  cbn [mbind result_bind Py.bind].
  rewrite tx_results_df_rows.
  cbn [foldl TransmissionTargetBalance.results_columns].
  cbn [mbind result_bind Py.bind].
  rewrite (tx_getattr_frame_Some _ _ _ Hframe).
  cbn [mbind result_bind Py.bind mret result_ret].
  repeat (rewrite tx_getattr_frame_set_frame;
          cbn [mbind result_bind Py.bind mret result_ret]).
  unfold Pandas.update.
  rewrite bool_decide_eq_true_2 by (rewrite index_fmap; exact Hset).
  cbn [mbind result_bind Py.bind mret result_ret]. f_equal.
  unfold TransmissionTargetBalance.set_frame.
  cbn [TransmissionTargetBalance.frames].
  f_equal. rewrite !insert_insert_eq. f_equal.
  unfold Pandas.setitem_None. rewrite <- !list_fmap_compose.
  apply list_fmap_ext. intros _ [k r] _. cbn [fst snd compose]. f_equal.
  rewrite loc_fmap. destruct (decide (k ∈ _)) as [Hin|Hout].
  - eapply (tx_update_row _ (TransmissionTargetMeaning.results_row solution m k));
      [reflexivity | |].
    + intros c. unfold Pandas.update_cell.
      match goal with
      | |- context [?x !! c] => destruct (x !! c) as [[v|]|]
      end; reflexivity.
    + intros c old Hc. unfold Pandas.update_cell, Pandas.cell in *.
      rewrite Hc. reflexivity.
  - eapply (tx_update_row _ TransmissionTargetMeaning.empty_results_row);
      [reflexivity | |].
    + intros c. simpl.
      destruct (TransmissionTargetMeaning.empty_results_row !! c) as [v|] eqn:E;
        [|reflexivity].
      unfold TransmissionTargetMeaning.empty_results_row in E.
      repeat (apply lookup_insert_Some in E as [[_ <-]|[_ E]]; [reflexivity |]).
      apply lookup_singleton_Some in E as [_ <-]. reflexivity.
    + intros c old _. reflexivity.
Qed.

Lemma export_results_merges_transmission_targets_witness :
  let d := {| TransmissionTargetBalance.frames :=
                {[ "tx_targets_df" := Samples.tx_targets_df ]} |} in
  NoDup (TransmissionTargetBalance.TRANSMISSION_TARGET_ZONE_BLN_TYPE_HRZS_WITH_TRANSMISSION_TARGET
           Samples.tx_model)
  /\ TransmissionTargetBalance.frames d !! "tx_targets_df"
     = Some Samples.tx_targets_df
  /\ exists d',
      TransmissionTargetBalance.export_results "tx_targets_df"
        Samples.tx_solution Samples.tx_model d = Py.Ok d'
      /\ TransmissionTargetBalance.frames d' !! "tx_targets_df"
         = Some
             [(Samples.tx_index,
               {[ "fraction_of_transmission_target_pos_dir_min_met" := Some (75 / 50)%Q;
                  "transmission_target_shortage_pos_dir_min_mwh" := Some 0%Q;
                  "fraction_of_transmission_target_neg_dir_met" := Some 1%Q;
                  "transmission_target_shortage_neg_dir_min_mwh" := Some 0%Q ]});
              (("Zone2", "year", 2030%Z),
               TransmissionTargetMeaning.empty_results_row)].
Proof.
  intros d.
  assert (Hset : NoDup (TransmissionTargetBalance.TRANSMISSION_TARGET_ZONE_BLN_TYPE_HRZS_WITH_TRANSMISSION_TARGET
                          Samples.tx_model)) by apply NoDup_singleton.
  assert (Hframe : TransmissionTargetBalance.frames d !! "tx_targets_df"
                   = Some Samples.tx_targets_df) by reflexivity.
  split; [exact Hset |]. split; [exact Hframe |].
  eexists. split.
  - exact (export_results_merges_transmission_targets "tx_targets_df"
             Samples.tx_solution Samples.tx_model d _ Hset Hframe).
  - vm_compute. reflexivity.
Defined.

(** ** exogenous.py: availability inputs *)

Section ExogenousQueries.
Import ExogenousInputs.

Lemma elem_of_cross_join {A B : Type} (l : list A) (r : list B) (a : A) (b : B) :
  (a, b) ∈ cross_join l r <-> a ∈ l /\ b ∈ r.
Proof.
  unfold cross_join. rewrite list_elem_of_bind. split.
  - intros (a' & Hab & Ha).
    apply list_elem_of_fmap in Hab as (b' & [= -> ->] & Hb). tauto.
  - intros [Ha Hb]. exists a. split; [|exact Ha].
    apply list_elem_of_fmap. exists b. tauto.
Qed.

Lemma elem_of_left_outer_join {A B C : Type} `{EqDecision C}
    (cl : A -> C) (cr : B -> C) (l : list A) (r : list B) (a : A) (ob : option B) :
  (a, ob) ∈ left_outer_join cl cr l r
  <-> a ∈ l
      /\ match ob with
         | Some b => b ∈ r /\ cl a = cr b
         | None => forall b, b ∈ r -> cl a <> cr b
         end.
Proof.
  unfold left_outer_join. rewrite list_elem_of_bind. split.
  - intros (a' & Hab & Ha).
    destruct (filter (fun b => cl a' = cr b) r) as [|b0 rest] eqn:E.
    + apply list_elem_of_singleton in Hab as [= -> ->]. split; [exact Ha |].
      intros b Hb Heq.
      assert (Hin : b ∈ filter (fun b => cl a' = cr b) r)
        by (apply list_elem_of_filter; tauto).
      rewrite E in Hin. inversion Hin.
    + apply list_elem_of_fmap in Hab as (b & [= -> ->] & Hb).
      rewrite <- E in Hb. apply list_elem_of_filter in Hb. tauto.
  - intros [Ha Hob]. exists a. split; [|exact Ha].
    destruct ob as [b|].
    + assert (Hin : b ∈ filter (fun b => cl a = cr b) r)
        by (apply list_elem_of_filter; tauto).
      destruct (filter (fun b => cl a = cr b) r) as [|b0 rest];
        [inversion Hin |].
      apply list_elem_of_fmap. exists b. split; [reflexivity | exact Hin].
    + destruct (filter (fun b => cl a = cr b) r) as [|b0 rest] eqn:E;
        [apply list_elem_of_here |].
      assert (Hin : b0 ∈ filter (fun b => cl a = cr b) r)
        by (rewrite E; apply list_elem_of_here).
      apply list_elem_of_filter in Hin as [Heq Hin].
      destruct (Hob b0 Hin Heq).
Qed.

Variable conn : Connection.
Variable subscenarios : SubScenarios.

Lemma elem_of_portfolio_tbl (project : string) :
  project ∈ portfolio_tbl conn subscenarios
  <-> exists r, r ∈ inputs_project_portfolios conn
                /\ portfolio_project r = project
                /\ portfolio_project_portfolio_scenario_id r
                   = PROJECT_PORTFOLIO_SCENARIO_ID subscenarios.
Proof.
  unfold portfolio_tbl. rewrite list_elem_of_fmap. split.
  - intros (r & -> & Hr). apply list_elem_of_filter in Hr. exists r. tauto.
  - intros (r & Hr & <- & Hs). exists r. split; [reflexivity |].
    apply list_elem_of_filter. tauto.
Qed.

Lemma elem_of_avail_char (project : string) (e : Z) :
  (project, e) ∈ avail_char conn subscenarios
  <-> exists r, r ∈ inputs_project_availability conn
                /\ availability_project r = project
                /\ availability_exogenous_availability_scenario_id r = Some e
                /\ availability_project_availability_scenario_id r
                   = PROJECT_AVAILABILITY_SCENARIO_ID subscenarios
                /\ availability_availability_type r = "exogenous".
Proof.
  unfold avail_char. rewrite list_elem_of_omap. split.
  - intros (r & Hr & Hsome).
    destruct (availability_exogenous_availability_scenario_id r) as [e'|] eqn:E;
      [|discriminate Hsome].
    simpl in Hsome. destruct (decide _) as [[Hs Ht]|]; [|discriminate Hsome].
    injection Hsome as <- <-. exists r. tauto.
  - intros (r & Hr & <- & He & Hs & Ht). exists r. split; [exact Hr |].
    rewrite He. simpl. rewrite decide_True by tauto. reflexivity.
Qed.

Lemma elem_of_tmps_tbl (subproblem stage stage_id timepoint period : Z) :
  (stage_id, timepoint, period) ∈ tmps_tbl conn subscenarios subproblem stage
  <-> exists t, t ∈ inputs_temporal_timepoints conn
                /\ timepoints_stage_id t = stage_id
                /\ timepoints_timepoint t = timepoint
                /\ timepoints_period t = period
                /\ timepoints_temporal_scenario_id t = TEMPORAL_SCENARIO_ID subscenarios
                /\ timepoints_subproblem_id t = subproblem
                /\ timepoints_stage_id t = stage.
Proof.
  unfold tmps_tbl. rewrite list_elem_of_fmap. split.
  - intros (t & [= -> -> ->] & Ht). apply list_elem_of_filter in Ht.
    exists t. tauto.
  - intros (t & Ht & <- & <- & <- & H1 & H2 & H3). exists t.
    split; [reflexivity |]. apply list_elem_of_filter. tauto.
Qed.

Lemma elem_of_relevant_op_periods_tbl (project : string) (period : Z) :
  (project, period) ∈ relevant_op_periods_tbl conn subscenarios
  <-> ((exists r, r ∈ inputs_project_specified_capacity conn
                  /\ specified_project r = project
                  /\ specified_period r = period
                  /\ specified_project_specified_capacity_scenario_id r
                     = PROJECT_SPECIFIED_CAPACITY_SCENARIO_ID subscenarios)
       \/ (exists r, r ∈ inputs_project_new_cost conn
                     /\ new_cost_project r = project
                     /\ new_cost_vintage r = period
                     /\ new_cost_project_new_cost_scenario_id r
                        = PROJECT_NEW_COST_SCENARIO_ID subscenarios))
      /\ exists r, r ∈ inputs_temporal_periods conn
                   /\ periods_period r = period
                   /\ periods_temporal_scenario_id r
                      = TEMPORAL_SCENARIO_ID subscenarios.
Proof.
  unfold relevant_op_periods_tbl. rewrite list_elem_of_fmap.
  assert (Hall : (project, period) ∈ all_operational_project_periods conn subscenarios
                 <-> (exists r, r ∈ inputs_project_specified_capacity conn
                                /\ specified_project r = project
                                /\ specified_period r = period
                                /\ specified_project_specified_capacity_scenario_id r
                                   = PROJECT_SPECIFIED_CAPACITY_SCENARIO_ID subscenarios)
                     \/ (exists r, r ∈ inputs_project_new_cost conn
                                   /\ new_cost_project r = project
                                   /\ new_cost_vintage r = period
                                   /\ new_cost_project_new_cost_scenario_id r
                                      = PROJECT_NEW_COST_SCENARIO_ID subscenarios)).
  { unfold all_operational_project_periods.
    rewrite elem_of_remove_dups, elem_of_app, !list_elem_of_fmap. split.
    - intros [(r & [= -> ->] & Hr) | (r & [= -> ->] & Hr)];
        apply list_elem_of_filter in Hr; [left | right]; exists r; tauto.
    - intros [(r & Hr & <- & <- & Hs) | (r & Hr & <- & <- & Hs)];
        [left | right]; exists r; (split; [reflexivity |]);
        apply list_elem_of_filter; tauto. }
  assert (Hper : period ∈ relevant_periods_tbl conn subscenarios
                 <-> exists r, r ∈ inputs_temporal_periods conn
                               /\ periods_period r = period
                               /\ periods_temporal_scenario_id r
                                  = TEMPORAL_SCENARIO_ID subscenarios).
  { unfold relevant_periods_tbl. rewrite list_elem_of_fmap. split.
    - intros (r & -> & Hr). apply list_elem_of_filter in Hr. exists r. tauto.
    - intros (r & Hr & <- & Hs). exists r. split; [reflexivity |].
      apply list_elem_of_filter. tauto. }
  rewrite <- Hall, <- Hper. split.
  - intros ([pp per] & Heq & Hjoin). simpl in Heq. subst pp.
    apply elem_of_inner_join in Hjoin as (Hpp & Hp & Hk).
    simpl in Hk. unfold id in Hk. subst per. tauto.
  - intros [Hpp Hp]. exists ((project, period), period).
    split; [reflexivity |]. apply elem_of_inner_join. tauto.
Qed.

End ExogenousQueries.

(** X12.  A row (project, timepoint, availability_derate) is returned by
    [get_inputs_from_database] of the exogenous availability type exactly
    when: the project is in the scenario's portfolio; it has a row in the
    scenario's project-availability subscenario with type 'exogenous' and a
    non-NULL exogenous_availability_scenario_id [e]; the timepoint is a
    timepoint of the scenario's temporal subscenario in the given
    subproblem and stage (1 when the argument is the empty string), with
    stage_id [s] and period [p]; the project is operational in [p]
    (specified capacity or new-build vintage) and [p] is a period of the
    temporal subscenario; and the derate is the one of a row of
    inputs_project_availability_exogenous for [e], the project, [s] and the
    timepoint, or NULL when there is no such row. *)
Theorem exogenous_availabilities_resolved
    (subscenarios : ExogenousInputs.SubScenarios) (subproblem stage : option Z)
    (conn : ExogenousInputs.Connection)
    (project : string) (timepoint : Z) (availability_derate : option Q) :
  (project, timepoint, availability_derate)
    ∈ ExogenousInputs.get_inputs_from_database subscenarios subproblem stage conn
  <-> (exists r, r ∈ ExogenousInputs.inputs_project_portfolios conn
                 /\ ExogenousInputs.portfolio_project r = project
                 /\ ExogenousInputs.portfolio_project_portfolio_scenario_id r
                    = ExogenousInputs.PROJECT_PORTFOLIO_SCENARIO_ID subscenarios)
      /\ exists e s p,
          (exists r, r ∈ ExogenousInputs.inputs_project_availability conn
                     /\ ExogenousInputs.availability_project r = project
                     /\ ExogenousInputs.availability_exogenous_availability_scenario_id r
                        = Some e
                     /\ ExogenousInputs.availability_project_availability_scenario_id r
                        = ExogenousInputs.PROJECT_AVAILABILITY_SCENARIO_ID subscenarios
                     /\ ExogenousInputs.availability_availability_type r = "exogenous")
          /\ (exists t, t ∈ ExogenousInputs.inputs_temporal_timepoints conn
                        /\ ExogenousInputs.timepoints_stage_id t = s
                        /\ ExogenousInputs.timepoints_timepoint t = timepoint
                        /\ ExogenousInputs.timepoints_period t = p
                        /\ ExogenousInputs.timepoints_temporal_scenario_id t
                           = ExogenousInputs.TEMPORAL_SCENARIO_ID subscenarios
                        /\ ExogenousInputs.timepoints_subproblem_id t
                           = default 1%Z subproblem
                        /\ ExogenousInputs.timepoints_stage_id t = default 1%Z stage)
          /\ (((exists r, r ∈ ExogenousInputs.inputs_project_specified_capacity conn
                           /\ ExogenousInputs.specified_project r = project
                           /\ ExogenousInputs.specified_period r = p
                           /\ ExogenousInputs.specified_project_specified_capacity_scenario_id r
                              = ExogenousInputs.PROJECT_SPECIFIED_CAPACITY_SCENARIO_ID
                                  subscenarios)
                \/ (exists r, r ∈ ExogenousInputs.inputs_project_new_cost conn
                              /\ ExogenousInputs.new_cost_project r = project
                              /\ ExogenousInputs.new_cost_vintage r = p
                              /\ ExogenousInputs.new_cost_project_new_cost_scenario_id r
                                 = ExogenousInputs.PROJECT_NEW_COST_SCENARIO_ID
                                     subscenarios))
               /\ exists r, r ∈ ExogenousInputs.inputs_temporal_periods conn
                            /\ ExogenousInputs.periods_period r = p
                            /\ ExogenousInputs.periods_temporal_scenario_id r
                               = ExogenousInputs.TEMPORAL_SCENARIO_ID subscenarios)
          /\ match availability_derate with
             | Some q =>
                 exists x, x ∈ ExogenousInputs.inputs_project_availability_exogenous conn
                           /\ (ExogenousInputs.exogenous_exogenous_availability_scenario_id x,
                               ExogenousInputs.exogenous_project x,
                               ExogenousInputs.exogenous_stage_id x,
                               ExogenousInputs.exogenous_timepoint x)
                              = (e, project, s, timepoint)
                           /\ ExogenousInputs.exogenous_availability_derate x = Some q
             | None =>
                 (exists x, x ∈ ExogenousInputs.inputs_project_availability_exogenous conn
                            /\ (ExogenousInputs.exogenous_exogenous_availability_scenario_id x,
                                ExogenousInputs.exogenous_project x,
                                ExogenousInputs.exogenous_stage_id x,
                                ExogenousInputs.exogenous_timepoint x)
                               = (e, project, s, timepoint)
                            /\ ExogenousInputs.exogenous_availability_derate x = None)
                 \/ (forall x,
                       x ∈ ExogenousInputs.inputs_project_availability_exogenous conn ->
                       (ExogenousInputs.exogenous_exogenous_availability_scenario_id x,
                        ExogenousInputs.exogenous_project x,
                        ExogenousInputs.exogenous_stage_id x,
                        ExogenousInputs.exogenous_timepoint x)
                       <> (e, project, s, timepoint))
             end.
Proof.
  unfold ExogenousInputs.get_inputs_from_database, ExogenousInputs.or_one.
  rewrite list_elem_of_fmap.
  rewrite <- elem_of_portfolio_tbl.
  setoid_rewrite <- elem_of_avail_char.
  setoid_rewrite <- elem_of_tmps_tbl.
  setoid_rewrite <- elem_of_relevant_op_periods_tbl.
  split.
  - intros ([[[[pj [pj' e]] [[s tp] p]] ox] [pp pper]] & Heq & Hjoin).
    simpl in Heq. injection Heq as -> -> ->.
    apply elem_of_inner_join in Hjoin as (Hwd & Hop & Hk).
    simpl in Hk. unfold id in Hk. injection Hk as <- <-.
    apply elem_of_left_outer_join in Hwd as (Hwt & Hox). simpl in Hox.
    apply elem_of_cross_join in Hwt as (Hproj & Htmps).
    apply elem_of_inner_join in Hproj as (Hpf & Hav & Hk).
    simpl in Hk. unfold id in Hk. subst pj'.
    split; [exact Hpf |]. exists e, s, p.
    split; [exact Hav |]. split; [exact Htmps |]. split; [exact Hop |].
    destruct ox as [x|]; simpl.
    + destruct Hox as [Hx Hkey].
      destruct (ExogenousInputs.exogenous_availability_derate x) as [q|] eqn:Eq.
      * exists x. split; [exact Hx |]. split; [symmetry; exact Hkey | exact Eq].
      * left. exists x. split; [exact Hx |].
        split; [symmetry; exact Hkey | exact Eq].
    + right. intros x Hx Hkey. apply (Hox x Hx). symmetry. exact Hkey.
  - intros (Hpf & e & s & p & Hav & Htmps & Hop & Hderate).
    assert (Hleft : forall ox,
      match ox with
      | Some x => x ∈ ExogenousInputs.inputs_project_availability_exogenous conn
                  /\ (e, project, s, timepoint)
                     = (ExogenousInputs.exogenous_exogenous_availability_scenario_id x,
                        ExogenousInputs.exogenous_project x,
                        ExogenousInputs.exogenous_stage_id x,
                        ExogenousInputs.exogenous_timepoint x)
      | None => forall x,
          x ∈ ExogenousInputs.inputs_project_availability_exogenous conn ->
          (e, project, s, timepoint)
          <> (ExogenousInputs.exogenous_exogenous_availability_scenario_id x,
              ExogenousInputs.exogenous_project x,
              ExogenousInputs.exogenous_stage_id x,
              ExogenousInputs.exogenous_timepoint x)
      end ->
      ox ≫= ExogenousInputs.exogenous_availability_derate = availability_derate ->
      exists y,
        (project, timepoint, availability_derate)
        = (y.1.1.1.1, y.1.1.2.1.2,
           y.1.2 ≫= ExogenousInputs.exogenous_availability_derate)
        /\ y ∈ StaticLoadRequirement.inner_join
                 (fun j : string * (string * Z) * (Z * Z * Z)
                          * option ExogenousInputs.inputs_project_availability_exogenous_row =>
                    (j.1.1.1, j.1.2.2))
                 id
                 (ExogenousInputs.left_outer_join
                    (fun j : string * (string * Z) * (Z * Z * Z) =>
                       (j.1.2.2, j.1.1, j.2.1.1, j.2.1.2))
                    (fun x =>
                       (ExogenousInputs.exogenous_exogenous_availability_scenario_id x,
                        ExogenousInputs.exogenous_project x,
                        ExogenousInputs.exogenous_stage_id x,
                        ExogenousInputs.exogenous_timepoint x))
                    (ExogenousInputs.cross_join
                       (StaticLoadRequirement.inner_join id fst
                          (ExogenousInputs.portfolio_tbl conn subscenarios)
                          (ExogenousInputs.avail_char conn subscenarios))
                       (ExogenousInputs.tmps_tbl conn subscenarios
                          (default 1%Z subproblem) (default 1%Z stage)))
                    (ExogenousInputs.inputs_project_availability_exogenous conn))
                 (ExogenousInputs.relevant_op_periods_tbl conn subscenarios)).
    { intros ox Hox Hd.
      exists (((project, (project, e)), (s, timepoint, p)), ox, (project, p)).
      split; [simpl; rewrite Hd; reflexivity |].
      apply elem_of_inner_join. split; [|split; [exact Hop | reflexivity]].
      apply elem_of_left_outer_join. split; [|exact Hox].
      apply elem_of_cross_join. split; [|exact Htmps].
      apply elem_of_inner_join. split; [exact Hpf |].
      split; [exact Hav | reflexivity]. }
    destruct availability_derate as [q|].
    + destruct Hderate as (x & Hx & Hkey & Hq).
      apply (Hleft (Some x)); [split; [exact Hx | symmetry; exact Hkey] | exact Hq].
    + destruct Hderate as [(x & Hx & Hkey & Hq) | Hnone].
      * apply (Hleft (Some x)); [split; [exact Hx | symmetry; exact Hkey] | exact Hq].
      * apply (Hleft None); [|reflexivity].
        intros x Hx Hkey. apply (Hnone x Hx). symmetry. exact Hkey.
Qed.

Example exogenous_query_sample :
  let conn :=
    {| ExogenousInputs.inputs_project_portfolios :=
         [ {| ExogenousInputs.portfolio_project_portfolio_scenario_id := 1;
              ExogenousInputs.portfolio_project := "Wind" |};
           {| ExogenousInputs.portfolio_project_portfolio_scenario_id := 1;
              ExogenousInputs.portfolio_project := "Coal" |} ];
       ExogenousInputs.inputs_project_availability :=
         [ {| ExogenousInputs.availability_project_availability_scenario_id := 1;
              ExogenousInputs.availability_project := "Wind";
              ExogenousInputs.availability_availability_type := "exogenous";
              ExogenousInputs.availability_exogenous_availability_scenario_id := Some 3%Z |};
           {| ExogenousInputs.availability_project_availability_scenario_id := 1;
              ExogenousInputs.availability_project := "Coal";
              ExogenousInputs.availability_availability_type := "exogenous";
              ExogenousInputs.availability_exogenous_availability_scenario_id := None |} ];
       ExogenousInputs.inputs_temporal_timepoints :=
         [ {| ExogenousInputs.timepoints_temporal_scenario_id := 1;
              ExogenousInputs.timepoints_subproblem_id := 1;
              ExogenousInputs.timepoints_stage_id := 1;
              ExogenousInputs.timepoints_timepoint := 1;
              ExogenousInputs.timepoints_period := 2030 |};
           {| ExogenousInputs.timepoints_temporal_scenario_id := 1;
              ExogenousInputs.timepoints_subproblem_id := 1;
              ExogenousInputs.timepoints_stage_id := 1;
              ExogenousInputs.timepoints_timepoint := 2;
              ExogenousInputs.timepoints_period := 2030 |} ];
       ExogenousInputs.inputs_project_availability_exogenous :=
         [ {| ExogenousInputs.exogenous_exogenous_availability_scenario_id := 3;
              ExogenousInputs.exogenous_project := "Wind";
              ExogenousInputs.exogenous_stage_id := 1;
              ExogenousInputs.exogenous_timepoint := 1;
              ExogenousInputs.exogenous_availability_derate := Some (1 # 2)%Q |} ];
       ExogenousInputs.inputs_project_specified_capacity :=
         [ {| ExogenousInputs.specified_project_specified_capacity_scenario_id := 1;
              ExogenousInputs.specified_project := "Wind";
              ExogenousInputs.specified_period := 2030 |} ];
       ExogenousInputs.inputs_project_new_cost :=
         [ {| ExogenousInputs.new_cost_project_new_cost_scenario_id := 1;
              ExogenousInputs.new_cost_project := "Wind";
              ExogenousInputs.new_cost_vintage := 2030 |} ];
       ExogenousInputs.inputs_temporal_periods :=
         [ {| ExogenousInputs.periods_temporal_scenario_id := 1;
              ExogenousInputs.periods_period := 2030 |} ] |} in
  let subscenarios :=
    {| ExogenousInputs.PROJECT_PORTFOLIO_SCENARIO_ID := 1;
       ExogenousInputs.PROJECT_AVAILABILITY_SCENARIO_ID := 1;
       ExogenousInputs.TEMPORAL_SCENARIO_ID := 1;
       ExogenousInputs.PROJECT_SPECIFIED_CAPACITY_SCENARIO_ID := 1;
       ExogenousInputs.PROJECT_NEW_COST_SCENARIO_ID := 1 |} in
  ExogenousInputs.get_inputs_from_database subscenarios None None conn
  = [("Wind", 1%Z, Some (1 # 2)%Q); ("Wind", 2%Z, None)].
Proof. vm_compute. reflexivity. Qed.

(** X13.  [write_module_specific_model_inputs] and
    [load_module_specific_data] fit together.  The writer touches no file
    other than project_availability_exogenous.tab under
    scenario_directory/str(subproblem)/str(stage)/inputs.  When the query
    returns rows, that file holds the header and the rows in order, and the
    loader, called with the same directory names, asks for exactly that
    file.  When the query returns nothing, the file system is left as it
    was: the loader asks for nothing if the file did not exist, and still
    asks for a file left there earlier. *)
Theorem exogenous_write_then_load
    (determine_project_subset :
       string -> string -> string -> string -> string -> list string)
    (fs : Csv.files) (scenario_directory : string)
    (subscenarios : ExogenousInputs.SubScenarios) (subproblem stage : option Z)
    (conn : ExogenousInputs.Connection) :
  let fs' :=
    ExogenousInputs.write_module_specific_model_inputs fs scenario_directory
      subscenarios subproblem stage conn in
  let availabilities :=
    ExogenousInputs.get_inputs_from_database subscenarios subproblem stage conn in
  let file :=
    Exogenous.availability_file scenario_directory
      (ExogenousInputs.str subproblem) (ExogenousInputs.str stage) in
  let requested :=
    DataPortal.filenames
      (Exogenous.load_module_specific_data determine_project_subset
         (Csv.exists_ fs') DataPortal.empty scenario_directory
         (ExogenousInputs.str subproblem) (ExogenousInputs.str stage)) in
  (forall other, other <> file -> fs' !! other = fs !! other)
  /\ match availabilities with
     | [] => fs' = fs
     | _ :: _ =>
         fs' !! file
         = Some ([Csv.Text "project"; Csv.Text "timepoint";
                  Csv.Text "availability_derate"]
                   :: (ExogenousInputs.availability_row <$> availabilities))
     end
  /\ requested
     = match availabilities, fs !! file with
       | [], None => []
       | _, _ => [file]
       end.
Proof.
  intros fs' availabilities file requested.
  subst fs' requested.
  unfold ExogenousInputs.write_module_specific_model_inputs,
    Exogenous.load_module_specific_data.
  fold availabilities. fold file.
  unfold Csv.write, Csv.exists_, Csv.files in *.
  destruct availabilities as [|a rest].
  - split; [reflexivity |]. split; [reflexivity |].
    destruct (fs !! file) as [rows|] eqn:E.
    + rewrite bool_decide_eq_true_2 by eauto. reflexivity.
    + rewrite bool_decide_eq_false_2 by (intros [? [=]]). reflexivity.
  - change (Py.os_path_join scenario_directory
              [ExogenousInputs.str subproblem; ExogenousInputs.str stage;
               "inputs"; "project_availability_exogenous.tab"]) with file.
    split; [intros other Hne; rewrite lookup_insert_ne by congruence; reflexivity |].
    split; [apply lookup_insert_eq |].
    rewrite bool_decide_eq_true_2 by (rewrite lookup_insert_eq; eauto).
    destruct (fs !! file); reflexivity.
Qed.

(** ** load_system_prm.py: the zones of the dictionary *)

Section LoadSystemPrmKeys.
Import LoadSystemPrm.

Lemma zone_loop_keys (rows : list data_row) (zs : list string) :
  forall D D',
    Py.for_each (zone_step rows) zs D = Py.Ok D' ->
    forall z, is_Some (D' !! z) <-> z ∈ zs \/ is_Some (D !! z).
Proof.
  induction zs as [|z0 zs IH]; intros D D' Hrun z.
  - injection Hrun as <-. rewrite elem_of_nil. tauto.
  - cbn [Py.for_each] in Hrun.
    destruct (zone_step_spec rows D z0) as (M & Hstep & _).
    rewrite Hstep in Hrun. cbn [Py.bind] in Hrun.
    rewrite (IH _ _ Hrun z), elem_of_cons.
    destruct (decide (z = z0)) as [->|Hne].
    + rewrite lookup_insert_eq. split; [intros _; left; left; reflexivity |].
      intros _. right. eauto.
    + rewrite lookup_insert_ne by congruence. tauto.
Qed.

End LoadSystemPrmKeys.

(** X14.  The dictionary built for a subscenario has a zone as key exactly
    when [data_input] has a row of that subscenario for the zone, and the
    entry of a zone is never an empty dictionary.  So a subscenario without
    data rows gets the empty dictionary, and [system_prm.prm_requirement]
    is still called with it. *)
Theorem prm_requirement_zone_keys (sc_id : Z) (data_input : list LoadSystemPrm.data_row) :
  exists D,
    LoadSystemPrm.zone_period_requirement_of sc_id data_input = Py.Ok D
    /\ (forall z,
          is_Some (D !! z)
          <-> exists r, r ∈ data_input
                        /\ LoadSystemPrm.prm_requirement_scenario_id r = sc_id
                        /\ LoadSystemPrm.prm_zone r = z)
    /\ (forall z by_period, D !! z = Some by_period -> by_period <> ∅)
    /\ ((forall r, r ∈ data_input ->
                   LoadSystemPrm.prm_requirement_scenario_id r <> sc_id) ->
        D = ∅).
Proof.
  destruct (zone_period_requirement_of_spec sc_id data_input) as (D & HD & Hreq).
  exists D. split; [exact HD |].
  assert (Hkeys : forall z,
    is_Some (D !! z)
    <-> exists r, r ∈ data_input
                  /\ LoadSystemPrm.prm_requirement_scenario_id r = sc_id
                  /\ LoadSystemPrm.prm_zone r = z).
  { intros z. unfold LoadSystemPrm.zone_period_requirement_of in HD.
    rewrite (zone_loop_keys _ _ _ _ HD z), elem_of_unique, list_elem_of_fmap.
    rewrite lookup_empty. split.
    - intros [(r & -> & Hr) | [? [=]]].
      apply list_elem_of_filter in Hr. exists r. tauto.
    - intros (r & Hr & Hs & <-). left. exists r. split; [reflexivity |].
      apply list_elem_of_filter. tauto. }
  split; [exact Hkeys |]. split.
  - intros z by_period Hz Hempty. subst by_period.
    destruct (proj1 (Hkeys z)) as (r & Hr & Hs & Hzr); [rewrite Hz; eauto |].
    specialize (Hreq z (LoadSystemPrm.period r)).
    unfold LoadSystemPrm.requirement, LoadSystemPrm.first_requirement in Hreq.
    rewrite Hz in Hreq. simpl in Hreq. rewrite lookup_empty in Hreq.
    assert (Hin : r ∈ filter
                        (fun r' => LoadSystemPrm.prm_requirement_scenario_id r' = sc_id
                                   /\ LoadSystemPrm.prm_zone r' = z
                                   /\ LoadSystemPrm.period r' = LoadSystemPrm.period r)
                        data_input)
      by (apply list_elem_of_filter; tauto).
    destruct (filter _ data_input) as [|r0 rest]; [inversion Hin |].
    discriminate Hreq.
  - intros Hnone. apply map_empty. intros z.
    destruct (D !! z) as [M|] eqn:E; [|reflexivity].
    destruct (proj1 (Hkeys z)) as (r & Hr & Hs & _); [rewrite E; eauto |].
    destruct (Hnone r Hr Hs).
Qed.

Lemma prm_requirement_zone_keys_witness :
  let rows :=
    [ {| LoadSystemPrm.prm_requirement_scenario_id := 1;
         LoadSystemPrm.prm_zone := "Zone1";
         LoadSystemPrm.period := 2030;
         LoadSystemPrm.prm_requirement_mw := 100%Q |} ] in
  (forall r, r ∈ rows -> LoadSystemPrm.prm_requirement_scenario_id r <> 2%Z)
  /\ LoadSystemPrm.zone_period_requirement_of 2 rows = Py.Ok ∅.
Proof.
  intros rows.
  assert (Hnone : forall r, r ∈ rows ->
                            LoadSystemPrm.prm_requirement_scenario_id r <> 2%Z).
  { intros r Hr. apply list_elem_of_singleton in Hr as ->. discriminate. }
  split; [exact Hnone |].
  destruct (prm_requirement_zone_keys 2 rows) as (D & HD & _ & _ & Hempty).
  rewrite HD, (Hempty Hnone). reflexivity.
Defined.

(** ** The input directories with empty index names *)

(** X15.  Called with empty strings for all their temporal index
    arguments (as the tests call them), the loaders of
    static_load_requirement, carbon_cap_zones and the exogenous
    availability type all read from the same directory, the one obtained by
    joining the scenario directory with "inputs"; this is also where
    lf_reserves_down looks for resources.tab whatever its horizon and
    stage are, and where the exogenous writer writes for an empty
    subproblem and stage. *)
Theorem loaders_with_empty_indices (scenario_directory : string)
    (determine_project_subset :
       string -> string -> string -> string -> string -> list string) :
  let inputs := Py.join_step scenario_directory "inputs" in
  DataPortal.filenames
    (StaticLoadRequirement.load_model_data DataPortal.empty scenario_directory
       "" "" "" "" "")
  = [Py.join_step inputs "load_mw.tab"; Py.join_step inputs "load_level_defaults.tab"]
  /\ DataPortal.filenames
       (CarbonCapZones.load_model_data DataPortal.empty scenario_directory "" "")
     = [Py.join_step inputs "carbon_cap_zones.tab"]
  /\ DataPortal.filenames
       (Exogenous.load_module_specific_data determine_project_subset
          (fun _ => true) DataPortal.empty scenario_directory "" "")
     = [Py.join_step inputs "project_availability_exogenous.tab"]
  /\ Py.os_path_join scenario_directory ["inputs"; "resources.tab"]
     = Py.join_step inputs "resources.tab"
  /\ Py.os_path_join scenario_directory
       [ExogenousInputs.str None; ExogenousInputs.str None; "inputs";
        "project_availability_exogenous.tab"]
     = Py.join_step inputs "project_availability_exogenous.tab".
Proof.
  intros inputs. subst inputs.
  unfold StaticLoadRequirement.load_model_data, CarbonCapZones.load_model_data,
    Exogenous.load_module_specific_data, Exogenous.availability_file,
    DataPortal.filenames, DataPortal.load, DataPortal.set_data, Py.os_path_join.
  cbn [fold_left DataPortal.loads DataPortal.empty DataPortal.filename
       fmap list_fmap app ExogenousInputs.str].
  rewrite !join_step_empty_absorbed. repeat split; reflexivity.
Qed.
